(** * Momento Mori: a shallow embedding of the client screens

    The development follows the five source files of the application:

    - the entry gate [Index] (onboarding flag check and redirect),
    - the onboarding screen (birth-date and life-expectancy validation),
    - the goals screen (goal creation and status update),
    - the home screen (initial load, life-in-weeks calendar),
    - the floating widget (countdown, drag, tap, long-press, refresh timer).

    The host platform (AsyncStorage, fetch, Alert, console, router, timers)
    is modelled by a small world-passing monad [Async]; everything the
    screens do to the outside is either a change of the persisted
    key-value store or an entry in an effect log. *)

From Stdlib Require Import ZArith QArith Qminmax Lia Lqa Ascii String List.
From stdpp Require Import base option list strings gmap.
Import ListNotations.

Local Open Scope string_scope.
Local Open Scope Z_scope.

(** ** The host platform *)

Module Platform.

(** What a screen does to the outside world, in program order. *)
Inductive Effect : Type :=
| Fetch (method url : string)      (* a network call was issued *)
| AlertShown (title message : string)
| ConsoleError (message : string)
| RouterReplace (href : string).

Definition is_fetch (e : Effect) : bool :=
  match e with Fetch _ _ => true | _ => false end.

Definition is_alert (e : Effect) : bool :=
  match e with AlertShown _ _ => true | _ => false end.

(** A settled [fetch] promise.  [json] and [text] are the results of the
    body readers of the response; [None] means that reader rejects. *)
Record Response (A : Type) : Type := mkResponse {
  ok : bool;
  json : option A;
  text : option string
}.
Arguments mkResponse {A} _ _ _.
Arguments ok {A} _.
Arguments json {A} _.
Arguments text {A} _.

Inductive Reply (A : Type) : Type :=
| NetworkError                       (* fetch itself rejects *)
| Settled (r : Response A).
Arguments NetworkError {A}.
Arguments Settled {A} _.

(** The reply is a usable payload: fetch resolved, [ok] holds and the
    body parses. *)
Definition payload {A} (r : Reply A) : option A :=
  match r with
  | Settled r => if ok r then json r else None
  | NetworkError => None
  end.

(** A backend error in the sense of the error taxonomy: the fetch
    threw or the response is not 2xx. *)
Definition backend_error {A} (r : Reply A) : bool :=
  match r with
  | NetworkError => true
  | Settled r => negb (ok r)
  end.

Section World.
Context {S : Type}.

(** [ui] is the React state of the mounted component, [disk] the
    AsyncStorage contents, [faulty] the keys on which an AsyncStorage
    call currently rejects, [log] the effects so far (oldest first). *)
Record World : Type := mkWorld {
  ui : S;
  disk : gmap string string;
  faulty : gset string;
  log : list Effect
}.

(** A JavaScript completion: a value, or a thrown exception /
    rejected promise. *)
Inductive Completion (A : Type) : Type :=
| Normal (a : A)
| Abrupt.
Arguments Normal {A} _.
Arguments Abrupt {A}.

Definition Async (A : Type) : Type := World -> Completion A * World.

Definition ret {A} (a : A) : Async A := fun w => (Normal a, w).

Definition bind {A B} (m : Async A) (k : A -> Async B) : Async B :=
  fun w =>
    match m w with
    | (Normal a, w') => k a w'
    | (Abrupt, w') => (Abrupt, w')
    end.

Definition throw {A} : Async A := fun w => (Abrupt, w).

(** [try { m } catch { h }] *)
Definition try_catch {A} (m : Async A) (h : Async A) : Async A :=
  fun w =>
    match m w with
    | (Normal a, w') => (Normal a, w')
    | (Abrupt, w') => h w'
    end.

(** [try { m } finally { f }]: [f] runs on every exit of [m]; the
    completion of [m] is kept unless [f] itself is abrupt. *)
Definition finally {A} (m : Async A) (f : Async unit) : Async A :=
  fun w =>
    match m w with
    | (c, w') =>
        match f w' with
        | (Normal _, w'') => (c, w'')
        | (Abrupt, w'') => (Abrupt, w'')
        end
    end.

Definition emit (e : Effect) : Async unit :=
  fun w => (Normal tt, mkWorld (ui w) (disk w) (faulty w) (log w ++ [e])).

Definition getState : Async S := fun w => (Normal (ui w), w).

Definition setState (f : S -> S) : Async unit :=
  fun w => (Normal tt, mkWorld (f (ui w)) (disk w) (faulty w) (log w)).

(** AsyncStorage *)
Definition getItem (k : string) : Async (option string) :=
  fun w =>
    if decide (k ∈ faulty w) then (Abrupt, w)
    else (Normal (disk w !! k), w).

Definition setItem (k v : string) : Async unit :=
  fun w =>
    if decide (k ∈ faulty w) then (Abrupt, w)
    else (Normal tt, mkWorld (ui w) (<[k := v]> (disk w)) (faulty w) (log w)).

Definition removeItem (k : string) : Async unit :=
  fun w =>
    if decide (k ∈ faulty w) then (Abrupt, w)
    else (Normal tt, mkWorld (ui w) (delete k (disk w)) (faulty w) (log w)).

(** [await fetch(url, {method})]: the call is logged, then the promise
    settles as the backend replies. *)
Definition fetch {A} (method url : string) (r : Reply A) : Async (Response A) :=
  bind (emit (Fetch method url))
       (fun _ => match r with
                 | NetworkError => throw
                 | Settled resp => ret resp
                 end).

(** [await response.json()] and [await response.text()] *)
Definition read_json {A} (r : Response A) : Async A :=
  match json r with Some a => ret a | None => throw end.

Definition read_text {A} (r : Response A) : Async string :=
  match text r with Some s => ret s | None => throw end.

Definition Alert_alert (title message : string) : Async unit :=
  emit (AlertShown title message).

Definition console_error (message : string) : Async unit :=
  emit (ConsoleError message).

Definition router_replace (href : string) : Async unit :=
  emit (RouterReplace href).

End World.

Arguments World : clear implicits.
Arguments Async : clear implicits.
Arguments Normal {A} _.
Arguments Abrupt {A}.

(** JavaScript truthiness of a nullable string: neither [null] nor empty. *)
Definition truthy (s : option string) : bool :=
  match s with
  | Some s => negb (String.eqb s "")
  | None => false
  end.

End Platform.

Import Platform.

(** [Async] is a monad; the screens below are written with stdpp's
    [x ← m; k] and [m;; k]. *)
#[global] Instance async_ret {S} : MRet (Async S) := fun A => @ret S A.
#[global] Instance async_bind {S} : MBind (Async S) := fun A B k m => bind m k.

(** ** The entry gate: [Index] *)

Module Index.

Record State : Type := mkState {
  isLoading : bool;
  hasCompletedOnboarding : bool
}.

(** [useState(true)], [useState(false)] *)
Definition initial : State :=
  {| isLoading := true; hasCompletedOnboarding := false |}.

Definition setIsLoading (b : bool) (s : State) : State :=
  {| isLoading := b; hasCompletedOnboarding := hasCompletedOnboarding s |}.

Definition setHasCompletedOnboarding (b : bool) (s : State) : State :=
  {| isLoading := isLoading s; hasCompletedOnboarding := b |}.

(** [v === 'true'] on a value read from storage *)
Definition is_true_string (v : option string) : bool :=
  match v with
  | Some v => String.eqb v "true"
  | None => false
  end.

(** [v !== null] *)
Definition not_null (v : option string) : bool :=
  match v with Some _ => true | None => false end.

Definition checkOnboardingStatus : Async State unit :=
  finally
    (try_catch
       (onboardingCompleted ← getItem "onboardingCompleted";
        userProfileId ← getItem "userProfileId";
        setState (setHasCompletedOnboarding
                    (is_true_string onboardingCompleted && not_null userProfileId)))
       (console_error "Error checking onboarding status:";;
        setState (setHasCompletedOnboarding false)))
    (setState (setIsLoading false)).

Inductive View : Type :=
| LoadingView
| Redirect (href : string).

Definition render (s : State) : View :=
  if isLoading s then LoadingView
  else if hasCompletedOnboarding s then Redirect "/(tabs)"
  else Redirect "/onboarding".

(** The route shown once the mount effect has run from world [w]. *)
Definition route_after_check (w : World State) : View :=
  render (ui (snd (checkOnboardingStatus w))).

End Index.

(** ** JavaScript values used by the forms *)

Module JS.

(** A JavaScript number that is either an integer or [NaN]. *)
Definition Num : Type := option Z.

Definition NaN : Num := None.

(** [a === b] on numbers: [NaN] is not equal to itself. *)
Definition strict_eq (a b : Num) : bool :=
  match a, b with
  | Some x, Some y => x =? y
  | _, _ => false
  end.

(** [a <= b], [a < b], [a > b]: every comparison with [NaN] is false. *)
Definition le (a b : Num) : bool :=
  match a, b with
  | Some x, Some y => x <=? y
  | _, _ => false
  end.

Definition lt (a b : Num) : bool :=
  match a, b with
  | Some x, Some y => x <? y
  | _, _ => false
  end.

Definition gt (a b : Num) : bool := lt b a.

(** [a - b] *)
Definition sub (a b : Num) : Num :=
  match a, b with
  | Some x, Some y => Some (x - y)
  | _, _ => None
  end.

(** [a % m]: the remainder has the sign of the dividend. *)
Definition rem (a : Num) (m : Z) : Num :=
  match a with
  | Some x => Some (Z.rem x m)
  | None => None
  end.

(** [Math.floor(a / d)] for a positive divisor [d] *)
Definition floor_div (a : Num) (d : Z) : Num :=
  match a with
  | Some x => Some (x / d)
  | None => None
  end.

(** [x < y] on pixel coordinates *)
Definition Qlt_bool (x y : Q) : bool := negb (Qle_bool y x).

(** Code units of a string, here the ones below 256. *)
Definition code (c : ascii) : N := N_of_ascii c.

(** [\d] *)
Definition is_digit (c : ascii) : bool :=
  ((48 <=? code c) && (code c <=? 57))%N.

(** White space and line terminators removed by [String.prototype.trim]:
    TAB, LF, VT, FF, CR, SP and NBSP. *)
Definition is_space (c : ascii) : bool :=
  (((9 <=? code c) && (code c <=? 13)) || (code c =? 32) || (code c =? 160))%N.

Fixpoint trimStart (s : string) : string :=
  match s with
  | String c s' => if is_space c then trimStart s' else s
  | EmptyString => EmptyString
  end.

(** [trimEnd]: a character is dropped when it is a space and everything
    after it has been dropped. *)
Fixpoint trimEnd (s : string) : string :=
  match s with
  | String c s' =>
      match trimEnd s' with
      | EmptyString => if is_space c then EmptyString else String c EmptyString
      | t => String c t
      end
  | EmptyString => EmptyString
  end.

Definition trim (s : string) : string := trimEnd (trimStart s).

(** [!s] on a string *)
Definition is_empty (s : string) : bool :=
  match s with EmptyString => true | _ => false end.

Fixpoint all_space (s : string) : bool :=
  match s with
  | String c s' => is_space c && all_space s'
  | EmptyString => true
  end.

(** The value of a digit or letter as a digit of a radix up to 36. *)
Definition digit_value (c : ascii) : option Z :=
  let n := code c in
  if ((48 <=? n) && (n <=? 57))%N then Some (Z.of_N n - 48)
  else if ((97 <=? n) && (n <=? 122))%N then Some (Z.of_N n - 87)
  else if ((65 <=? n) && (n <=? 90))%N then Some (Z.of_N n - 55)
  else None.

(** The number written by the longest run of digits of the radix at the
    start of [s]; [acc] is the number read so far, [None] before the
    first digit. *)
Fixpoint leading_digits (radix : Z) (acc : option Z) (s : string) : option Z :=
  match s with
  | String c s' =>
      match digit_value c with
      | Some d =>
          if d <? radix
          then leading_digits radix (Some (default 0 acc * radix + d)) s'
          else acc
      | None => acc
      end
  | EmptyString => acc
  end.

(** [parseInt(s)] without a radix: leading white space is skipped, a
    sign and a [0x] prefix are read, then the longest run of digits;
    what follows is ignored, and the result is [NaN] when there is no
    digit.  (JavaScript rounds results beyond 2^53; up to there this is
    exact.) *)
Definition parseInt (s : string) : Num :=
  let s := trimStart s in
  let '(sign, s) :=
    match s with
    | String "-"%char s' => (-1, s')
    | String "+"%char s' => (1, s')
    | _ => (1, s)
    end in
  let '(radix, s) :=
    match s with
    | String "0"%char (String "x"%char s')
    | String "0"%char (String "X"%char s') => (16, s')
    | _ => (10, s)
    end in
  match leading_digits radix None s with
  | Some n => Some (sign * n)
  | None => NaN
  end.

End JS.

(** ** The onboarding screen *)

Module Onboarding.

Definition BACKEND_URL : string := "https://mortality-app.preview.emergentagent.com".

Record State : Type := mkState {
  currentStep : Z;
  birthDate : string;
  lifeExpectancy : string;
  estimatedLifeExpectancy : Z;
  country : string;
  loading : bool;
  useCustomExpectancy : bool
}.

Definition initial : State :=
  {| currentStep := 1; birthDate := ""; lifeExpectancy := "";
     estimatedLifeExpectancy := 78; country := ""; loading := false;
     useCustomExpectancy := false |}.

Definition setCurrentStep (n : Z) (s : State) : State :=
  {| currentStep := n; birthDate := birthDate s;
     lifeExpectancy := lifeExpectancy s;
     estimatedLifeExpectancy := estimatedLifeExpectancy s;
     country := country s; loading := loading s;
     useCustomExpectancy := useCustomExpectancy s |}.

Definition setLoading (b : bool) (s : State) : State :=
  {| currentStep := currentStep s; birthDate := birthDate s;
     lifeExpectancy := lifeExpectancy s;
     estimatedLifeExpectancy := estimatedLifeExpectancy s;
     country := country s; loading := b;
     useCustomExpectancy := useCustomExpectancy s |}.

(** The body of the profile the backend answers with; only [id] is read. *)
Record Profile : Type := mkProfile { id : string }.

(** [/^\d{4}-\d{2}-\d{2}$/.test(s)] *)
Definition dateRegex_test (s : string) : bool :=
  match list_ascii_of_string s with
  | [y1; y2; y3; y4; h1; m1; m2; h2; d1; d2] =>
      JS.is_digit y1 && JS.is_digit y2 && JS.is_digit y3 && JS.is_digit y4
      && Ascii.eqb h1 "-" && JS.is_digit m1 && JS.is_digit m2
      && Ascii.eqb h2 "-" && JS.is_digit d1 && JS.is_digit d2
  | _ => false
  end.

Section Builtins.

(** [new Date(s).getTime()]: the time value in milliseconds, [NaN] for
    an invalid date. *)
Variable Date_getTime : string -> JS.Num.

(** [parseInt(s)]: an integer or [NaN]. *)
Variable parseInt : string -> JS.Num.

(** [now] is [new Date().getTime()] at the call. *)
Definition validateBirthDate (now : Z) (dateString : string) : bool :=
  if JS.is_empty dateString then false
  else if negb (dateRegex_test dateString) then false
  else
    let date := Date_getTime dateString in
    JS.strict_eq date (Date_getTime dateString) && JS.le date (Some now).

Definition finalLifeExpectancy (s : State) : JS.Num :=
  if useCustomExpectancy s && negb (JS.is_empty (lifeExpectancy s))
  then parseInt (lifeExpectancy s)
  else Some (estimatedLifeExpectancy s).

Definition handleComplete (reply : Reply Profile) : Async State unit :=
  s ← getState;
  finally
    (try_catch
       (setState (setLoading true);;
        let fle := finalLifeExpectancy s in
        if JS.lt fle (Some 20) || JS.gt fle (Some 120) then
          Alert_alert "Invalid Life Expectancy"
                      "Please enter a life expectancy between 20 and 120 years.";;
          setState (setLoading false)
        else
          response ← fetch "POST" (BACKEND_URL ++ "/api/profile") reply;
          if ok response then
            profile ← read_json response;
            setItem "userProfileId" (id profile);;
            setItem "onboardingCompleted" "true";;
            router_replace "/(tabs)"
          else
            errorText ← read_text response;
            Alert_alert "Error" ("Failed to create profile: " ++ errorText))
       (console_error "Error completing onboarding:";;
        Alert_alert "Error" "Failed to complete setup. Please try again."))
    (setState (setLoading false)).

Definition handleNext (now : Z) (reply : Reply Profile) : Async State unit :=
  s ← getState;
  if currentStep s =? 1 then
    if negb (validateBirthDate now (birthDate s)) then
      Alert_alert "Invalid Date"
        "Please enter a valid birth date in YYYY-MM-DD format (e.g., 1990-12-25)"
    else setState (setCurrentStep 2)
  else if currentStep s =? 2 then handleComplete reply
  else mret tt.

End Builtins.

(** *** Country detection *)

(** [LIFE_EXPECTANCY_BY_COUNTRY]; a lookup reads an own property of the
    object.  The names an object inherits are all longer than the
    two-letter codes the geocoder answers with. *)
Definition LIFE_EXPECTANCY_BY_COUNTRY : gmap string Z :=
  list_to_map
    [("US", 79); ("CA", 82); ("GB", 81); ("DE", 81); ("FR", 82); ("IT", 83);
     ("ES", 83); ("JP", 85); ("KR", 85); ("AU", 84); ("NZ", 82); ("CH", 84);
     ("SE", 83); ("NO", 82); ("DK", 81); ("NL", 82); ("BE", 82); ("AT", 82);
     ("FI", 81); ("IE", 82); ("IN", 70); ("CN", 77); ("BR", 76); ("RU", 73);
     ("MX", 75); ("AR", 77); ("CL", 80); ("ZA", 64); ("DEFAULT", 78)].

(** [LIFE_EXPECTANCY_BY_COUNTRY['DEFAULT']] *)
Definition DEFAULT_EXPECTANCY : Z :=
  default 0 (LIFE_EXPECTANCY_BY_COUNTRY !! "DEFAULT").

(** [LIFE_EXPECTANCY_BY_COUNTRY[countryCode] || LIFE_EXPECTANCY_BY_COUNTRY['DEFAULT']] *)
Definition expectancy_of (countryCode : string) : Z :=
  match LIFE_EXPECTANCY_BY_COUNTRY !! countryCode with
  | Some n => if n =? 0 then DEFAULT_EXPECTANCY else n
  | None => DEFAULT_EXPECTANCY
  end.

Inductive PermissionStatus : Type := granted | denied | undetermined.

(** What [reverseGeocodeAsync] answers for one place. *)
Record Address : Type := mkAddress { isoCountryCode : option string }.

(** The three calls to the location service, each with the value its
    promise resolves to; [None] when it rejects. *)
Record LocationService : Type := mkLocationService {
  requestForegroundPermissionsAsync : option PermissionStatus;
  getCurrentPositionAsync : option unit;
  reverseGeocodeAsync : option (list Address)
}.

(** [await p] on a promise of the location service *)
Definition await {A} (p : option A) : Async State A :=
  match p with Some a => mret a | None => throw end.

Definition setCountry (c : string) (s : State) : State :=
  {| currentStep := currentStep s; birthDate := birthDate s;
     lifeExpectancy := lifeExpectancy s;
     estimatedLifeExpectancy := estimatedLifeExpectancy s;
     country := c; loading := loading s;
     useCustomExpectancy := useCustomExpectancy s |}.

Definition setEstimatedLifeExpectancy (n : Z) (s : State) : State :=
  {| currentStep := currentStep s; birthDate := birthDate s;
     lifeExpectancy := lifeExpectancy s;
     estimatedLifeExpectancy := n;
     country := country s; loading := loading s;
     useCustomExpectancy := useCustomExpectancy s |}.

Definition detectCountry (Location : LocationService) : Async State unit :=
  try_catch
    (status ← await (requestForegroundPermissionsAsync Location);
     match status with
     | granted =>
         _ ← await (getCurrentPositionAsync Location);
         geocode ← await (reverseGeocodeAsync Location);
         match geocode with
         | first :: _ =>
             let countryCode :=
               match isoCountryCode first with
               | Some c => if JS.is_empty c then "DEFAULT" else c
               | None => "DEFAULT"
               end in
             setState (setCountry countryCode);;
             setState (setEstimatedLifeExpectancy (expectancy_of countryCode))
         | [] => mret tt
         end
     | _ => setState (setEstimatedLifeExpectancy DEFAULT_EXPECTANCY)
     end)
    (console_error "Error detecting country:";;
     setState (setEstimatedLifeExpectancy DEFAULT_EXPECTANCY)).

(** The Back button: [setCurrentStep(currentStep - 1)], shown when
    [currentStep > 1]. *)
Definition handleBack : Async State unit :=
  s ← getState;
  if 1 <? currentStep s then setState (setCurrentStep (currentStep s - 1))
  else mret tt.

End Onboarding.

(** ** The goals screen *)

Module Goals.

Inductive Category : Type := career | health | personal | financial | relationship.
Inductive Priority : Type := low | medium | high.
Inductive Status : Type := active | completed | paused.

(** ['all' | Goal['status']] *)
Inductive StatusFilter : Type := all | only (s : Status).
Inductive CategoryFilter : Type := all_categories | only_category (c : Category).

Definition Status_to_string (s : Status) : string :=
  match s with
  | active => "active"
  | completed => "completed"
  | paused => "paused"
  end.

Module Goal.
Record t : Type := mk {
  id : string;
  title : string;
  description : string;
  category : Category;
  priority : Priority;
  status : Status;
  target_date : string;
  created_at : string;
  updated_at : string
}.
End Goal.

Record State : Type := mkState {
  goals : list Goal.t;
  loading : bool;
  userProfileId : option string;
  showAddForm : bool;
  title : string;
  description : string;
  category : Category;
  priority : Priority;
  targetDate : string;
  statusFilter : StatusFilter;
  categoryFilter : CategoryFilter
}.

Definition initial : State :=
  {| goals := []; loading := false; userProfileId := None;
     showAddForm := false; title := ""; description := "";
     category := personal; priority := medium; targetDate := "";
     statusFilter := all; categoryFilter := all_categories |}.

Definition setGoals (g : list Goal.t) (s : State) : State :=
  {| goals := g; loading := loading s; userProfileId := userProfileId s;
     showAddForm := showAddForm s; title := title s;
     description := description s; category := category s;
     priority := priority s; targetDate := targetDate s;
     statusFilter := statusFilter s; categoryFilter := categoryFilter s |}.

Definition setLoading (b : bool) (s : State) : State :=
  {| goals := goals s; loading := b; userProfileId := userProfileId s;
     showAddForm := showAddForm s; title := title s;
     description := description s; category := category s;
     priority := priority s; targetDate := targetDate s;
     statusFilter := statusFilter s; categoryFilter := categoryFilter s |}.

Definition setShowAddForm (b : bool) (s : State) : State :=
  {| goals := goals s; loading := loading s; userProfileId := userProfileId s;
     showAddForm := b; title := title s;
     description := description s; category := category s;
     priority := priority s; targetDate := targetDate s;
     statusFilter := statusFilter s; categoryFilter := categoryFilter s |}.

(** [resetForm]: the five form setters in one step *)
Definition resetForm (s : State) : State :=
  {| goals := goals s; loading := loading s; userProfileId := userProfileId s;
     showAddForm := showAddForm s; title := "";
     description := ""; category := personal;
     priority := medium; targetDate := "";
     statusFilter := statusFilter s; categoryFilter := categoryFilter s |}.

Section Config.

(** [Constants.expoConfig?.extra?.EXPO_BACKEND_URL || 'http://localhost:8001'] *)
Variable BACKEND_URL : string.

Definition fetchGoals (reply : Reply (list Goal.t)) : Async State unit :=
  s ← getState;
  match userProfileId s with
  | Some profileId =>
      if JS.is_empty profileId then mret tt
      else
        setState (setLoading true);;
        finally
          (try_catch
             (let statusParam :=
                match statusFilter s with
                | all => ""
                | only st => "?status=" ++ Status_to_string st
                end in
              response ← fetch "GET"
                (BACKEND_URL ++ "/api/goals/" ++ profileId ++ statusParam) reply;
              if ok response then
                data ← read_json response;
                setState (setGoals data)
              else mret tt)
             (console_error "Error fetching goals:"))
          (setState (setLoading false))
  | None => mret tt
  end.

(** [post] answers the POST, [refetch] the list reload that follows a
    successful creation. *)
Definition createGoal (post : Reply unit) (refetch : Reply (list Goal.t))
  : Async State unit :=
  s ← getState;
  if negb (truthy (userProfileId s)) then
    Alert_alert "Error" "User profile not found"
  else if JS.is_empty (JS.trim (title s)) then
    Alert_alert "Validation Error" "Please enter a goal title"
  else
    setState (setLoading true);;
    finally
      (try_catch
         (response ← fetch "POST" (BACKEND_URL ++ "/api/goals") post;
          if ok response then
            Alert_alert "Success" "Goal created successfully!";;
            setState resetForm;;
            setState (setShowAddForm false);;
            fetchGoals refetch
          else
            Alert_alert "Error" "Failed to create goal")
         (console_error "Error creating goal:";;
          Alert_alert "Error" "Failed to create goal"))
      (setState (setLoading false)).

Definition updateGoalStatus (goalId : string) (newStatus : Status)
    (put : Reply unit) (refetch : Reply (list Goal.t)) : Async State unit :=
  setState (setLoading true);;
  finally
    (try_catch
       (response ← fetch "PUT" (BACKEND_URL ++ "/api/goals/" ++ goalId) put;
        if ok response then fetchGoals refetch
        else Alert_alert "Error" "Failed to update goal status")
       (console_error "Error updating goal:";;
        Alert_alert "Error" "Failed to update goal status"))
    (setState (setLoading false)).

End Config.

(** *** Profile, palettes and the category filter *)

Definition setUserProfileId (p : option string) (s : State) : State :=
  {| goals := goals s; loading := loading s; userProfileId := p;
     showAddForm := showAddForm s; title := title s;
     description := description s; category := category s;
     priority := priority s; targetDate := targetDate s;
     statusFilter := statusFilter s; categoryFilter := categoryFilter s |}.

Definition getUserProfile : Async State unit :=
  try_catch
    (profileId ← getItem "userProfileId";
     setState (setUserProfileId profileId))
    (console_error "Error getting user profile:").

#[global] Instance Category_eq_dec : EqDecision Category.
Proof. solve_decision. Defined.

#[global] Instance Priority_eq_dec : EqDecision Priority.
Proof. solve_decision. Defined.

Record Swatch (A : Type) : Type := mkSwatch {
  value : A;
  label : string;
  color : string
}.
Arguments mkSwatch {A} _ _ _.
Arguments value {A} _.
Arguments label {A} _.
Arguments color {A} _.

Definition CATEGORIES : list (Swatch Category) :=
  [ mkSwatch career "Career" "#4CAF50";
    mkSwatch health "Health" "#FF5722";
    mkSwatch personal "Personal" "#2196F3";
    mkSwatch financial "Financial" "#FF9800";
    mkSwatch relationship "Relationship" "#E91E63" ].

Definition PRIORITIES : list (Swatch Priority) :=
  [ mkSwatch low "Low" "#FFC107";
    mkSwatch medium "Medium" "#FF9800";
    mkSwatch high "High" "#F44336" ].

(** [obj?.color || '#888'] *)
Definition color_or_grey {A} (obj : option (Swatch A)) : string :=
  match obj with
  | Some o => if JS.is_empty (color o) then "#888" else color o
  | None => "#888"
  end.

Definition getCategoryColor (cat : Category) : string :=
  color_or_grey (find (fun c => bool_decide (value c = cat)) CATEGORIES).

Definition getPriorityColor (pri : Priority) : string :=
  color_or_grey (find (fun p => bool_decide (value p = pri)) PRIORITIES).

Definition getFilteredGoals (s : State) : list Goal.t :=
  match categoryFilter s with
  | all_categories => goals s
  | only_category c => filter (fun goal => Goal.category goal = c) (goals s)
  end.

(** The two buttons of a goal card: the status each one asks for. *)
Definition completeButtonTarget (goal : Goal.t) : Status :=
  match Goal.status goal with completed => active | _ => completed end.

Definition pauseButtonTarget (goal : Goal.t) : Status :=
  match Goal.status goal with paused => active | _ => paused end.

Section Effects.

Variable BACKEND_URL : string.

(** The second mount effect, which runs again when [userProfileId] or
    [statusFilter] changes. *)
Definition goalsEffect (reply : Reply (list Goal.t)) : Async State unit :=
  s ← getState;
  if truthy (userProfileId s) then fetchGoals BACKEND_URL reply else mret tt.

End Effects.

End Goals.

(** ** The reflection screen *)

Module Reflect.

Inductive ReflectionType : Type := daily | weekly | monthly.

Definition ReflectionType_to_string (t : ReflectionType) : string :=
  match t with
  | daily => "daily"
  | weekly => "weekly"
  | monthly => "monthly"
  end.

Module Reflection.
Record t : Type := mk {
  id : string;
  type : ReflectionType;
  date : string;
  mood_score : Z;
  productivity_score : Z;
  gratitude_items : list string;
  lessons_learned : list string;
  goals_progress : list string;
  challenges_faced : list string;
  created_at : string
}.
End Reflection.

Definition DAILY_QUESTIONS : list string :=
  [ "What are three things you're grateful for today?";
    "What did you accomplish today that you're proud of?";
    "What's your main focus for tomorrow?" ].

Definition WEEKLY_QUESTIONS : list string :=
  [ "What were your biggest achievements this week?";
    "What challenges did you overcome?";
    "What lessons did you learn?";
    "What are your priorities for next week?" ].

Definition MONTHLY_QUESTIONS : list string :=
  [ "What major goals did you achieve this month?";
    "What habits did you develop or improve?";
    "What would you do differently?";
    "What are your priorities for next month?" ].

Record State : Type := mkState {
  activeTab : ReflectionType;
  reflections : list Reflection.t;
  loading : bool;
  userProfileId : option string;
  moodScore : Z;
  productivityScore : Z;
  responses : list string
}.

Definition initial : State :=
  {| activeTab := daily; reflections := []; loading := false;
     userProfileId := None; moodScore := 3; productivityScore := 3;
     responses := [""; ""; ""; ""] |}.

Definition setActiveTab (t : ReflectionType) (s : State) : State :=
  {| activeTab := t; reflections := reflections s; loading := loading s;
     userProfileId := userProfileId s; moodScore := moodScore s;
     productivityScore := productivityScore s; responses := responses s |}.

Definition setReflections (r : list Reflection.t) (s : State) : State :=
  {| activeTab := activeTab s; reflections := r; loading := loading s;
     userProfileId := userProfileId s; moodScore := moodScore s;
     productivityScore := productivityScore s; responses := responses s |}.

Definition setLoading (b : bool) (s : State) : State :=
  {| activeTab := activeTab s; reflections := reflections s; loading := b;
     userProfileId := userProfileId s; moodScore := moodScore s;
     productivityScore := productivityScore s; responses := responses s |}.

Definition setUserProfileId (p : option string) (s : State) : State :=
  {| activeTab := activeTab s; reflections := reflections s; loading := loading s;
     userProfileId := p; moodScore := moodScore s;
     productivityScore := productivityScore s; responses := responses s |}.

Definition setMoodScore (n : Z) (s : State) : State :=
  {| activeTab := activeTab s; reflections := reflections s; loading := loading s;
     userProfileId := userProfileId s; moodScore := n;
     productivityScore := productivityScore s; responses := responses s |}.

Definition setProductivityScore (n : Z) (s : State) : State :=
  {| activeTab := activeTab s; reflections := reflections s; loading := loading s;
     userProfileId := userProfileId s; moodScore := moodScore s;
     productivityScore := n; responses := responses s |}.

Definition setResponses (r : list string) (s : State) : State :=
  {| activeTab := activeTab s; reflections := reflections s; loading := loading s;
     userProfileId := userProfileId s; moodScore := moodScore s;
     productivityScore := productivityScore s; responses := r |}.

Definition getQuestionsForType (s : State) : list string :=
  match activeTab s with
  | daily => DAILY_QUESTIONS
  | weekly => WEEKLY_QUESTIONS
  | monthly => MONTHLY_QUESTIONS
  end.

(** [responses.slice(0, questions.length).filter(r => r.trim())] *)
Definition filledResponses (s : State) : list string :=
  filter (fun r => JS.is_empty (JS.trim r) = false)
         (take (length (getQuestionsForType s)) (responses s)).

(** The object handed to [JSON.stringify]; an item is [None] where
    [responses[i]] is [undefined]. *)
Module Payload.
Record t : Type := mk {
  user_id : string;
  type : ReflectionType;
  mood_score : Z;
  productivity_score : Z;
  gratitude_items : list (option string);
  lessons_learned : list (option string);
  goals_progress : list (option string);
  challenges_faced : list (option string)
}.
End Payload.

Definition reflectionData (profileId : string) (s : State) : Payload.t :=
  let questions := getQuestionsForType s in
  let is_daily := match activeTab s with daily => true | _ => false end in
  {| Payload.user_id := profileId;
     Payload.type := activeTab s;
     Payload.mood_score := moodScore s;
     Payload.productivity_score := productivityScore s;
     Payload.gratitude_items := if is_daily then [responses s !! 0%nat] else [];
     Payload.lessons_learned :=
       if is_daily then [responses s !! 1%nat]
       else Some <$> take (length questions) (responses s);
     Payload.goals_progress := if is_daily then [responses s !! 2%nat] else [];
     Payload.challenges_faced := [] |}.

Definition getUserProfile : Async State unit :=
  try_catch
    (profileId ← getItem "userProfileId";
     setState (setUserProfileId profileId))
    (console_error "Error getting user profile:").

Section Config.

Variable BACKEND_URL : string.

Definition fetchReflections (reply : Reply (list Reflection.t)) : Async State unit :=
  s ← getState;
  match userProfileId s with
  | Some profileId =>
      if JS.is_empty profileId then mret tt
      else
        setState (setLoading true);;
        finally
          (try_catch
             (response ← fetch "GET"
                (BACKEND_URL ++ "/api/reflections/" ++ profileId ++ "?type="
                 ++ ReflectionType_to_string (activeTab s)) reply;
              if ok response then
                data ← read_json response;
                setState (setReflections data)
              else mret tt)
             (console_error "Error fetching reflections:"))
          (setState (setLoading false))
  | None => mret tt
  end.

Definition submitReflection (post : Reply unit)
    (refetch : Reply (list Reflection.t)) : Async State unit :=
  s ← getState;
  if negb (truthy (userProfileId s)) then
    Alert_alert "Error" "User profile not found"
  else
    let questions := getQuestionsForType s in
    if (length (filledResponses s) <? length questions)%nat then
      Alert_alert "Incomplete" "Please answer all questions before submitting"
    else
      setState (setLoading true);;
      finally
        (try_catch
           (response ← fetch "POST" (BACKEND_URL ++ "/api/reflections") post;
            if ok response then
              Alert_alert "Success" "Reflection saved successfully!";;
              setState (setResponses [""; ""; ""; ""]);;
              setState (setMoodScore 3);;
              setState (setProductivityScore 3);;
              fetchReflections refetch
            else
              Alert_alert "Error" "Failed to save reflection")
           (console_error "Error submitting reflection:";;
            Alert_alert "Error" "Failed to save reflection"))
        (setState (setLoading false)).

(** The effect on [userProfileId] and [activeTab]. *)
Definition reflectionsEffect (reply : Reply (list Reflection.t)) : Async State unit :=
  s ← getState;
  if truthy (userProfileId s) then fetchReflections reply else mret tt.

(** *** The form *)

(** [const newResponses = [...responses]; newResponses[index] = text;
    setResponses(newResponses)], for an index inside the array. *)
Definition onChangeText (index : nat) (text : string) : Async State unit :=
  s ← getState;
  setState (setResponses (<[index := text]> (responses s))).

(** What the user can do on the screen.  A text input exists for each
    question of the active tab, the two scales are shown on the daily
    tab with the buttons 1 to 5, and the save button is disabled while
    [loading]; an event on a control that is not on the screen does
    nothing.  [PressTab] and [PressSave] carry the replies of the
    requests they lead to. *)
Inductive Event : Type :=
| TypeAnswer (index : nat) (text : string)
| PressTab (tab : ReflectionType) (reply : Reply (list Reflection.t))
| PressMood (score : Z)
| PressProductivity (score : Z)
| PressSave (post : Reply unit) (refetch : Reply (list Reflection.t)).

Definition on_scale (s : State) (score : Z) : bool :=
  match activeTab s with
  | daily => (1 <=? score) && (score <=? 5)
  | _ => false
  end.

Definition handle (ev : Event) : Async State unit :=
  s ← getState;
  match ev with
  | TypeAnswer index text =>
      if (index <? length (getQuestionsForType s))%nat
      then onChangeText index text else mret tt
  | PressTab tab reply =>
      setState (setActiveTab tab);;
      match activeTab s, tab with
      | daily, daily | weekly, weekly | monthly, monthly => mret tt
      | _, _ => reflectionsEffect reply
      end
  | PressMood score =>
      if on_scale s score then setState (setMoodScore score) else mret tt
  | PressProductivity score =>
      if on_scale s score then setState (setProductivityScore score) else mret tt
  | PressSave post refetch =>
      if loading s then mret tt else submitReflection post refetch
  end.

(** The events in order, each handler run to completion. *)
Fixpoint session (evs : list Event) : Async State unit :=
  match evs with
  | [] => mret tt
  | ev :: evs' => handle ev;; session evs'
  end.

End Config.

End Reflect.

(** ** The home screen *)

Module Home.

Definition BACKEND_URL : string := "https://mortality-app.preview.emergentagent.com".

Record UserProfile : Type := mkUserProfile {
  id : string;
  birth_date : string;
  life_expectancy : Z;
  name : string;
  country : option string
}.

Record MortalityStats : Type := mkMortalityStats {
  days_lived : Z;
  days_remaining : Z;
  weeks_lived : Z;
  weeks_remaining : Z;
  life_percentage : Q;
  current_age : Z;
  expected_death_date : string
}.

Module Quote.
Record t : Type := mk { id : string; text : string; author : string }.
End Quote.

Record State : Type := mkState {
  userProfile : option UserProfile;
  mortalityStats : option MortalityStats;
  quote : option Quote.t;
  loading : bool;
  refreshing : bool;
  error : option string
}.

Definition initial : State :=
  {| userProfile := None; mortalityStats := None; quote := None;
     loading := true; refreshing := false; error := None |}.

Definition setLoaded (p : UserProfile) (m : MortalityStats) (q : Quote.t)
    (s : State) : State :=
  {| userProfile := Some p; mortalityStats := Some m; quote := Some q;
     loading := loading s; refreshing := refreshing s; error := None |}.

Definition setLoading (b : bool) (s : State) : State :=
  {| userProfile := userProfile s; mortalityStats := mortalityStats s;
     quote := quote s; loading := b; refreshing := refreshing s;
     error := error s |}.

Definition setRefreshing (b : bool) (s : State) : State :=
  {| userProfile := userProfile s; mortalityStats := mortalityStats s;
     quote := quote s; loading := loading s; refreshing := b;
     error := error s |}.

Definition setError (e : option string) (s : State) : State :=
  {| userProfile := userProfile s; mortalityStats := mortalityStats s;
     quote := quote s; loading := loading s; refreshing := refreshing s;
     error := e |}.

(** [await Promise.all([a, b, c])] on three settled promises: abrupt as
    soon as one of them rejected. *)
Definition Promise_all3 {A B C} (a : option A) (b : option B) (c : option C)
  : Async State (A * B * C) :=
  match a, b, c with
  | Some x, Some y, Some z => mret (x, y, z)
  | _, _, _ => throw
  end.

Definition settled {A} (r : Reply A) : option (Response A) :=
  match r with Settled x => Some x | NetworkError => None end.

Definition fetchUserData (profileId : string)
    (profile : Reply UserProfile) (mortality : Reply MortalityStats)
    (daily : Reply Quote.t) : Async State bool :=
  finally
    (try_catch
       ((* the three requests are issued before any of them is awaited *)
        emit (Fetch "GET" (BACKEND_URL ++ "/api/profile/" ++ profileId));;
        emit (Fetch "GET" (BACKEND_URL ++ "/api/mortality/" ++ profileId));;
        emit (Fetch "GET" (BACKEND_URL ++ "/api/quotes/daily"));;
        '(profileResponse, mortalityResponse, quoteResponse) ←
           Promise_all3 (settled profile) (settled mortality) (settled daily);
        if ok profileResponse && ok mortalityResponse && ok quoteResponse then
          '(profileData, mortalityData, quoteData) ←
             Promise_all3 (json profileResponse) (json mortalityResponse)
                          (json quoteResponse);
          setState (setLoaded profileData mortalityData quoteData);;
          mret true
        else
          console_error "Failed to fetch user data";;
          mret false)
       (console_error "Error fetching user data:";;
        mret false))
    (setState (setLoading false);;
     setState (setRefreshing false)).

Definition initializeUser
    (profile : Reply UserProfile) (mortality : Reply MortalityStats)
    (daily : Reply Quote.t) : Async State unit :=
  try_catch
    (storedProfileId ← getItem "userProfileId";
     onboardingCompleted ← getItem "onboardingCompleted";
     match storedProfileId with
     | Some profileId =>
         if negb (JS.is_empty profileId) && Index.is_true_string onboardingCompleted
         then
           success ← fetchUserData profileId profile mortality daily;
           if negb success then
             removeItem "userProfileId";;
             removeItem "onboardingCompleted";;
             router_replace "/onboarding"
           else mret tt
         else router_replace "/onboarding"
     | None => router_replace "/onboarding"
     end)
    (console_error "Error initializing user:";;
     setState (setError (Some "Failed to load user data. Please try again."));;
     setState (setLoading false)).

Definition onRefresh
    (profile : Reply UserProfile) (mortality : Reply MortalityStats)
    (daily : Reply Quote.t) : Async State unit :=
  setState (setRefreshing true);;
  profileId ← getItem "userProfileId";
  match profileId with
  | Some profileId =>
      if JS.is_empty profileId then mret tt
      else _ ← fetchUserData profileId profile mortality daily; mret tt
  | None => mret tt
  end.

(** *** Life in weeks *)

Record Dot : Type := mkDot {
  weekNumber : Z;
  isLived : bool;
  isCurrent : bool;
  isRemaining : bool
}.

(** The body of the inner [Array.from] callback. *)
Definition dot (weeks_lived rowIndex weekIndex : Z) : Dot :=
  let weekNumber := rowIndex * 52 + weekIndex + 1 in
  {| weekNumber := weekNumber;
     isLived := weekNumber <=? weeks_lived;
     isCurrent := weekNumber =? weeks_lived + 1;
     isRemaining := weekNumber >? weeks_lived + 1 |}.

(** [Array.from({ length: n }, (_, i) => f i)] *)
Definition Array_from {A} (n : nat) (f : Z -> A) : list A :=
  map (fun i => f (Z.of_nat i)) (seq 0 n).

Definition calendar (weeks_lived : Z) : list (list Dot) :=
  Array_from 20 (fun rowIndex =>
    Array_from 52 (fun weekIndex => dot weeks_lived rowIndex weekIndex)).

(** Number of the three style flags that are set on a dot. *)
Definition styles_set (d : Dot) : nat :=
  (if isLived d then 1 else 0) + (if isCurrent d then 1 else 0)
  + (if isRemaining d then 1 else 0).

(** *** Quote refresh *)

Definition setQuote (q : Quote.t) (s : State) : State :=
  {| userProfile := userProfile s; mortalityStats := mortalityStats s;
     quote := Some q; loading := loading s; refreshing := refreshing s;
     error := error s |}.

Definition refreshQuote (daily : Reply Quote.t) : Async State unit :=
  try_catch
    (response ← fetch "GET" (BACKEND_URL ++ "/api/quotes/daily") daily;
     if ok response then
       quoteData ← read_json response;
       setState (setQuote quoteData)
     else mret tt)
    (console_error "Error refreshing quote:").

(** *** What the screen shows *)

Inductive View : Type :=
| LoadingView
| ErrorView (message : string)        (* with the Retry button *)
| Content (quote_section stats_section calendar_section : bool).

(** [error] is a string or [null]: the empty string is falsy too. *)
Definition render (s : State) : View :=
  let content :=
    let stats := match mortalityStats s, userProfile s with
                 | Some _, Some _ => true
                 | _, _ => false
                 end in
    Content (match quote s with Some _ => true | None => false end) stats stats in
  if loading s then LoadingView
  else
    match error s with
    | Some e => if JS.is_empty e then content else ErrorView e
    | None => content
    end.

End Home.

(** ** The floating widget *)

Module FloatingWidget.

Module Quote.
Record t : Type := mk {
  id : string;
  text : string;
  author : string;
  category : string
}.
End Quote.

Record MortalityStats : Type := mkMortalityStats {
  days_lived : Z;
  days_remaining : Z;
  life_percentage : Q;
  year_percentage : Q;
  month_percentage : Q;
  expected_death_date : string
}.

Inductive Mode : Type := countdown | quote_mode.

(** The component: its React state, the four [Animated.Value]s and the
    [gestureState] ref.  An animated value is represented by the number
    it holds at rest: what a direct event mapping last wrote, or the
    [toValue] of the spring started last on it.  [stale] records that a
    state setter has run since the latest render. *)
Record Widget : Type := mkWidget {
  isMinimized : bool;
  mode : Mode;
  quote : option Quote.t;
  mortalityStats : option MortalityStats;
  userProfileId : option string;
  translateX : Q;
  translateY : Q;
  scale : Q;
  opacity : Q;
  gestureState : Q * Q;
  stale : bool
}.

Definition setIsMinimized (b : bool) (w : Widget) : Widget :=
  {| isMinimized := b; mode := mode w; quote := quote w;
     mortalityStats := mortalityStats w; userProfileId := userProfileId w;
     translateX := translateX w; translateY := translateY w;
     scale := scale w; opacity := opacity w;
     gestureState := gestureState w; stale := true |}.

Definition setMode (m : Mode) (w : Widget) : Widget :=
  {| isMinimized := isMinimized w; mode := m; quote := quote w;
     mortalityStats := mortalityStats w; userProfileId := userProfileId w;
     translateX := translateX w; translateY := translateY w;
     scale := scale w; opacity := opacity w;
     gestureState := gestureState w; stale := true |}.

(** The fetched body is a fresh object: the setter always schedules a
    render. *)
Definition setQuote (q : Quote.t) (w : Widget) : Widget :=
  {| isMinimized := isMinimized w; mode := mode w; quote := Some q;
     mortalityStats := mortalityStats w; userProfileId := userProfileId w;
     translateX := translateX w; translateY := translateY w;
     scale := scale w; opacity := opacity w;
     gestureState := gestureState w; stale := true |}.

Definition setMortalityStats (m : MortalityStats) (w : Widget) : Widget :=
  {| isMinimized := isMinimized w; mode := mode w; quote := quote w;
     mortalityStats := Some m; userProfileId := userProfileId w;
     translateX := translateX w; translateY := translateY w;
     scale := scale w; opacity := opacity w;
     gestureState := gestureState w; stale := true |}.

(** A string or [null]: setting the value already held schedules
    nothing. *)
Definition setUserProfileId (p : option string) (w : Widget) : Widget :=
  {| isMinimized := isMinimized w; mode := mode w; quote := quote w;
     mortalityStats := mortalityStats w; userProfileId := p;
     translateX := translateX w; translateY := translateY w;
     scale := scale w; opacity := opacity w;
     gestureState := gestureState w;
     stale := if decide (p = userProfileId w) then stale w else true |}.

Definition setTranslate (x y : Q) (w : Widget) : Widget :=
  {| isMinimized := isMinimized w; mode := mode w; quote := quote w;
     mortalityStats := mortalityStats w; userProfileId := userProfileId w;
     translateX := x; translateY := y;
     scale := scale w; opacity := opacity w;
     gestureState := gestureState w; stale := stale w |}.

Definition setGestureState (x y : Q) (w : Widget) : Widget :=
  {| isMinimized := isMinimized w; mode := mode w; quote := quote w;
     mortalityStats := mortalityStats w; userProfileId := userProfileId w;
     translateX := translateX w; translateY := translateY w;
     scale := scale w; opacity := opacity w;
     gestureState := (x, y); stale := stale w |}.

Definition springScaleOpacity (sc op : Q) (w : Widget) : Widget :=
  {| isMinimized := isMinimized w; mode := mode w; quote := quote w;
     mortalityStats := mortalityStats w; userProfileId := userProfileId w;
     translateX := translateX w; translateY := translateY w;
     scale := sc; opacity := op;
     gestureState := gestureState w; stale := stale w |}.

Definition rendered (w : Widget) : Widget :=
  {| isMinimized := isMinimized w; mode := mode w; quote := quote w;
     mortalityStats := mortalityStats w; userProfileId := userProfileId w;
     translateX := translateX w; translateY := translateY w;
     scale := scale w; opacity := opacity w;
     gestureState := gestureState w; stale := false |}.

(** The handler states of the gesture library, the values that
    [event.nativeEvent.state] takes; a release arrives as [END]. *)
Inductive GestureState : Type :=
| UNDETERMINED | FAILED | BEGAN | CANCELLED | ACTIVE | END.

#[global] Instance GestureState_eq_dec : EqDecision GestureState.
Proof. solve_decision. Defined.

(** The [State] object of the gesture library, which names the handler
    states: its members.  (Platform code; the component imports the
    name [State].) *)
Definition State : list (string * GestureState) :=
  [ ("UNDETERMINED", UNDETERMINED); ("FAILED", FAILED); ("BEGAN", BEGAN);
    ("CANCELLED", CANCELLED); ("ACTIVE", ACTIVE); ("END", END) ].

(** [State.name]: the member of that name, [undefined] ([None]) when
    there is none. *)
Definition State_member (name : string) : option GestureState :=
  snd <$> List.find (fun member => String.eqb (fst member) name) State.

Record NativeEvent : Type := mkNativeEvent {
  state : GestureState;
  translationX : Q;
  translationY : Q
}.

Record TimeRemaining : Type := mkTimeRemaining {
  years : JS.Num;
  days : JS.Num;
  hours : JS.Num;
  minutes : JS.Num;
  seconds : JS.Num
}.

Definition zero_remaining : TimeRemaining :=
  {| years := Some 0; days := Some 0; hours := Some 0;
     minutes := Some 0; seconds := Some 0 |}.

(** [365.25 * 24 * 60 * 60 * 1000] and the smaller units, in
    milliseconds; all of them are integers. *)
Definition year_ms : Z := 36525 * 24 * 60 * 60 * 1000 / 100.
Definition day_ms : Z := 24 * 60 * 60 * 1000.
Definition hour_ms : Z := 60 * 60 * 1000.
Definition minute_ms : Z := 60 * 1000.

Inductive Glyph : Type := AlarmClock | ThoughtBalloon.

(** What the widget shows. *)
Inductive View : Type :=
| Icon (g : Glyph)
| CountdownCard (years days hours minutes : JS.Num)
| QuoteCard (text author : string).

(** [s || fallback] *)
Definition or_else (s : option string) (fallback : string) : string :=
  match s with
  | Some s => if JS.is_empty s then fallback else s
  | None => fallback
  end.

Section Config.

(** [Dimensions.get('window')] *)
Variables screenWidth screenHeight : Q.

Variable BACKEND_URL : string.

(** [new Date(s).getTime()] *)
Variable Date_getTime : string -> JS.Num.

Definition initial : Widget :=
  {| isMinimized := false; mode := countdown; quote := None;
     mortalityStats := None; userProfileId := None;
     translateX := (screenWidth - 120)%Q;
     translateY := (screenHeight / 2 - 60)%Q;
     scale := 1%Q; opacity := 0.9%Q;
     gestureState := (0%Q, 0%Q); stale := false |}.

Definition initializeWidget : Async Widget unit :=
  try_catch
    (profileId ← getItem "userProfileId";
     setState (setUserProfileId profileId))
    (console_error "Error initializing widget:").

(** [userProfileId] is the value in the closure of the render that
    created this [fetchData]. *)
Definition fetchData (userProfileId : option string)
    (mortality : Reply MortalityStats) (daily : Reply Quote.t)
  : Async Widget unit :=
  match userProfileId with
  | Some profileId =>
      if JS.is_empty profileId then mret tt
      else
        try_catch
          (mortalityResponse ← fetch "GET"
             (BACKEND_URL ++ "/api/mortality/" ++ profileId) mortality;
           (if ok mortalityResponse then
              mortalityData ← read_json mortalityResponse;
              setState (setMortalityStats mortalityData)
            else mret tt);;
           quoteResponse ← fetch "GET" (BACKEND_URL ++ "/api/quotes/daily") daily;
           if ok quoteResponse then
             quoteData ← read_json quoteResponse;
             setState (setQuote quoteData)
           else mret tt)
          (console_error "Error fetching widget data:")
  | None => mret tt
  end.

(** [Animated.event] mapping of the pan translation onto the two
    animated values. *)
Definition handleGestureEvent (e : NativeEvent) (w : Widget) : Widget :=
  setTranslate (translationX e) (translationY e) w.

(** The test is [event.nativeEvent.state === State.ENDED]: the state of
    the event against the member [ENDED] of [State]. *)
Definition handleGestureStateChange (e : NativeEvent) (w : Widget) : Widget :=
  if bool_decide (Some (state e) = State_member "ENDED") then
    let tx := translationX e in
    let ty := translationY e in
    let finalX :=
      if JS.Qlt_bool tx (screenWidth / 2) then 20%Q
      else (screenWidth - 120)%Q in
    let finalY := Qmax 100 (Qmin (screenHeight - 160) ty) in
    setGestureState finalX finalY (setTranslate finalX finalY w)
  else w.

Definition toggleMinimized (w : Widget) : Widget :=
  springScaleOpacity
    (if isMinimized w then 1%Q else 0.7%Q)
    (if isMinimized w then 0.9%Q else 0.6%Q)
    (setIsMinimized (negb (isMinimized w)) w).

Definition switchMode (w : Widget) : Widget :=
  setMode (match mode w with countdown => quote_mode | quote_mode => countdown end) w.

(** [now] is [new Date().getTime()] at the call. *)
Definition formatTimeRemaining (now : Z) (w : Widget) : TimeRemaining :=
  match mortalityStats w with
  | None => zero_remaining
  | Some stats =>
      let deathDate := Date_getTime (expected_death_date stats) in
      let timeDiff := JS.sub deathDate (Some now) in
      if JS.le timeDiff (Some 0) then zero_remaining
      else
        {| years := JS.floor_div timeDiff year_ms;
           days := JS.floor_div (JS.rem timeDiff year_ms) day_ms;
           hours := JS.floor_div (JS.rem timeDiff day_ms) hour_ms;
           minutes := JS.floor_div (JS.rem timeDiff hour_ms) minute_ms;
           seconds := JS.floor_div (JS.rem timeDiff minute_ms) 1000 |}
  end.

Definition renderCountdownContent (timeRemaining : TimeRemaining) (w : Widget) : View :=
  if isMinimized w then Icon AlarmClock
  else CountdownCard (years timeRemaining) (days timeRemaining)
                     (hours timeRemaining) (minutes timeRemaining).

Definition renderQuoteContent (w : Widget) : View :=
  if isMinimized w then Icon ThoughtBalloon
  else QuoteCard (or_else (Quote.text <$> quote w) "Loading quote...")
                 (or_else (Quote.author <$> quote w) "Unknown").

(** The component body: [timeRemaining] is computed at every render,
    from the wall clock of that render. *)
Definition render (now : Z) (w : Widget) : View :=
  let timeRemaining := formatTimeRemaining now w in
  match mode w with
  | countdown => renderCountdownContent timeRemaining w
  | quote_mode => renderQuoteContent w
  end.

(** *** Mounting, the refresh timer and the events of a session

    The runtime around the component: the wall clock, the table of
    live [setInterval] timers, the cleanup function returned by the
    latest run of the refresh effect (it holds the handle to clear),
    whether [initializeWidget] is still waiting for storage, and what
    is on screen since the latest render. *)

Record Interval : Type := mkInterval {
  handle : nat;
  delay : Z;
  due : Z;                       (* next firing time *)
  closure : option string        (* userProfileId seen by the callback *)
}.

Record Runtime : Type := mkRuntime {
  world : World Widget;
  mounted : bool;
  initializing : bool;
  clock : Z;
  intervals : list Interval;
  next_handle : nat;
  cleanup : option nat;
  screen : View;
  rendered_at : Z
}.

Definition set_world (w : World Widget) (rt : Runtime) : Runtime :=
  mkRuntime w (mounted rt) (initializing rt) (clock rt) (intervals rt)
            (next_handle rt) (cleanup rt) (screen rt) (rendered_at rt).

Definition map_ui (f : Widget -> Widget) (w : World Widget) : World Widget :=
  mkWorld (f (ui w)) (disk w) (faulty w) (log w).

(** A state update on an unmounted component is dropped; what the
    call logged stays. *)
Definition keep_ui (old : World Widget) (w : World Widget) : World Widget :=
  mkWorld (ui old) (disk w) (faulty w) (log w).

(** React renders a mounted component again once a setter has run. *)
Definition commit (rt : Runtime) : Runtime :=
  if mounted rt && stale (ui (world rt)) then
    mkRuntime (map_ui rendered (world rt)) (mounted rt) (initializing rt)
              (clock rt) (intervals rt) (next_handle rt) (cleanup rt)
              (render (clock rt) (ui (world rt))) (clock rt)
  else rt.

Definition clearInterval (h : nat) (l : list Interval) : list Interval :=
  filter (fun i => handle i ≠ h) l.

(** The cleanup of the refresh effect: [clearInterval(interval)] when
    the latest run installed a timer. *)
Definition run_cleanup (rt : Runtime) : Runtime :=
  match cleanup rt with
  | Some h =>
      mkRuntime (world rt) (mounted rt) (initializing rt) (clock rt)
                (clearInterval h (intervals rt)) (next_handle rt) None
                (screen rt) (rendered_at rt)
  | None => rt
  end.

(** The body of the refresh effect, run with the [userProfileId] of
    the render that scheduled it. *)
Definition refresh_effect (mortality : Reply MortalityStats)
    (daily : Reply Quote.t) (rt : Runtime) : Runtime :=
  let id := userProfileId (ui (world rt)) in
  if truthy id then
    let w := snd (fetchData id mortality daily (world rt)) in
    let interval := mkInterval (next_handle rt) 60000 (clock rt + 60000) id in
    mkRuntime w (mounted rt) (initializing rt) (clock rt)
              (intervals rt ++ [interval]) (S (next_handle rt))
              (Some (next_handle rt)) (screen rt) (rendered_at rt)
  else rt.

(** First render and mount effects: [initializeWidget] is started and
    waits for storage; the refresh effect sees [userProfileId = null]
    and does nothing. *)
Definition mount (now : Z) (d : gmap string string) (f : gset string) : Runtime :=
  mkRuntime (mkWorld initial d f []) true true now [] 0%nat None
            (render now initial) now.

Inductive Event : Type :=
| ProfileRead (mortality : Reply MortalityStats) (daily : Reply Quote.t)
    (* storage answers [initializeWidget] *)
| Elapse (dt : Z)                      (* the wall clock advances *)
| IntervalFires (mortality : Reply MortalityStats) (daily : Reply Quote.t)
    (* a timer that is due calls its [fetchData] *)
| Tap                                  (* [onPress] *)
| LongPress                            (* [onLongPress] *)
| Pan (e : NativeEvent)                (* [onGestureEvent] *)
| PanStateChange (e : NativeEvent)     (* [onHandlerStateChange] *)
| Unmount.

Definition reschedule (h : nat) (l : list Interval) : list Interval :=
  map (fun i => if decide (handle i = h)
                then mkInterval (handle i) (delay i) (due i + delay i) (closure i)
                else i) l.

(** One event of a session; [None] when the event cannot happen in
    that state.  A refresh is carried out within the event that starts
    it: the sessions have no event between the two requests of
    [fetchData], so they say nothing about an unmount that falls while
    a refresh is waiting for a reply. *)
Definition step (rt : Runtime) (ev : Event) : option Runtime :=
  match ev with
  | ProfileRead mortality daily =>
      (* the storage read of [initializeWidget] settles; when that
         changes [userProfileId], the component renders again and the
         refresh effect, which depends on it, is cleaned up and run
         anew; the two replies answer its [fetchData] *)
      if initializing rt then
        let w := snd (initializeWidget (world rt)) in
        if mounted rt then
          let rt1 :=
            commit (mkRuntime w true false (clock rt) (intervals rt)
                              (next_handle rt) (cleanup rt) (screen rt)
                              (rendered_at rt)) in
          if decide (userProfileId (ui w) = userProfileId (ui (world rt)))
          then Some rt1
          else Some (commit (refresh_effect mortality daily (run_cleanup rt1)))
        else
          Some (mkRuntime (keep_ui (world rt) w) false false (clock rt)
                          (intervals rt) (next_handle rt) (cleanup rt)
                          (screen rt) (rendered_at rt))
      else None
  | Elapse dt =>
      (* time passes and no timer comes due before the end of it *)
      if (0 <=? dt) && forallb (fun i => clock rt + dt <=? due i) (intervals rt)
      then Some (mkRuntime (world rt) (mounted rt) (initializing rt)
                           (clock rt + dt) (intervals rt) (next_handle rt)
                           (cleanup rt) (screen rt) (rendered_at rt))
      else None
  | IntervalFires mortality daily =>
      match find (fun i => due i =? clock rt) (intervals rt) with
      | Some i =>
          let w := snd (fetchData (closure i) mortality daily (world rt)) in
          Some (commit (mkRuntime (if mounted rt then w else keep_ui (world rt) w)
                                  (mounted rt) (initializing rt) (clock rt)
                                  (reschedule (handle i) (intervals rt))
                                  (next_handle rt) (cleanup rt) (screen rt)
                                  (rendered_at rt)))
      | None => None
      end
  | Tap =>
      if mounted rt
      then Some (commit (set_world (map_ui toggleMinimized (world rt)) rt))
      else None
  | LongPress =>
      if mounted rt
      then Some (commit (set_world (map_ui switchMode (world rt)) rt))
      else None
  | Pan e =>
      if mounted rt
      then Some (set_world (map_ui (handleGestureEvent e) (world rt)) rt)
      else None
  | PanStateChange e =>
      if mounted rt
      then Some (set_world (map_ui (handleGestureStateChange e) (world rt)) rt)
      else None
  | Unmount =>
      if mounted rt
      then Some (run_cleanup
                   (mkRuntime (world rt) false (initializing rt) (clock rt)
                              (intervals rt) (next_handle rt) (cleanup rt)
                              (screen rt) (rendered_at rt)))
      else None
  end.

Fixpoint run (rt : Runtime) (evs : list Event) : option Runtime :=
  match evs with
  | [] => Some rt
  | ev :: evs' =>
      match step rt ev with
      | Some rt' => run rt' evs'
      | None => None
      end
  end.

(** The states a mounted instance can be in. *)
Definition reachable (rt : Runtime) : Prop :=
  exists now d f evs, run (mount now d f) evs = Some rt.

End Config.

End FloatingWidget.

(** * Vocabulary of the properties *)

Section Vocabulary.

Import FloatingWidget.

Variables screenWidth screenHeight : Q.
Variable BACKEND_URL : string.
Variable Date_getTime : string -> JS.Num.

(** ** Effects and storage *)

Definition alerts (l : list Effect) : list Effect := filter (fun e => is_alert e = true) l.

Definition fetches (l : list Effect) : list Effect := filter (fun e => is_fetch e = true) l.

(** A handler run from [w] only shows one alert: it completes normally,
    issues no network call, writes nothing to storage, and leaves the
    component state as [u]. *)
Definition only_alerts {S} (m : Async S unit) (w : World S) (u : S) : Prop :=
  exists title message,
    m w = (Normal tt,
           mkWorld u (disk w) (faulty w) (log w ++ [AlertShown title message])).

Definition any_backend_error (profile : Reply Home.UserProfile)
    (mortality : Reply Home.MortalityStats) (daily : Reply Home.Quote.t) : bool :=
  backend_error profile || backend_error mortality || backend_error daily.

(** The persisted pair that opens the gate: both keys can be read,
    [onboardingCompleted] holds the string "true" and [userProfileId]
    holds some value. *)
Definition gate_open (d : gmap string string) (f : gset string) : Prop :=
  ("onboardingCompleted" ∉ f) /\ ("userProfileId" ∉ f) /\
  d !! "onboardingCompleted" = Some "true" /\ is_Some (d !! "userProfileId").

(** ** Form inputs *)

(** The shape YYYY-MM-DD: four digits, a dash, two digits, a dash, two
    digits, and nothing else. *)
Definition YYYY_MM_DD (s : string) : Prop :=
  exists y1 y2 y3 y4 m1 m2 d1 d2 : ascii,
    s = string_of_list_ascii [y1; y2; y3; y4; "-"; m1; m2; "-"; d1; d2]%char /\
    Forall (fun c => JS.is_digit c = true) [y1; y2; y3; y4; m1; m2; d1; d2].

(** A birth date passes when it has the shape YYYY-MM-DD, denotes a
    calendar date, and that date is not after the current instant. *)
Definition acceptable_birth_date (now : Z) (s : string) : Prop :=
  YYYY_MM_DD s /\ exists t, Date_getTime s = Some t /\ t <= now.

Definition leap_year (y : Z) : bool :=
  (y mod 4 =? 0) && (negb (y mod 100 =? 0) || (y mod 400 =? 0)).

Definition days_in_month (y m : Z) : Z :=
  if (m =? 4) || (m =? 6) || (m =? 9) || (m =? 11) then 30
  else if m =? 2 then (if leap_year y then 29 else 28)
  else 31.

(** The string is YYYY-MM-DD and names a day of the calendar: a month
    from 1 to 12 and a day that this month has in this year. *)
Definition calendar_date (s : string) : bool :=
  Onboarding.dateRegex_test s &&
  match JS.leading_digits 10 None (substring 0 4 s),
        JS.leading_digits 10 None (substring 5 2 s),
        JS.leading_digits 10 None (substring 8 2 s) with
  | Some y, Some m, Some d =>
      (1 <=? m) && (m <=? 12) && (1 <=? d) && (d <=? days_in_month y m)
  | _, _, _ => false
  end.

(** ** The widget *)

(** The snapshot held by the widget, if any, carries a calendar date:
    [new Date(expected_death_date)] is a valid date. *)
Definition dated (w : Widget) : Prop :=
  forall stats, mortalityStats w = Some stats ->
                is_Some (Date_getTime (expected_death_date stats)).

(** The current instant is at or past the expected death date. *)
Definition expired (now : Z) (w : Widget) : Prop :=
  exists stats death,
    mortalityStats w = Some stats /\
    Date_getTime (expected_death_date stats) = Some death /\ death <= now.

(** The widget position: the two animated translations. *)
Definition position (w : Widget) : Q * Q := (translateX w, translateY w).

(** The widget size: the minimized flag with the scale and opacity that
    go with it. *)
Definition size (w : Widget) : bool * Q * Q := (isMinimized w, scale w, opacity w).

Definition flip (m : Mode) : Mode :=
  match m with countdown => quote_mode | quote_mode => countdown end.

(** ** Sessions of the widget *)

Definition profile_of (rt : Runtime) : option string := userProfileId (ui (world rt)).

(** The timer table holds nothing, or exactly the one timer installed by
    the latest run of the refresh effect of a mounted widget whose
    profile id is known. *)
Definition refresh_inv (rt : Runtime) : Prop :=
  match intervals rt with
  | [] => cleanup rt = None /\ (mounted rt = true -> truthy (profile_of rt) = false)
  | [i] =>
      cleanup rt = Some (handle i) /\ mounted rt = true /\
      truthy (profile_of rt) = true /\ closure i = profile_of rt /\
      delay i = 60000 /\ clock rt <= due i <= clock rt + 60000
  | _ => False
  end.

(** The cleanup function holds the handle of the only live timer. *)
Definition timers_owned (rt : Runtime) : Prop :=
  match intervals rt with
  | [] => cleanup rt = None
  | [i] => cleanup rt = Some (handle i)
  | _ => False
  end.

(** Until storage has answered, the profile id is unknown. *)
Definition init_inv (rt : Runtime) : Prop :=
  initializing rt = true -> profile_of rt = None.

(** Without a profile id nothing has been requested. *)
Definition quiet_inv (rt : Runtime) : Prop :=
  truthy (profile_of rt) = false -> fetches (log (world rt)) = [].

Definition mortality_url (profileId : string) : string :=
  BACKEND_URL ++ "/api/mortality/" ++ profileId.

(** The first thing logged after [l] is a snapshot request for
    [profileId]. *)
Definition fetches_next (l l' : list Effect) (profileId : string) : Prop :=
  exists rest, l' = (l ++ Fetch "GET" (mortality_url profileId) :: rest)%list.

(** One timer, due sixty seconds from now. *)
Definition one_timer_in_60s (rt : Runtime) : Prop :=
  exists i, intervals rt = [i] /\ delay i = 60000 /\ due i = clock rt + 60000.



End Vocabulary.

(** ** Concrete sessions *)

Module Demo.

Import FloatingWidget.

Definition url : string := "http://localhost:8001".

(** A date parser that knows one date, 1970-01-02T01:01:01.001Z, which
    is 1 day, 1 hour, 1 minute, 1 second and 1 millisecond after the
    epoch. *)
Definition getTime (s : string) : JS.Num :=
  if String.eqb s "1970-01-02T01:01:01.001Z" then Some 90061001 else None.

Definition snapshot : MortalityStats :=
  mkMortalityStats 0 1 0 0 0 "1970-01-02T01:01:01.001Z".

Definition quote_a : Quote.t := Quote.mk "q-a" "Memento mori" "Anonymous" "stoic".
Definition quote_b : Quote.t := Quote.mk "q-b" "Carpe diem" "Horace" "classic".

Definition stats_ok : Reply MortalityStats :=
  Settled (mkResponse true (Some snapshot) None).
Definition quote_ok (q : Quote.t) : Reply Quote.t :=
  Settled (mkResponse true (Some q) None).
Definition server_error {A} : Reply A :=
  Settled (mkResponse false None (Some "Internal Server Error")).

Definition profile_disk : gmap string string :=
  <["userProfileId" := "p-1"]> (<["onboardingCompleted" := "true"]> ∅).

(** A widget on a 400 x 800 window, mounted at the epoch. *)
Definition mounted_at_epoch (d : gmap string string) : Runtime :=
  mount 400 800 getTime 0 d ∅.

Definition session (d : gmap string string) (evs : list Event) : option Runtime :=
  run 400 800 url getTime (mounted_at_epoch d) evs.

Definition release_low_left : NativeEvent := mkNativeEvent END 10 50.

Definition typed_birth_date (s : string) : World Onboarding.State :=
  mkWorld (Onboarding.mkState 1 s "" 78 "" false false) profile_disk ∅ [].

End Demo.

(** * Further vocabulary *)

Section FurtherVocabulary.

(** ** Storage and effects *)

Definition is_redirect (e : Effect) : bool :=
  match e with RouterReplace _ => true | _ => false end.

Definition redirects (l : list Effect) : list Effect :=
  filter (fun e => is_redirect e = true) l.

(** Both session keys can be read. *)
Definition readable (f : gset string) : Prop :=
  ("userProfileId" ∉ f) /\ ("onboardingCompleted" ∉ f).

(** The profile id of the stored session, as the home screen accepts it:
    a non-empty [userProfileId] next to [onboardingCompleted = "true"]. *)
Definition stored_session (d : gmap string string) : option string :=
  match d !! "userProfileId" with
  | Some profileId =>
      if negb (JS.is_empty profileId)
         && Index.is_true_string (d !! "onboardingCompleted")
      then Some profileId
      else None
  | None => None
  end.

(** The three requests of [fetchUserData], in the order they are issued. *)
Definition user_data_requests (profileId : string) : list Effect :=
  [ Fetch "GET" (Home.BACKEND_URL ++ "/api/profile/" ++ profileId);
    Fetch "GET" (Home.BACKEND_URL ++ "/api/mortality/" ++ profileId);
    Fetch "GET" (Home.BACKEND_URL ++ "/api/quotes/daily") ].

(** The home screen once [fetchUserData] has settled, with or without
    new data. *)
Definition settled_home (data : option (Home.UserProfile * Home.MortalityStats * Home.Quote.t))
    (s : Home.State) : Home.State :=
  Home.setRefreshing false
    (Home.setLoading false
       (match data with
        | Some (p, m, q) => Home.setLoaded p m q s
        | None => s
        end)).

(** The three bodies, when all three requests succeeded. *)
Definition user_data {A B C} (a : Reply A) (b : Reply B) (c : Reply C)
  : option (A * B * C) :=
  match payload a, payload b, payload c with
  | Some x, Some y, Some z => Some (x, y, z)
  | _, _, _ => None
  end.

End FurtherVocabulary.

Module DemoHome.

Import Home.

Definition profile : UserProfile := mkUserProfile "p-1" "1990-01-01" 78 "Ada" None.

Definition stats : MortalityStats :=
  mkMortalityStats 13000 15000 1857 2143 (46 # 1) 35 "2068-01-01T00:00:00".

Definition daily_quote : Quote.t := Quote.mk "q-1" "Memento mori" "Anonymous".

Definition ok_reply {A} (a : A) : Reply A := Settled (mkResponse true (Some a) None).

(** A reply with status 200 whose body is not JSON. *)
Definition garbled {A} : Reply A := Settled (mkResponse true None (Some "<html>")).

Definition fresh (d : gmap string string) (f : gset string) : World State :=
  mkWorld initial d f [].

(** Storage of a device on which onboarding never ran. *)
Definition no_session : gmap string string := ∅.

(** Storage left with an empty profile id. *)
Definition empty_id : gmap string string :=
  <["userProfileId" := ""]> (<["onboardingCompleted" := "true"]> ∅).

End DemoHome.

Section OnboardingVocabulary.

(** The range check of [handleComplete] lets the value through: neither
    [v < 20] nor [v > 120] holds (both are false on [NaN]). *)
Definition passes_range_check (v : JS.Num) : bool :=
  negb (JS.lt v (Some 20) || JS.gt v (Some 120)).

(** The country codes the geocoder answers with are two letters long. *)
Definition two_letter_codes (Location : Onboarding.LocationService) : Prop :=
  forall places, Onboarding.reverseGeocodeAsync Location = Some places ->
    Forall (fun a => forall c, Onboarding.isoCountryCode a = Some c ->
                               String.length c = 2%nat) places.

(** The storage once onboarding has completed for [profileId]. *)
Definition onboarded (profileId : string) (d : gmap string string)
  : gmap string string :=
  <["onboardingCompleted" := "true"]> (<["userProfileId" := profileId]> d).

End OnboardingVocabulary.

Module DemoOnboarding.

Import Onboarding.

(** [parseInt] on the inputs of the examples. *)
Definition parseInt (s : string) : JS.Num :=
  if String.eqb s "90" then Some 90 else None.

Definition in_tokyo : LocationService :=
  mkLocationService (Some granted) (Some tt) (Some [mkAddress (Some "JP")]).

Definition created : Reply Profile := Settled (mkResponse true (Some (mkProfile "p-9")) None).

Definition at_step (n : Z) (d : gmap string string) : World State :=
  mkWorld (mkState n "1990-12-25" "" 78 "" false false) d ∅ [].

(** A date parser that knows the birth date of the examples. *)
Definition getTime (s : string) : JS.Num :=
  if String.eqb s "1990-12-25" then Some 662083200000 else None.

(** The same on an engine that carries a day past the end of the month
    over into the next month, as V8 does: 1990-02-30 is read as
    2 March 1990, 00:00 UTC. *)
Definition getTime_rolling_over (s : string) : JS.Num :=
  if String.eqb s "1990-02-30" then Some 636336000000 else getTime s.

(** Step 2 with "custom life expectancy" chosen and [entry] typed. *)
Definition custom_entry (entry : string) : World State :=
  mkWorld (mkState 2 "1990-12-25" entry 78 "" false true) ∅ ∅ [].

(** Step 1 with [date] typed. *)
Definition typed (date : string) : World State :=
  mkWorld (mkState 1 date "" 78 "" false false) ∅ ∅ [].

End DemoOnboarding.

Section GoalsVocabulary.

Variable BACKEND_URL : string.

(** The address [fetchGoals] asks for. *)
Definition goals_url (profileId : string) (f : Goals.StatusFilter) : string :=
  BACKEND_URL ++ "/api/goals/" ++ profileId ++
  match f with
  | Goals.all => ""
  | Goals.only st => "?status=" ++ Goals.Status_to_string st
  end.

(** The POST or PUT went through: the call did not throw and the
    response is 2xx. *)
Definition accepted {A} (r : Reply A) : bool := negb (backend_error r).

(** A state with the list replaced when a reload brought one. *)
Definition with_goals (data : option (list Goals.Goal.t)) (s : Goals.State)
  : Goals.State :=
  match data with Some g => Goals.setGoals g s | None => s end.

(** The goal passes the category filter. *)
Definition shown (f : Goals.CategoryFilter) (goal : Goals.Goal.t) : Prop :=
  match f with
  | Goals.all_categories => True
  | Goals.only_category c => Goals.Goal.category goal = c
  end.

(** The goal as the backend holds it after a status update. *)
Definition with_status (st : Goals.Status) (goal : Goals.Goal.t) : Goals.Goal.t :=
  Goals.Goal.mk (Goals.Goal.id goal) (Goals.Goal.title goal)
    (Goals.Goal.description goal) (Goals.Goal.category goal)
    (Goals.Goal.priority goal) st (Goals.Goal.target_date goal)
    (Goals.Goal.created_at goal) (Goals.Goal.updated_at goal).

End GoalsVocabulary.

Module DemoGoals.

Import Goals.

Definition run_5k : Goal.t :=
  Goal.mk "g-1" "Run 5k" "" health high active "" "2025-01-01" "2025-01-01".

Definition read_more : Goal.t :=
  Goal.mk "g-2" "Read more" "" personal low paused "" "2025-01-02" "2025-01-02".

Definition listed (g : list Goal.t) : Reply (list Goal.t) :=
  Settled (mkResponse true (Some g) None).

Definition done : Reply unit := Settled (mkResponse true (Some tt) None).

(** The screen of profile p-1 with the add form filled in. *)
Definition filled_form : World State :=
  mkWorld (mkState [read_more] false (Some "p-1") true "Run 5k" "" health high ""
             all all_categories)
          Demo.profile_disk ∅ [].

End DemoGoals.

Section ReflectVocabulary.

Variable BACKEND_URL : string.

(** Every question of the active tab has an answer that is not blank. *)
Definition answered (s : Reflect.State) : Prop :=
  let n := length (Reflect.getQuestionsForType s) in
  (n <= length (Reflect.responses s))%nat /\
  Forall (fun r => JS.all_space r = false) (take n (Reflect.responses s)).

Definition reflections_url (profileId : string) (tab : Reflect.ReflectionType)
  : string :=
  BACKEND_URL ++ "/api/reflections/" ++ profileId ++ "?type="
  ++ Reflect.ReflectionType_to_string tab.

Definition with_reflections (data : option (list Reflect.Reflection.t))
    (s : Reflect.State) : Reflect.State :=
  match data with Some r => Reflect.setReflections r s | None => s end.

(** The form as [submitReflection] leaves it after a successful save. *)
Definition cleared (s : Reflect.State) : Reflect.State :=
  Reflect.setProductivityScore 3
    (Reflect.setMoodScore 3 (Reflect.setResponses [""; ""; ""; ""] s)).

(** The form at rest: four answer slots, both scores on the scale 1 to
    5, and no request under way. *)
Definition form_inv (s : Reflect.State) : Prop :=
  length (Reflect.responses s) = 4%nat /\
  1 <= Reflect.moodScore s <= 5 /\
  1 <= Reflect.productivityScore s <= 5 /\
  Reflect.loading s = false.

(** All items of the three answer arrays of a payload, in order. *)
Definition answer_items (p : Reflect.Payload.t) : list (option string) :=
  (Reflect.Payload.gratitude_items p ++ Reflect.Payload.lessons_learned p
   ++ Reflect.Payload.goals_progress p)%list.

End ReflectVocabulary.

Module DemoReflect.

Import Reflect.

Definition saved : Reply unit := Settled (mkResponse true (Some tt) None).

Definition history : Reply (list Reflection.t) := Settled (mkResponse true (Some []) None).

(** The daily form of profile p-1 with its three questions answered. *)
Definition daily_form : World State :=
  mkWorld (mkState daily [] false (Some "p-1") 4 5 ["family"; "shipped"; "rest"; ""])
          Demo.profile_disk ∅ [].

(** A visit: two answers typed, a mood chosen, a look at the weekly tab
    and a save that the backend refuses. *)
Definition visit : list Event :=
  [ TypeAnswer 0 "family"; TypeAnswer 1 "shipped"; PressMood 5;
    PressTab weekly history; TypeAnswer 3 "plan"; PressSave Demo.server_error history ].

End DemoReflect.

Section WidgetVocabulary.

Import FloatingWidget.

(** An effect that changes nothing outside the widget: a GET request or
    a console message. *)
Definition read_only_effect (e : Effect) : Prop :=
  match e with
  | Fetch method _ => method = "GET"
  | ConsoleError _ => True
  | AlertShown _ _ | RouterReplace _ => False
  end.

(** Scale and opacity are the pair that goes with [isMinimized]. *)
Definition canonical_size (w : Widget) : Prop :=
  (scale w, opacity w) = if isMinimized w then (0.7, 0.6)%Q else (1, 0.9)%Q.

Definition widget_inv (d : gmap string string) (f : gset string)
    (w : World Widget) : Prop :=
  disk w = d /\ faulty w = f /\ Forall read_only_effect (log w) /\
  canonical_size (ui w).

(** Finger movement: a pan event, or a change of the gesture state to
    anything but [State.ENDED]. *)
Definition is_drag (ev : Event) : bool :=
  match ev with
  | Pan _ => true
  | PanStateChange e => negb (bool_decide (Some (state e) = State_member "ENDED"))
  | _ => false
  end.

(** The translation of the latest pan event, if there was one. *)
Definition last_pan (evs : list Event) : option (Q * Q) :=
  foldl (fun acc ev => match ev with
                       | Pan e => Some (translationX e, translationY e)
                       | _ => acc
                       end) None evs.

End WidgetVocabulary.

(** * Properties of the screens *)

(** Unfolds the monadic plumbing so that a handler run on a world record
    reduces to a case analysis on its inputs. *)
Ltac run_async :=
  unfold finally, try_catch, mbind, mret, async_bind, async_ret, bind, ret, throw,
    fetch, read_json, read_text, getItem, setItem, removeItem, getState, setState,
    Alert_alert, console_error, router_replace, emit in *;
  cbn [fst snd ui disk faulty log] in *.

(** ** Entry gate *)

Section Gate.

Import Index.

Lemma route_after_check_cases (s : State) d f l :
  (gate_open d f /\ route_after_check (mkWorld s d f l) = Redirect "/(tabs)") \/
  (~ gate_open d f /\ route_after_check (mkWorld s d f l) = Redirect "/onboarding").
Proof.
  unfold route_after_check, checkOnboardingStatus, gate_open. run_async.
  destruct (decide ("onboardingCompleted" ∈ f)) as [H1|H1]; cbn.
  { right. split; [tauto | reflexivity]. }
  destruct (decide ("userProfileId" ∈ f)) as [H2|H2]; cbn.
  { right. split; [tauto | reflexivity]. }
  destruct (d !! "onboardingCompleted") as [v|] eqn:E1; cbn.
  - destruct (String.eqb_spec v "true") as [->|Hne]; cbn.
    + destruct (d !! "userProfileId") as [u|] eqn:E2; cbn.
      * left. repeat split; eauto.
      * right. split; [|reflexivity]. intros (_ & _ & _ & [x Hx]). discriminate.
    + right. split; [|reflexivity]. intros (_ & _ & Hv & _). congruence.
  - right. split; [|reflexivity]. intros (_ & _ & Hv & _). discriminate.
Qed.

(** C4: once the mount check has run, the gate shows the main
    experience exactly when the persisted state has [onboardingCompleted]
    equal to the string "true" and a non-null [userProfileId] (and both
    reads succeed); in every other case, a read error included, it
    shows the onboarding flow. *)
Theorem gate_routes_main_iff (s : State) (d : gmap string string)
    (f : gset string) (l : list Effect) :
  (route_after_check (mkWorld s d f l) = Redirect "/(tabs)" <-> gate_open d f) /\
  (route_after_check (mkWorld s d f l) = Redirect "/onboarding" <-> ~ gate_open d f).
Proof.
  destruct (route_after_check_cases s d f l) as [[Hg Hr]|[Hg Hr]]; rewrite Hr.
  - split; split; try tauto; discriminate.
  - split; split; try tauto; discriminate.
Qed.

Lemma gate_routes_main_iff_witness :
  route_after_check
    (mkWorld initial
       (<["onboardingCompleted" := "true"]> (<["userProfileId" := "p-1"]> ∅)) ∅ [])
  = Redirect "/(tabs)".
Proof.
  apply (proj1 (gate_routes_main_iff _ _ _ _)).
  unfold gate_open. repeat split.
  - set_solver.
  - set_solver.
  - exists "p-1". reflexivity.
Defined.

End Gate.

(** ** Life in weeks *)

Section Calendar.

Import Home.

Lemma dot_one_style (weeks_lived rowIndex weekIndex : Z) :
  styles_set (dot weeks_lived rowIndex weekIndex) = 1%nat.
Proof.
  unfold styles_set, dot; cbn [isLived isCurrent isRemaining].
  set (n := rowIndex * 52 + weekIndex + 1).
  destruct (Z.leb_spec n weeks_lived), (Z.eqb_spec n (weeks_lived + 1));
    destruct (n >? weeks_lived + 1) eqn:E; try reflexivity;
    rewrite ?Z.gtb_ltb, ?Z.ltb_lt, ?Z.ltb_ge in E; lia.
Qed.

Lemma calendar_week_numbers (weeks_lived : Z) :
  map weekNumber (concat (calendar weeks_lived)) = map Z.of_nat (seq 1 1040).
Proof. reflexivity. Qed.

Lemma in_calendar (weeks_lived : Z) (d : Dot) :
  In d (concat (calendar weeks_lived)) ->
  exists rowIndex weekIndex, d = dot weeks_lived rowIndex weekIndex.
Proof.
  unfold calendar, Array_from. rewrite in_concat.
  intros (row & Hrow & Hd).
  apply in_map_iff in Hrow as (r & <- & _).
  apply in_map_iff in Hd as (c & <- & _). eauto.
Qed.

(** C10: for every integer [weeks_lived], the calendar renders the week
    numbers 1 to 1040 once each, and every rendered dot has exactly one
    of the three classifications: lived ([weekNumber <= weeks_lived]),
    current ([weekNumber = weeks_lived + 1]) or remaining
    ([weekNumber > weeks_lived + 1]). *)
Theorem calendar_dot_exactly_one_style (weeks_lived : Z) :
  map weekNumber (concat (calendar weeks_lived)) = map Z.of_nat (seq 1 1040) /\
  Forall (fun d =>
            styles_set d = 1%nat /\
            (isLived d = true <-> weekNumber d <= weeks_lived) /\
            (isCurrent d = true <-> weekNumber d = weeks_lived + 1) /\
            (isRemaining d = true <-> weekNumber d > weeks_lived + 1))
         (concat (calendar weeks_lived)).
Proof.
  split; [apply calendar_week_numbers|].
  apply Forall_forall. intros d Hd.
  apply list_elem_of_In, in_calendar in Hd as (r & c & ->).
  split; [apply dot_one_style|].
  unfold dot; cbn [isLived isCurrent isRemaining weekNumber].
  rewrite Z.leb_le, Z.eqb_eq, Z.gtb_ltb, Z.ltb_lt. lia.
Qed.

End Calendar.

(** ** The countdown arithmetic *)

Section Countdown.

Import FloatingWidget.

Variable Date_getTime : string -> JS.Num.

Lemma year_ms_value : year_ms = 31557600000.
Proof. reflexivity. Qed.

(** The decomposition of a positive remaining time. *)
Lemma countdown_units (t : Z) :
  0 < t ->
  0 <= t / year_ms /\
  0 <= Z.rem t year_ms / day_ms <= 365 /\
  0 <= Z.rem t day_ms / hour_ms < 24 /\
  0 <= Z.rem t hour_ms / minute_ms < 60 /\
  0 <= Z.rem t minute_ms / 1000 < 60.
Proof.
  intros Ht.
  rewrite !Z.rem_mod_nonneg by (try lia; reflexivity).
  pose proof (Z.mod_pos_bound t year_ms eq_refl) as Hy.
  pose proof (Z.mod_pos_bound t day_ms eq_refl) as Hd.
  pose proof (Z.mod_pos_bound t hour_ms eq_refl) as Hh.
  pose proof (Z.mod_pos_bound t minute_ms eq_refl) as Hm.
  rewrite year_ms_value in *.
  change day_ms with 86400000 in *. change hour_ms with 3600000 in *.
  change minute_ms with 60000 in *.
  repeat split;
    try (apply Z.div_pos; lia);
    try (apply Z.div_lt_upper_bound; lia).
  apply Z.lt_succ_r, Z.div_lt_upper_bound; lia.
Qed.

Lemma formatTimeRemaining_no_stats (now : Z) (w : Widget) :
  mortalityStats w = None ->
  formatTimeRemaining Date_getTime now w = zero_remaining.
Proof. unfold formatTimeRemaining. now intros ->. Qed.

Lemma formatTimeRemaining_valid (now : Z) (w : Widget) stats (death : Z) :
  mortalityStats w = Some stats ->
  Date_getTime (expected_death_date stats) = Some death ->
  formatTimeRemaining Date_getTime now w =
    if death - now <=? 0 then zero_remaining
    else
      let t := death - now in
      {| years := Some (t / year_ms);
         days := Some (Z.rem t year_ms / day_ms);
         hours := Some (Z.rem t day_ms / hour_ms);
         minutes := Some (Z.rem t hour_ms / minute_ms);
         seconds := Some (Z.rem t minute_ms / 1000) |}.
Proof.
  unfold formatTimeRemaining. intros -> ->. cbn.
  destruct (death - now <=? 0); reflexivity.
Qed.

(** C9: for every snapshot (whose [expected_death_date] is a calendar
    date) and every current instant, [formatTimeRemaining] returns five
    numbers, all non-negative, with [hours < 24], [minutes < 60],
    [seconds < 60] and [days <= 365]; they are all zero when no snapshot
    has been fetched and when the instant is at or past
    [expected_death_date].  [days_remaining] of the snapshot plays no
    part, so a negative value there never shows. *)
Theorem formatTimeRemaining_bounds (now : Z) (w : Widget) :
  dated Date_getTime w ->
  exists y d h m s,
    formatTimeRemaining Date_getTime now w
    = {| years := Some y; days := Some d; hours := Some h;
         minutes := Some m; seconds := Some s |} /\
    0 <= y /\ 0 <= d <= 365 /\ 0 <= h < 24 /\ 0 <= m < 60 /\ 0 <= s < 60 /\
    (mortalityStats w = None \/ expired Date_getTime now w ->
     y = 0 /\ d = 0 /\ h = 0 /\ m = 0 /\ s = 0).
Proof.
  intros Hdated.
  destruct (mortalityStats w) as [stats|] eqn:Hs.
  - destruct (Hdated stats Hs) as [death Hdeath].
    rewrite (formatTimeRemaining_valid now w stats death Hs Hdeath).
    destruct (Z.leb_spec (death - now) 0) as [Hle|Hgt].
    + exists 0, 0, 0, 0, 0. split; [reflexivity|]. lia.
    + destruct (countdown_units (death - now) Hgt) as (Hy & Hd & Hh & Hm & Hsec).
      eexists _, _, _, _, _. split; [reflexivity|].
      repeat split; try lia.
      all: destruct H as [H|(st & dt & H1 & H2 & H3)];
        [discriminate | assert (dt = death) by congruence; lia].
  - rewrite (formatTimeRemaining_no_stats now w Hs).
    exists 0, 0, 0, 0, 0. split; [reflexivity|]. lia.
Qed.

End Countdown.

Lemma formatTimeRemaining_bounds_witness :
  exists y d h m s,
    FloatingWidget.formatTimeRemaining (fun _ => Some 90061001) 0
      (FloatingWidget.setMortalityStats
         (FloatingWidget.mkMortalityStats 1 (-5) 0 0 0 "2090-01-01")
         (FloatingWidget.initial 400 800))
    = FloatingWidget.mkTimeRemaining (Some y) (Some d) (Some h) (Some m) (Some s) /\
    (y, d, h, m, s) = (0, 1, 1, 1, 1).
Proof.
  destruct (formatTimeRemaining_bounds (fun _ => Some 90061001) 0
              (FloatingWidget.setMortalityStats
                 (FloatingWidget.mkMortalityStats 1 (-5) 0 0 0 "2090-01-01")
                 (FloatingWidget.initial 400 800)))
    as (y & d & h & m & s & Heq & _).
  - intros stats _. eexists. reflexivity.
  - exists y, d, h, m, s. split; [exact Heq|].
    vm_compute in Heq. congruence.
Defined.

(** ** Widget gestures *)

Section Gestures.

Import FloatingWidget.

Variables screenWidth screenHeight : Q.
Variable BACKEND_URL : string.
Variable Date_getTime : string -> JS.Num.

Notation step := (step screenWidth screenHeight BACKEND_URL Date_getTime).
Notation run := (run screenWidth screenHeight BACKEND_URL Date_getTime).
Notation commit := (commit Date_getTime).

Lemma commit_ui (rt : Runtime) :
  ui (world (commit rt)) = ui (world rt) \/
  ui (world (commit rt)) = rendered (ui (world rt)).
Proof.
  unfold FloatingWidget.commit.
  destruct (mounted rt && stale (ui (world rt))); [right|left]; reflexivity.
Qed.

(** A render touches nothing but the [stale] mark. *)
Lemma commit_fields (rt : Runtime) :
  let w := ui (world rt) in
  let w' := ui (world (commit rt)) in
  isMinimized w' = isMinimized w /\ mode w' = mode w /\
  quote w' = quote w /\ mortalityStats w' = mortalityStats w /\
  userProfileId w' = userProfileId w /\
  position w' = position w /\ size w' = size w /\
  gestureState w' = gestureState w.
Proof.
  cbv zeta. destruct (commit_ui rt) as [-> | ->]; repeat split; reflexivity.
Qed.

(** C7: a short tap ([onPress], [toggleMinimized]) flips the size between
    expanded and minimized and leaves the mode and the position as they
    were; a long press ([onLongPress], [switchMode]) flips the mode
    between countdown and quote and leaves the size and the position as
    they were.  Both also hold for the whole event as the runtime
    processes it. *)
Theorem tap_and_long_press_frame (rt : Runtime) :
  mounted rt = true ->
  let w := ui (world rt) in
  (exists rt', step rt Tap = Some rt' /\
     let w' := ui (world rt') in
     size w' = (negb (isMinimized w),
                if isMinimized w then 1 else 0.7,
                if isMinimized w then 0.9 else 0.6)%Q /\
     mode w' = mode w /\ position w' = position w) /\
  (exists rt', step rt LongPress = Some rt' /\
     let w' := ui (world rt') in
     mode w' = flip (mode w) /\
     size w' = size w /\ position w' = position w).
Proof.
  intros Hm w. split.
  - eexists. split; [cbn; rewrite Hm; reflexivity|]. cbv zeta.
    match goal with |- context [commit ?r] =>
      destruct (commit_fields r) as (_ & -> & _ & _ & _ & -> & -> & _) end.
    repeat split; reflexivity.
  - eexists. split; [cbn; rewrite Hm; reflexivity|]. cbv zeta.
    match goal with |- context [commit ?r] =>
      destruct (commit_fields r) as (_ & -> & _ & _ & _ & -> & -> & _) end.
    repeat split; reflexivity.
Qed.

(** *** Drag release *)

(** [State] has no member [ENDED]: the release state is [END]. *)
Lemma State_ENDED_undefined :
  State_member "ENDED" = None /\ State_member "END" = Some END.
Proof. split; reflexivity. Qed.

(** No event state is strictly equal to [State.ENDED], so the snap
    branch is never taken. *)
Lemma handleGestureStateChange_id (e : NativeEvent) (w : Widget) :
  handleGestureStateChange screenWidth screenHeight e w = w.
Proof.
  unfold handleGestureStateChange.
  rewrite bool_decide_eq_false_2; [reflexivity|].
  rewrite (proj1 State_ENDED_undefined). discriminate.
Qed.

Lemma run_app (rt : Runtime) (evs1 evs2 : list Event) :
  run rt (evs1 ++ evs2) =
  match run rt evs1 with
  | Some rt1 => run rt1 evs2
  | None => None
  end.
Proof.
  revert rt. induction evs1 as [|ev evs1 IH]; intros rt; cbn [FloatingWidget.run app].
  - reflexivity.
  - destruct (step rt ev); [apply IH | reflexivity].
Qed.

Lemma run_snoc (rt rt' : Runtime) (evs : list Event) (ev : Event) :
  run rt (evs ++ [ev]) = Some rt' ->
  exists rt1, run rt evs = Some rt1 /\ step rt1 ev = Some rt'.
Proof.
  rewrite run_app. destruct (run rt evs) as [rt1|]; [|discriminate].
  cbn [FloatingWidget.run]. destruct (step rt1 ev) eqn:E; [|discriminate].
  intros [= <-]. eauto.
Qed.

Lemma run_pans (rt : Runtime) (drag : list NativeEvent) :
  mounted rt = true ->
  exists rt1, run rt (map Pan drag) = Some rt1 /\ mounted rt1 = true /\
              gestureState (ui (world rt1)) = gestureState (ui (world rt)).
Proof.
  revert rt. induction drag as [|e drag IH]; intros rt Hm; cbn [map FloatingWidget.run].
  - eauto.
  - cbn [FloatingWidget.step]. rewrite Hm.
    destruct (IH (set_world (map_ui (handleGestureEvent e) (world rt)) rt) Hm)
      as (rt1 & Hrun & Hm1 & Hg).
    exists rt1. split; [exact Hrun|]. split; [exact Hm1|]. exact Hg.
Qed.

(** C1, the code at a release: the widget does not snap.  After any drag
    path that ends with the finger at translation [(tx, ty)], the state
    change that reports the release - with the state [END], or any other
    state - is processed and leaves the widget exactly where the finger
    left it, at [(tx, ty)], and the stored gesture state as it was: the
    handler compares the state with [State.ENDED], which is no member of
    [State], so neither the margin 20 or [screenWidth - 120] nor the
    clamp into [[100, screenHeight - 160]] is applied. *)
Theorem release_does_not_snap (tx ty : Q) (s : GestureState) (rt : Runtime)
    (drag : list NativeEvent) :
  mounted rt = true ->
  exists rt',
    run rt (map Pan (drag ++ [mkNativeEvent ACTIVE tx ty])
            ++ [PanStateChange (mkNativeEvent s tx ty)]) = Some rt' /\
    position (ui (world rt')) = (tx, ty) /\
    gestureState (ui (world rt')) = gestureState (ui (world rt)).
Proof.
  intros Hm.
  destruct (run_pans rt drag Hm) as (rt1 & Hrun & Hm1 & Hg).
  rewrite map_app, <- app_assoc, run_app, Hrun.
  cbn [map app FloatingWidget.run FloatingWidget.step]. rewrite Hm1.
  cbn [mounted set_world]. rewrite Hm1.
  eexists. split; [reflexivity|].
  cbn [world set_world map_ui ui]. rewrite handleGestureStateChange_id.
  split; [reflexivity|]. exact Hg.
Qed.

End Gestures.

(** ** Widget refresh *)

Section Refresh.

Import FloatingWidget.

Variable BACKEND_URL : string.
Variable Date_getTime : string -> JS.Num.

Notation fetchData := (fetchData BACKEND_URL).

(** What one refresh does to the widget, by cases on the two replies. *)
Lemma fetchData_cases (id : option string) (mortality : Reply MortalityStats)
    (daily : Reply Quote.t) (w : World Widget) :
  let r := fetchData id mortality daily w in
  fst r = Normal tt /\
  disk (snd r) = disk w /\
  alerts (log (snd r)) = alerts (log w) /\
  (mortalityStats (ui (snd r)) = mortalityStats (ui w) \/
   exists m, payload mortality = Some m /\ mortalityStats (ui (snd r)) = Some m) /\
  (quote (ui (snd r)) = quote (ui w) \/
   exists q, payload daily = Some q /\ quote (ui (snd r)) = Some q) /\
  (payload mortality = None -> mortalityStats (ui (snd r)) = mortalityStats (ui w)) /\
  (payload daily = None -> quote (ui (snd r)) = quote (ui w)) /\
  (payload mortality = None -> payload daily = None -> ui (snd r) = ui w) /\
  (mortality = NetworkError -> ui (snd r) = ui w).
Proof.
  unfold FloatingWidget.fetchData, alerts, payload.
  destruct w as [u d f l].
  destruct id as [profileId|]; [destruct (JS.is_empty profileId)|];
    [| destruct mortality as [|[ok1 [m|] t1]]; [| destruct ok1 .. ];
       (destruct daily as [|[ok2 [q|] t2]]; [| destruct ok2 .. ]) |];
    run_async; cbn;
    rewrite ?filter_app; cbn; rewrite ?app_nil_r;
    repeat split; eauto; try discriminate.
Qed.

(** C3, as amended: a refresh never rejects and raises no alert; each of
    the two stored values (snapshot, quote) is kept when its own fetch
    fails and changes only to the body of its own successful fetch; when
    both fail, or the snapshot fetch throws, the whole widget state is as
    before, so the countdown is still computed from the retained
    snapshot.  The widget has no error state. *)
Theorem fetchData_failure_retains (id : option string)
    (mortality : Reply MortalityStats) (daily : Reply Quote.t)
    (w : World Widget) :
  let r := fetchData id mortality daily w in
  fst r = Normal tt /\
  alerts (log (snd r)) = alerts (log w) /\
  (payload mortality = None ->
   mortalityStats (ui (snd r)) = mortalityStats (ui w) /\
   forall now, formatTimeRemaining Date_getTime now (ui (snd r))
               = formatTimeRemaining Date_getTime now (ui w)) /\
  (payload daily = None -> quote (ui (snd r)) = quote (ui w)) /\
  (payload mortality = None -> payload daily = None -> ui (snd r) = ui w) /\
  (mortality = NetworkError -> ui (snd r) = ui w) /\
  (mortalityStats (ui (snd r)) <> mortalityStats (ui w) ->
   exists m, payload mortality = Some m /\ mortalityStats (ui (snd r)) = Some m) /\
  (quote (ui (snd r)) <> quote (ui w) ->
   exists q, payload daily = Some q /\ quote (ui (snd r)) = Some q).
Proof.
  destruct (fetchData_cases id mortality daily w)
    as (Hc & _ & Ha & Hm & Hq & Hm' & Hq' & Hboth & Hthrow).
  cbv zeta. split; [exact Hc|]. split; [exact Ha|].
  split; [|split; [exact Hq'|split; [exact Hboth|split; [exact Hthrow|split]]]].
  - intros Hfail. split; [exact (Hm' Hfail)|].
    intros now. unfold formatTimeRemaining. rewrite (Hm' Hfail). reflexivity.
  - intros Hne. destruct Hm as [Hm|Hm]; [contradiction | exact Hm].
  - intros Hne. destruct Hq as [Hq|Hq]; [contradiction | exact Hq].
Qed.

End Refresh.

(** ** Validation of the forms *)

Section Validation.

(** *** Strings *)

Lemma trimEnd_empty_iff (s : string) :
  JS.trimEnd s = EmptyString <-> JS.all_space s = true.
Proof.
  induction s as [|c s IH]; cbn [JS.trimEnd JS.all_space].
  - tauto.
  - destruct (JS.trimEnd s) eqn:E.
    + destruct (JS.is_space c); cbn.
      * tauto.
      * split; discriminate.
    + rewrite andb_true_iff. split; [discriminate|].
      intros [_ H]. apply IH in H. discriminate.
Qed.

Lemma trimStart_all_space (s : string) :
  JS.all_space (JS.trimStart s) = true <-> JS.all_space s = true.
Proof.
  induction s as [|c s IH]; cbn [JS.trimStart JS.all_space].
  - tauto.
  - destruct (JS.is_space c) eqn:E; cbn [JS.all_space andb].
    + exact IH.
    + rewrite E. cbn. tauto.
Qed.

(** [!title.trim()] holds exactly for the titles made of white space
    only, the empty one included. *)
Lemma trim_empty_iff (s : string) :
  JS.is_empty (JS.trim s) = true <-> JS.all_space s = true.
Proof.
  unfold JS.trim. rewrite <- trimStart_all_space, <- trimEnd_empty_iff.
  destruct (JS.trimEnd (JS.trimStart s)); cbn; split; congruence.
Qed.

Lemma dateRegex_test_iff (s : string) :
  Onboarding.dateRegex_test s = true <-> YYYY_MM_DD s.
Proof.
  unfold Onboarding.dateRegex_test, YYYY_MM_DD. split.
  - intros H.
    do 10 (destruct s as [|? s]; [discriminate H|]).
    destruct s; [|discriminate H].
    cbn [list_ascii_of_string] in H.
    do 9 (apply andb_true_iff in H as [H ?]).
    repeat match goal with
           | E : Ascii.eqb _ _ = true |- _ => apply Ascii.eqb_eq in E; subst
           end.
    do 8 eexists. split; [reflexivity|].
    repeat (constructor; [assumption|]). constructor.
  - intros (y1 & y2 & y3 & y4 & m1 & m2 & d1 & d2 & -> & Hd).
    repeat match goal with
           | H : Forall _ (_ :: _) |- _ => inversion H; subst; clear H
           end.
    cbn [string_of_list_ascii list_ascii_of_string].
    repeat match goal with
           | H : JS.is_digit _ = true |- _ => rewrite H; clear H
           end.
    reflexivity.
Qed.

(** *** The three validated inputs *)

Variable Date_getTime : string -> JS.Num.
Variable parseInt : string -> JS.Num.
Variable BACKEND_URL : string.

Notation validateBirthDate := (Onboarding.validateBirthDate Date_getTime).
Notation finalLifeExpectancy := (Onboarding.finalLifeExpectancy parseInt).
Notation handleComplete := (Onboarding.handleComplete parseInt).
Notation handleNext := (Onboarding.handleNext Date_getTime parseInt).
Notation createGoal := (Goals.createGoal BACKEND_URL).

Lemma validateBirthDate_iff (now : Z) (s : string) :
  validateBirthDate now s = true <-> acceptable_birth_date Date_getTime now s.
Proof.
  unfold Onboarding.validateBirthDate, acceptable_birth_date.
  rewrite <- dateRegex_test_iff.
  destruct s as [|c s]; cbn [JS.is_empty].
  { split; [discriminate | intros [H _]; discriminate H]. }
  destruct (Onboarding.dateRegex_test (String c s)); cbn [negb].
  2:{ split; [discriminate | intros [H _]; discriminate H]. }
  destruct (Date_getTime (String c s)) as [t|]; cbn [JS.strict_eq JS.le].
  - rewrite Z.eqb_refl. cbn [andb]. rewrite Z.leb_le. split.
    + intros H. split; [reflexivity|]. eauto.
    + intros (_ & t' & [= <-] & H). exact H.
  - split; [discriminate | intros (_ & t' & H & _); discriminate H].
Qed.

Lemma Onboarding_setLoading_false_id (s : Onboarding.State) :
  Onboarding.loading s = false -> Onboarding.setLoading false s = s.
Proof. destruct s; cbn. now intros ->. Qed.

Lemma handleNext_rejects_birth_date (now : Z) (reply : Reply Onboarding.Profile)
    (w : World Onboarding.State) :
  Onboarding.currentStep (ui w) = 1 ->
  ~ acceptable_birth_date Date_getTime now (Onboarding.birthDate (ui w)) ->
  only_alerts (handleNext now reply) w (ui w).
Proof.
  intros Hstep Hbad. rewrite <- validateBirthDate_iff in Hbad.
  apply not_true_is_false in Hbad.
  unfold only_alerts, Onboarding.handleNext. run_async.
  rewrite Hstep, Hbad. cbn. destruct w. eauto.
Qed.

Lemma handleComplete_rejects_expectancy (reply : Reply Onboarding.Profile)
    (w : World Onboarding.State) (n : Z) :
  finalLifeExpectancy (ui w) = Some n ->
  n < 20 \/ 120 < n ->
  only_alerts (handleComplete reply) w (Onboarding.setLoading false (ui w)).
Proof.
  intros Hfle Hout.
  unfold only_alerts, Onboarding.handleComplete. run_async.
  rewrite Hfle. cbn [JS.lt JS.gt].
  assert ((n <? 20) || (120 <? n) = true) as ->.
  { apply orb_true_iff. rewrite !Z.ltb_lt. exact Hout. }
  destruct w as [[] d f l]. cbn. eauto.
Qed.

Lemma createGoal_rejects_blank_title (post : Reply unit)
    (refetch : Reply (list Goals.Goal.t)) (w : World Goals.State) :
  JS.all_space (Goals.title (ui w)) = true ->
  only_alerts (createGoal post refetch) w (ui w).
Proof.
  intros Hblank. apply trim_empty_iff in Hblank.
  unfold only_alerts, Goals.createGoal. run_async.
  destruct (truthy (Goals.userProfileId (ui w))); cbn [negb].
  - rewrite Hblank. destruct w. cbn. eauto.
  - destruct w. cbn. eauto.
Qed.

(** A custom entry that [parseInt] reads as [NaN] is not a number outside
    the range: both comparisons are false and the profile request is
    sent. *)
Remark handleComplete_nan_sends_request (reply : Reply Onboarding.Profile)
    (w : World Onboarding.State) :
  finalLifeExpectancy (ui w) = JS.NaN ->
  exists rest,
    log (snd (handleComplete reply w)) =
    (log w ++ Fetch "POST" (Onboarding.BACKEND_URL ++ "/api/profile") :: rest)%list.
Proof.
  intros Hnan. unfold Onboarding.handleComplete. run_async.
  rewrite Hnan. cbn [JS.lt JS.gt JS.NaN orb].
  destruct w as [u d f l].
  destruct reply as [|[ok1 [[pid]|] [t|]]]; [| destruct ok1 .. ];
    run_async; cbn;
    repeat (destruct (decide _); cbn);
    rewrite <- ?app_assoc; cbn; eauto.
Qed.

(** What the three validations do reject, with nothing but an alert (no
    network call is issued, nothing is written to storage, and the
    screen state stays as it was): (1) at step one, a birth date that
    does not have the shape YYYY-MM-DD, or that [new Date] does not read
    as a date, or that lies after the current instant; (2) at step two,
    a life expectancy that is a number below 20 or above 120 (the
    [loading] flag is reset to false, the value it has whenever the
    button can be pressed); (3) on the goals screen, a title that is
    empty or white space only.  What they let through is shown below
    ([validation_lets_invalid_input_through]). *)
Theorem validation_errors_rejected :
  (forall now reply (w : World Onboarding.State),
     Onboarding.currentStep (ui w) = 1 ->
     ~ acceptable_birth_date Date_getTime now (Onboarding.birthDate (ui w)) ->
     only_alerts (handleNext now reply) w (ui w)) /\
  (forall now reply (w : World Onboarding.State) (n : Z),
     Onboarding.currentStep (ui w) = 2 ->
     Onboarding.loading (ui w) = false ->
     finalLifeExpectancy (ui w) = Some n ->
     n < 20 \/ 120 < n ->
     only_alerts (handleNext now reply) w (ui w) /\
     only_alerts (handleComplete reply) w (ui w)) /\
  (forall post refetch (w : World Goals.State),
     JS.all_space (Goals.title (ui w)) = true ->
     only_alerts (createGoal post refetch) w (ui w)).
Proof.
  split; [exact handleNext_rejects_birth_date|].
  split; [|exact createGoal_rejects_blank_title].
  intros now reply w n Hstep Hload Hfle Hout.
  pose proof (handleComplete_rejects_expectancy reply w n Hfle Hout) as H.
  rewrite (Onboarding_setLoading_false_id _ Hload) in H.
  split; [|exact H].
  unfold only_alerts, Onboarding.handleNext in *.
  unfold mbind at 1, async_bind at 1, bind at 1, getState at 1.
  rewrite Hstep. cbn [Z.eqb Pos.eqb]. exact H.
Qed.

End Validation.

(** ** Backend errors on the screens *)

Section BackendErrors.

Variable BACKEND_URL : string.

Notation updateGoalStatus := (Goals.updateGoalStatus BACKEND_URL).

Lemma alerts_app (l1 l2 : list Effect) :
  alerts (l1 ++ l2) = (alerts l1 ++ alerts l2)%list.
Proof. apply filter_app. Qed.

Lemma updateGoalStatus_failure (goalId : string) (newStatus : Goals.Status)
    (put : Reply unit) (refetch : Reply (list Goals.Goal.t))
    (w : World Goals.State) :
  backend_error put = true ->
  let r := updateGoalStatus goalId newStatus put refetch w in
  fst r = Normal tt /\
  ui (snd r) = Goals.setLoading false (ui w) /\
  disk (snd r) = disk w /\
  alerts (log (snd r)) =
    (alerts (log w) ++ [AlertShown "Error" "Failed to update goal status"])%list.
Proof.
  intros Herr. unfold Goals.updateGoalStatus.
  destruct w as [[] d f l].
  destruct put as [|[ok1 j t]]; [|cbn in Herr; destruct ok1; [discriminate|]];
    run_async; cbn; rewrite !alerts_app; cbn; rewrite ?app_nil_r; auto.
Qed.

Lemma fetchUserData_failure (profileId : string)
    (profile : Reply Home.UserProfile) (mortality : Reply Home.MortalityStats)
    (daily : Reply Home.Quote.t) (w : World Home.State) :
  any_backend_error profile mortality daily = true ->
  let r := Home.fetchUserData profileId profile mortality daily w in
  fst r = Normal false /\
  ui (snd r) = Home.setRefreshing false (Home.setLoading false (ui w)) /\
  disk (snd r) = disk w /\ faulty (snd r) = faulty w /\
  alerts (log (snd r)) = alerts (log w).
Proof.
  unfold any_backend_error, Home.fetchUserData. intros Herr.
  destruct w as [u d f l].
  destruct profile as [|[ok1 j1 t1]], mortality as [|[ok2 j2 t2]],
           daily as [|[ok3 j3 t3]];
    try destruct ok1; try destruct ok2; try destruct ok3;
    try discriminate Herr;
    run_async; cbn; rewrite !alerts_app; cbn; rewrite ?app_nil_r; auto.
Qed.

(** The initial load, when the stored profile cannot be fetched: the two
    persisted keys are removed and the user is sent to onboarding. *)
Lemma initializeUser_after_failed_fetch (profileId : string)
    (profile : Reply Home.UserProfile) (mortality : Reply Home.MortalityStats)
    (daily : Reply Home.Quote.t) (w : World Home.State) :
  ("userProfileId" ∉ faulty w) ->
  ("onboardingCompleted" ∉ faulty w) ->
  disk w !! "userProfileId" = Some profileId ->
  JS.is_empty profileId = false ->
  disk w !! "onboardingCompleted" = Some "true" ->
  any_backend_error profile mortality daily = true ->
  Home.initializeUser profile mortality daily w =
  let w1 := snd (Home.fetchUserData profileId profile mortality daily w) in
  (Normal tt,
   mkWorld (ui w1) (delete "onboardingCompleted" (delete "userProfileId" (disk w)))
           (faulty w) (log w1 ++ [RouterReplace "/onboarding"])).
Proof.
  intros Hf1 Hf2 Hid Hne Hdone Herr.
  pose proof (fetchUserData_failure profileId profile mortality daily w Herr)
    as (Hc & Hu & Hd & Hf & Ha).
  unfold Home.initializeUser.
  unfold try_catch, mbind at 1 2, async_bind at 1 2, bind at 1 2, getItem at 1 2.
  rewrite !decide_False by assumption.
  rewrite Hid, Hdone, Hne.
  cbn [negb andb Index.is_true_string String.eqb Ascii.eqb Bool.eqb].
  unfold mbind at 1, async_bind at 1, bind at 1.
  destruct (Home.fetchUserData profileId profile mortality daily w) as [c w1].
  cbn [fst snd] in *. subst c. cbn [negb].
  run_async. rewrite Hf.
  repeat (rewrite decide_False by assumption; cbn).
  rewrite Hd. reflexivity.
Qed.

Lemma initializeUser_failure (profileId : string)
    (profile : Reply Home.UserProfile) (mortality : Reply Home.MortalityStats)
    (daily : Reply Home.Quote.t) (w : World Home.State) :
  ("userProfileId" ∉ faulty w) ->
  ("onboardingCompleted" ∉ faulty w) ->
  disk w !! "userProfileId" = Some profileId ->
  JS.is_empty profileId = false ->
  disk w !! "onboardingCompleted" = Some "true" ->
  any_backend_error profile mortality daily = true ->
  let r := Home.initializeUser profile mortality daily w in
  fst r = Normal tt /\
  disk (snd r) = delete "onboardingCompleted" (delete "userProfileId" (disk w)) /\
  alerts (log (snd r)) = alerts (log w) /\
  last (log (snd r)) = Some (RouterReplace "/onboarding").
Proof.
  intros Hf1 Hf2 Hid Hne Hdone Herr.
  rewrite (initializeUser_after_failed_fetch profileId) by assumption.
  pose proof (fetchUserData_failure profileId profile mortality daily w Herr)
    as (_ & _ & _ & _ & Ha).
  cbn [fst snd disk log]. rewrite alerts_app, Ha, last_snoc.
  cbn. rewrite app_nil_r. auto.
Qed.

(** C6, as amended: a network or backend error in these flows never
    escapes the call site.  [updateGoalStatus] shows the alert "Failed to
    update goal status" and keeps the goals, the form and the persisted
    keys as they were.  [fetchUserData] shows no alert: it returns false
    and keeps the profile, snapshot, quote and error of the screen and the
    persisted keys.  [initializeUser], whose stored profile could not be
    fetched, shows no alert either: it removes the persisted
    [userProfileId] and [onboardingCompleted] and redirects to
    onboarding. *)
Theorem backend_errors_caught :
  (forall goalId newStatus put refetch (w : World Goals.State),
     backend_error put = true ->
     let r := updateGoalStatus goalId newStatus put refetch w in
     fst r = Normal tt /\
     ui (snd r) = Goals.setLoading false (ui w) /\
     disk (snd r) = disk w /\
     alerts (log (snd r)) =
       (alerts (log w) ++ [AlertShown "Error" "Failed to update goal status"])%list) /\
  (forall profileId profile mortality daily (w : World Home.State),
     any_backend_error profile mortality daily = true ->
     let r := Home.fetchUserData profileId profile mortality daily w in
     fst r = Normal false /\
     ui (snd r) = Home.setRefreshing false (Home.setLoading false (ui w)) /\
     disk (snd r) = disk w /\
     alerts (log (snd r)) = alerts (log w)) /\
  (forall profileId profile mortality daily (w : World Home.State),
     ("userProfileId" ∉ faulty w) ->
     ("onboardingCompleted" ∉ faulty w) ->
     disk w !! "userProfileId" = Some profileId ->
     JS.is_empty profileId = false ->
     disk w !! "onboardingCompleted" = Some "true" ->
     any_backend_error profile mortality daily = true ->
     let r := Home.initializeUser profile mortality daily w in
     fst r = Normal tt /\
     disk (snd r) = delete "onboardingCompleted" (delete "userProfileId" (disk w)) /\
     alerts (log (snd r)) = alerts (log w) /\
     last (log (snd r)) = Some (RouterReplace "/onboarding")).
Proof.
  split; [exact updateGoalStatus_failure|].
  split; [|exact initializeUser_failure].
  intros profileId profile mortality daily w Herr.
  destruct (fetchUserData_failure profileId profile mortality daily w Herr)
    as (? & ? & ? & ? & ?).
  auto.
Qed.

End BackendErrors.

(** ** The refresh timer over a session *)

Section Lifecycle.

Import FloatingWidget.

Variables screenWidth screenHeight : Q.
Variable BACKEND_URL : string.
Variable Date_getTime : string -> JS.Num.

Notation fetchData := (fetchData BACKEND_URL).
Notation render := (render Date_getTime).
Notation commit := (commit Date_getTime).
Notation refresh_effect := (refresh_effect BACKEND_URL).
Notation mount := (mount screenWidth screenHeight Date_getTime).
Notation step := (step screenWidth screenHeight BACKEND_URL Date_getTime).
Notation run := (run screenWidth screenHeight BACKEND_URL Date_getTime).
Notation reachable := (reachable screenWidth screenHeight BACKEND_URL Date_getTime).

(** *** What the handlers leave alone *)

Lemma fetchData_frame (id : option string) (mortality : Reply MortalityStats)
    (daily : Reply Quote.t) (w : World Widget) :
  let w' := snd (fetchData id mortality daily w) in
  userProfileId (ui w') = userProfileId (ui w) /\
  (stale (ui w) = false -> stale (ui w') = false -> ui w' = ui w) /\
  (truthy id = false -> w' = w).
Proof.
  unfold FloatingWidget.fetchData, truthy.
  destruct w as [u d f l].
  destruct id as [profileId|]; [destruct profileId as [|c p]|];
    [| destruct mortality as [|[ok1 [m|] t1]]; [| destruct ok1 .. ];
       (destruct daily as [|[ok2 [q|] t2]]; [| destruct ok2 .. ]) |];
    run_async; cbn; repeat split; auto; try discriminate.
Qed.

Lemma initializeWidget_cases (w : World Widget) :
  let w' := snd (initializeWidget w) in
  (ui w' = ui w /\
   log w' = (log w ++ [ConsoleError "Error initializing widget:"])%list) \/
  (ui w' = setUserProfileId (disk w !! "userProfileId") (ui w) /\ log w' = log w).
Proof.
  unfold initializeWidget. destruct w as [u d f l]. run_async.
  destruct (decide ("userProfileId" ∈ f)); cbn; auto.
Qed.

Lemma initializeWidget_frame (w : World Widget) :
  let w' := snd (initializeWidget w) in
  fetches (log w') = fetches (log w) /\
  (ui w' = ui w \/
   exists p, userProfileId (ui w') = p /\ ui w' = setUserProfileId p (ui w)).
Proof.
  destruct (initializeWidget_cases w) as [[Hu Hl]|[Hu Hl]]; cbv zeta; rewrite Hl.
  - unfold fetches. rewrite filter_app. cbn. rewrite app_nil_r. auto.
  - split; [reflexivity|]. right. rewrite Hu. eauto.
Qed.

Lemma commit_cases (rt : Runtime) :
  (commit rt = rt /\ (mounted rt = false \/ stale (ui (world rt)) = false)) \/
  (mounted rt = true /\ stale (ui (world rt)) = true /\
   commit rt =
     mkRuntime (map_ui rendered (world rt)) (mounted rt) (initializing rt)
               (clock rt) (intervals rt) (next_handle rt) (cleanup rt)
               (render (clock rt) (ui (world rt))) (clock rt)).
Proof.
  unfold FloatingWidget.commit.
  destruct (mounted rt), (stale (ui (world rt))); cbn; auto.
Qed.

(** A render leaves the timers, the clock and the effect log alone. *)
Lemma commit_frame (rt : Runtime) :
  mounted (commit rt) = mounted rt /\ initializing (commit rt) = initializing rt /\
  clock (commit rt) = clock rt /\ intervals (commit rt) = intervals rt /\
  next_handle (commit rt) = next_handle rt /\ cleanup (commit rt) = cleanup rt /\
  log (world (commit rt)) = log (world rt) /\
  userProfileId (ui (world (commit rt))) = userProfileId (ui (world rt)).
Proof.
  destruct (commit_cases rt) as [[-> _]|(_ & _ & ->)]; cbn; repeat split; reflexivity.
Qed.

(** *** At most one timer *)

Lemma refresh_inv_mount (now : Z) d f : refresh_inv (mount now d f).
Proof. cbn. auto. Qed.

Lemma refresh_inv_commit (rt : Runtime) : refresh_inv rt -> refresh_inv (commit rt).
Proof.
  unfold refresh_inv, profile_of.
  destruct (commit_frame rt) as (-> & _ & -> & -> & _ & -> & _ & ->). auto.
Qed.

(** Changing the component without touching the profile id, the timers
    or the clock keeps the invariant. *)
Lemma refresh_inv_world (rt : Runtime) (w : World Widget) :
  userProfileId (ui w) = profile_of rt ->
  refresh_inv rt ->
  refresh_inv (mkRuntime w (mounted rt) (initializing rt) (clock rt) (intervals rt)
                         (next_handle rt) (cleanup rt) (screen rt) (rendered_at rt)).
Proof. unfold refresh_inv, profile_of. cbn. intros ->. auto. Qed.

Lemma refresh_inv_owned (rt : Runtime) : refresh_inv rt -> timers_owned rt.
Proof.
  unfold refresh_inv, timers_owned.
  destruct (intervals rt) as [|i [|j l]]; tauto.
Qed.

Lemma run_cleanup_clears (rt : Runtime) :
  timers_owned rt ->
  run_cleanup rt =
    mkRuntime (world rt) (mounted rt) (initializing rt) (clock rt) []
              (next_handle rt) None (screen rt) (rendered_at rt).
Proof.
  unfold timers_owned, run_cleanup.
  destruct rt as [w m ini c l n cl sc ra]. cbn.
  destruct l as [|i [|j l]].
  - intros ->. reflexivity.
  - intros ->. unfold clearInterval. cbn.
    rewrite decide_False by (intros H; apply H; reflexivity). reflexivity.
  - contradiction.
Qed.

Lemma refresh_inv_ext (rt1 rt2 : Runtime) :
  intervals rt2 = intervals rt1 -> cleanup rt2 = cleanup rt1 ->
  mounted rt2 = mounted rt1 -> profile_of rt2 = profile_of rt1 ->
  clock rt2 = clock rt1 ->
  refresh_inv rt1 -> refresh_inv rt2.
Proof. unfold refresh_inv. intros -> -> -> -> ->. auto. Qed.

Lemma refresh_inv_unmounted (rt : Runtime) :
  refresh_inv rt -> mounted rt = false -> intervals rt = [] /\ cleanup rt = None.
Proof.
  unfold refresh_inv. destruct (intervals rt) as [|i [|j l]].
  - tauto.
  - intros (_ & Hm & _) Hf. congruence.
  - contradiction.
Qed.

(** The refresh effect run after a cleanup installs one timer when the
    profile id is known and none otherwise. *)
Lemma refresh_inv_effect (mortality : Reply MortalityStats) (daily : Reply Quote.t)
    (rt : Runtime) :
  intervals rt = [] -> cleanup rt = None -> mounted rt = true ->
  refresh_inv (refresh_effect mortality daily rt).
Proof.
  intros Hi Hc Hm. unfold FloatingWidget.refresh_effect.
  destruct (truthy (userProfileId (ui (world rt)))) eqn:Ht.
  - unfold refresh_inv, profile_of. cbn. rewrite Hi. cbn.
    destruct (fetchData_frame (userProfileId (ui (world rt))) mortality daily (world rt))
      as (Hu & _).
    cbn zeta in Hu. rewrite Hu, Ht. repeat split; auto; lia.
  - unfold refresh_inv, profile_of. rewrite Hi. auto.
Qed.

Lemma refresh_inv_step (rt rt' : Runtime) (ev : Event) :
  refresh_inv rt -> step rt ev = Some rt' -> refresh_inv rt'.
Proof.
  intros Hinv. destruct ev as [m q|dt|m q| | |e|e| ]; cbn [FloatingWidget.step].
  - (* ProfileRead *)
    destruct (initializing rt); [|discriminate].
    destruct (mounted rt) eqn:Hm.
    + set (rt0 := mkRuntime _ true false _ _ _ _ _ _).
      destruct (decide _) as [Heq|Hne]; intros [= <-].
      * apply refresh_inv_commit.
        apply (refresh_inv_ext rt rt0); auto.
      * apply refresh_inv_commit.
        assert (Hown : timers_owned (commit rt0)).
        { unfold timers_owned.
          destruct (commit_frame rt0) as (_ & _ & _ & -> & _ & -> & _).
          apply (refresh_inv_owned rt Hinv). }
        rewrite (run_cleanup_clears _ Hown).
        apply refresh_inv_effect; cbn; auto.
        destruct (commit_frame rt0) as (-> & _). reflexivity.
    + intros [= <-].
      destruct (refresh_inv_unmounted rt Hinv Hm) as [Hi Hc].
      unfold refresh_inv. cbn. rewrite Hi, Hc. split; [reflexivity|discriminate].
  - (* Elapse *)
    destruct (0 <=? dt) eqn:Hdt; [|discriminate]. cbn [andb].
    destruct (forallb _ _) eqn:Hall; [|discriminate]. intros [= <-].
    apply Z.leb_le in Hdt.
    unfold refresh_inv, profile_of in *. cbn.
    destruct (intervals rt) as [|i [|j l]]; auto.
    cbn in Hall. rewrite andb_true_r in Hall. apply Z.leb_le in Hall.
    destruct Hinv as (? & ? & ? & ? & ? & ? & ?). repeat split; auto; lia.
  - (* IntervalFires *)
    unfold refresh_inv, profile_of in Hinv.
    destruct (intervals rt) as [|i [|j l]] eqn:Hi; cbn [find]; [discriminate| |contradiction].
    destruct Hinv as (Hc & Hm & Ht & Hcl & Hd & Hdue).
    destruct (due i =? clock rt) eqn:Hnow; [|discriminate]. intros [= <-].
    apply Z.eqb_eq in Hnow.
    apply refresh_inv_commit. unfold refresh_inv, profile_of. cbn.
    rewrite decide_True by reflexivity. cbn.
    rewrite Hm.
    destruct (fetchData_frame (closure i) m q (world rt)) as (Hu & _).
    cbn zeta in Hu. rewrite Hu. repeat split; auto; lia.
  - (* Tap *)
    destruct (mounted rt) eqn:Hm; [|discriminate]. intros [= <-].
    apply refresh_inv_commit. apply (refresh_inv_ext rt); auto.
  - (* LongPress *)
    destruct (mounted rt) eqn:Hm; [|discriminate]. intros [= <-].
    apply refresh_inv_commit. apply (refresh_inv_ext rt); auto.
  - (* Pan *)
    destruct (mounted rt) eqn:Hm; [|discriminate]. intros [= <-].
    apply (refresh_inv_ext rt); auto.
  - (* PanStateChange *)
    destruct (mounted rt) eqn:Hm; [|discriminate]. intros [= <-].
    apply (refresh_inv_ext rt); auto;
      unfold profile_of; cbn [world set_world map_ui ui];
      rewrite ?handleGestureStateChange_id; reflexivity.
  - (* Unmount *)
    destruct (mounted rt) eqn:Hm; [|discriminate]. intros [= <-].
    rewrite run_cleanup_clears by (apply (refresh_inv_owned rt Hinv)).
    unfold refresh_inv. cbn. split; [reflexivity|discriminate].
Qed.

Lemma refresh_inv_run (evs : list Event) (rt rt' : Runtime) :
  refresh_inv rt -> run rt evs = Some rt' -> refresh_inv rt'.
Proof.
  revert rt. induction evs as [|ev evs IH]; intros rt Hinv; cbn [FloatingWidget.run].
  - intros [= <-]. exact Hinv.
  - destruct (step rt ev) as [rt1|] eqn:E; [|discriminate].
    apply IH. exact (refresh_inv_step rt rt1 ev Hinv E).
Qed.

Lemma reachable_refresh_inv (rt : Runtime) : reachable rt -> refresh_inv rt.
Proof.
  intros (now & d & f & evs & Hrun).
  exact (refresh_inv_run evs _ rt (refresh_inv_mount now d f) Hrun).
Qed.

(** *** After unmount *)

Lemma unmounted_step (rt rt' : Runtime) (ev : Event) :
  refresh_inv rt -> mounted rt = false -> step rt ev = Some rt' ->
  mounted rt' = false /\ intervals rt' = [] /\
  ui (world rt') = ui (world rt) /\ screen rt' = screen rt.
Proof.
  intros Hinv Hm.
  destruct (refresh_inv_unmounted rt Hinv Hm) as [Hi Hc].
  destruct ev as [m q|dt|m q| | |e|e| ]; cbn [FloatingWidget.step];
    rewrite ?Hm, ?Hi; cbn [find]; try discriminate.
  - destruct (initializing rt); [|discriminate]. intros [= <-]. cbn. auto.
  - destruct (_ && _); [|discriminate]. intros [= <-]. cbn. auto.
Qed.

Lemma unmounted_run (evs : list Event) (rt rt' : Runtime) :
  refresh_inv rt -> mounted rt = false -> run rt evs = Some rt' ->
  mounted rt' = false /\ intervals rt' = [] /\
  ui (world rt') = ui (world rt) /\ screen rt' = screen rt.
Proof.
  revert rt. induction evs as [|ev evs IH]; intros rt Hinv Hm; cbn [FloatingWidget.run].
  - intros [= <-]. destruct (refresh_inv_unmounted rt Hinv Hm). auto.
  - destruct (step rt ev) as [rt1|] eqn:E; [|discriminate]. intros Hrun.
    destruct (unmounted_step rt rt1 ev Hinv Hm E) as (Hm1 & _ & Hu1 & Hs1).
    destruct (IH rt1 (refresh_inv_step rt rt1 ev Hinv E) Hm1 Hrun)
      as (? & ? & Hu & Hs).
    rewrite Hu, Hs. auto.
Qed.

(** *** When the task fetches *)

Lemma fetchData_log (id : option string) (mortality : Reply MortalityStats)
    (daily : Reply Quote.t) (w : World Widget) :
  truthy id = true ->
  exists profileId rest,
    id = Some profileId /\
    log (snd (fetchData id mortality daily w)) =
      (log w ++ Fetch "GET" (BACKEND_URL ++ "/api/mortality/" ++ profileId) :: rest)%list.
Proof.
  unfold FloatingWidget.fetchData, truthy.
  destruct w as [u d f l].
  destruct id as [profileId|]; [|discriminate].
  destruct profileId as [|c p]; [discriminate|]. intros _.
  exists (String c p).
  destruct mortality as [|[ok1 [m|] t1]]; [| destruct ok1 .. ];
    (destruct daily as [|[ok2 [q|] t2]]; [| destruct ok2 .. ]);
    run_async; cbn; rewrite <- ?app_assoc; cbn; eauto.
Qed.

Lemma run_cleanup_frame (rt : Runtime) :
  world (run_cleanup rt) = world rt /\ mounted (run_cleanup rt) = mounted rt /\
  clock (run_cleanup rt) = clock rt /\ screen (run_cleanup rt) = screen rt /\
  rendered_at (run_cleanup rt) = rendered_at rt.
Proof. unfold run_cleanup. destruct (cleanup rt); cbn; auto. Qed.

Lemma run_cleanup_initializing (rt : Runtime) :
  initializing (run_cleanup rt) = initializing rt.
Proof. unfold run_cleanup. destruct (cleanup rt); reflexivity. Qed.

Lemma refresh_effect_initializing (mortality : Reply MortalityStats)
    (daily : Reply Quote.t) (rt : Runtime) :
  initializing (refresh_effect mortality daily rt) = initializing rt.
Proof. unfold FloatingWidget.refresh_effect. destruct (truthy _); reflexivity. Qed.

Lemma init_inv_step (rt rt' : Runtime) (ev : Event) :
  init_inv rt -> step rt ev = Some rt' -> init_inv rt'.
Proof.
  unfold init_inv, profile_of. intros Hinv.
  destruct ev as [m q|dt|m q| | |e|e| ]; cbn [FloatingWidget.step].
  - destruct (initializing rt); [|discriminate].
    destruct (mounted rt).
    + destruct (decide _); intros [= <-].
      * match goal with |- context [commit ?r] =>
          destruct (commit_frame r) as (_ & -> & _) end.
        discriminate.
      * match goal with |- context [commit ?r] =>
          destruct (commit_frame r) as (_ & -> & _) end.
        rewrite refresh_effect_initializing, run_cleanup_initializing.
        match goal with |- context [commit ?r] =>
          destruct (commit_frame r) as (_ & -> & _) end.
        discriminate.
    + intros [= <-]. discriminate.
  - destruct (_ && _); [|discriminate]. intros [= <-]. exact Hinv.
  - destruct (find _ _) as [i|]; [|discriminate]. intros [= <-].
    match goal with |- context [commit ?r] =>
      destruct (commit_frame r) as (_ & -> & _ & _ & _ & _ & _ & ->) end.
    cbn. intros Hini.
    destruct (fetchData_frame (closure i) m q (world rt)) as (Hu & _).
    cbn zeta in Hu. destruct (mounted rt); cbn; rewrite ?Hu; auto.
  - destruct (mounted rt); [|discriminate]. intros [= <-].
    match goal with |- context [commit ?r] =>
      destruct (commit_frame r) as (_ & -> & _ & _ & _ & _ & _ & ->) end.
    exact Hinv.
  - destruct (mounted rt); [|discriminate]. intros [= <-].
    match goal with |- context [commit ?r] =>
      destruct (commit_frame r) as (_ & -> & _ & _ & _ & _ & _ & ->) end.
    exact Hinv.
  - destruct (mounted rt); [|discriminate]. intros [= <-]. exact Hinv.
  - destruct (mounted rt); [|discriminate]. intros [= <-]. cbn.
    rewrite ?handleGestureStateChange_id. exact Hinv.
  - destruct (mounted rt); [|discriminate]. intros [= <-].
    unfold run_cleanup. cbn. destruct (cleanup rt); exact Hinv.
Qed.

Lemma reachable_init_inv (rt : Runtime) : reachable rt -> init_inv rt.
Proof.
  intros (now & d & f & evs & Hrun).
  assert (H0 : init_inv (mount now d f)) by (intros _; reflexivity).
  revert Hrun H0. generalize (mount now d f) as rt0. clear now d f.
  induction evs as [|ev evs IH]; intros rt0; cbn [FloatingWidget.run].
  - intros [= <-]. auto.
  - destruct (step rt0 ev) as [rt1|] eqn:E; [|discriminate].
    intros Hrun H0. apply (IH rt1 Hrun). exact (init_inv_step rt0 rt1 ev H0 E).
Qed.

Lemma profile_read_starts_task (rt rt' : Runtime)
    (mortality : Reply MortalityStats) (daily : Reply Quote.t) :
  refresh_inv rt -> init_inv rt -> mounted rt = true ->
  step rt (ProfileRead mortality daily) = Some rt' ->
  truthy (profile_of rt') = true ->
  exists profileId,
    disk (world rt) !! "userProfileId" = Some profileId /\
    profile_of rt' = Some profileId /\
    fetches_next BACKEND_URL (log (world rt)) (log (world rt')) profileId /\
    one_timer_in_60s rt'.
Proof.
  intros Hinv Hinit Hm. cbn [FloatingWidget.step].
  destruct (initializing rt) eqn:Hini; [|discriminate].
  specialize (Hinit Hini). unfold profile_of in Hinit.
  rewrite Hm.
  set (rt0 := mkRuntime _ true false _ _ _ _ _ _).
  destruct (commit_frame rt0) as (Hcm & _ & Hcc & Hci & Hcn & Hcl & Hclog & Hcu).
  destruct (decide _) as [Heq|Hne]; intros [= <-].
  - unfold profile_of. rewrite Hcu. cbn. rewrite Heq, Hinit. discriminate.
  - assert (Hown : timers_owned (commit rt0)).
    { unfold timers_owned. rewrite Hci, Hcl. apply (refresh_inv_owned rt Hinv). }
    rewrite (run_cleanup_clears _ Hown).
    unfold FloatingWidget.refresh_effect. cbn [world ui].
    rewrite Hcu. cbn [world rt0].
    destruct (initializeWidget_cases (world rt)) as [[Hu Hl]|[Hu Hl]];
      cbv zeta in Hu, Hl.
    { exfalso. apply Hne. rewrite Hu. reflexivity. }
    rewrite Hu in *. cbn [userProfileId setUserProfileId] in *.
    destruct (truthy (disk (world rt) !! "userProfileId")) eqn:Ht.
    + intros _.
      destruct (fetchData_log _ mortality daily (world (commit rt0)) Ht)
        as (profileId & rest & Hid & Hlog).
      exists profileId. split; [exact Hid|].
      destruct (fetchData_frame (disk (world rt) !! "userProfileId")
                  mortality daily (world (commit rt0))) as (Hfu & _).
      cbv zeta in Hfu.
      match goal with |- context [commit ?r] =>
        destruct (commit_frame r) as (_ & _ & Hc2 & Hi2 & _ & _ & Hlog2 & Hu2) end.
      unfold profile_of, fetches_next, one_timer_in_60s.
      rewrite Hu2, Hlog2, Hi2, Hc2. cbn.
      rewrite Hfu, Hcu, Hlog, Hclog. cbn. rewrite Hu, Hl. cbn.
      split; [exact Hid|]. split; [eauto|].
      rewrite Hcc. cbn. eauto.
    + match goal with |- context [commit ?r] =>
        destruct (commit_frame r) as (_ & _ & _ & _ & _ & _ & _ & Hu2) end.
      unfold profile_of. rewrite Hu2. cbn [world]. rewrite Hcu.
      unfold rt0. cbn [world]. rewrite Hu. cbn. rewrite Ht. discriminate.
Qed.

Lemma interval_fires_fetches (rt rt' : Runtime)
    (mortality : Reply MortalityStats) (daily : Reply Quote.t) :
  refresh_inv rt ->
  step rt (IntervalFires mortality daily) = Some rt' ->
  exists profileId,
    profile_of rt = Some profileId /\
    fetches_next BACKEND_URL (log (world rt)) (log (world rt')) profileId /\
    one_timer_in_60s rt'.
Proof.
  intros Hinv. cbn [FloatingWidget.step].
  unfold refresh_inv in Hinv.
  destruct (intervals rt) as [|i [|j l]] eqn:Hi; cbn [find]; [discriminate| |contradiction].
  destruct Hinv as (Hc & Hm & Ht & Hcl & Hd & Hdue).
  destruct (due i =? clock rt) eqn:Hnow; [|discriminate]. intros [= <-].
  apply Z.eqb_eq in Hnow. rewrite Hm.
  rewrite <- Hcl in Ht.
  destruct (fetchData_log _ mortality daily (world rt) Ht)
    as (profileId & rest & Hid & Hlog).
  exists profileId. split; [congruence|].
  match goal with |- context [commit ?r] =>
    destruct (commit_frame r) as (_ & _ & Hc2 & Hi2 & _ & _ & Hlog2 & _) end.
  unfold fetches_next, one_timer_in_60s. rewrite Hlog2, Hi2, Hc2. cbn.
  rewrite decide_True by reflexivity. cbn.
  split; [eauto|]. eexists. split; [reflexivity|]. cbn. split; [exact Hd|lia].
Qed.

Lemma quiet_inv_step (rt rt' : Runtime) (ev : Event) :
  refresh_inv rt -> init_inv rt -> quiet_inv rt ->
  step rt ev = Some rt' -> quiet_inv rt'.
Proof.
  intros Hinv Hinit Hq. unfold quiet_inv, profile_of in *.
  destruct ev as [m q|dt|m q| | |e|e| ]; cbn [FloatingWidget.step].
  - (* ProfileRead *)
    destruct (initializing rt) eqn:Hini; [|discriminate].
    specialize (Hinit Hini). unfold profile_of in Hinit.
    rewrite Hinit in Hq. specialize (Hq eq_refl).
    destruct (initializeWidget_frame (world rt)) as [Hf _]. cbv zeta in Hf.
    destruct (mounted rt) eqn:Hm.
    + set (rt0 := mkRuntime _ true false _ _ _ _ _ _).
      destruct (commit_frame rt0) as (_ & _ & _ & Hci & _ & Hcl & Hclog & Hcu).
      destruct (decide _) as [Heq|Hne]; intros [= <-].
      * intros _. rewrite Hclog. cbn. congruence.
      * assert (Hown : timers_owned (commit rt0)).
        { unfold timers_owned. rewrite Hci, Hcl. apply (refresh_inv_owned rt Hinv). }
        rewrite (run_cleanup_clears _ Hown).
        unfold FloatingWidget.refresh_effect. cbn [world ui].
        destruct (truthy (userProfileId (ui (world (commit rt0))))) eqn:Ht.
        -- match goal with |- context [commit ?r] =>
             destruct (commit_frame r) as (_ & _ & _ & _ & _ & _ & _ & ->) end.
           cbn [world ui].
           destruct (fetchData_frame (userProfileId (ui (world (commit rt0))))
                       m q (world (commit rt0))) as (-> & _).
           rewrite Ht. discriminate.
        -- intros _.
           match goal with |- context [commit ?r] =>
             destruct (commit_frame r) as (_ & _ & _ & _ & _ & _ & -> & _) end.
           cbn [world]. rewrite Hclog. cbn. congruence.
    + intros [= <-] _. rewrite <- Hq, <- Hf. reflexivity.
  - (* Elapse *)
    destruct (_ && _); [|discriminate]. intros [= <-]. exact Hq.
  - (* IntervalFires *)
    unfold refresh_inv, profile_of in Hinv.
    destruct (intervals rt) as [|i [|j l]] eqn:Hi; cbn [find]; [discriminate| |contradiction].
    destruct Hinv as (_ & Hm & Ht & _).
    destruct (due i =? clock rt); [|discriminate]. intros [= <-].
    match goal with |- context [commit ?r] =>
      destruct (commit_frame r) as (_ & _ & _ & _ & _ & _ & _ & ->) end.
    cbn [world ui]. rewrite Hm.
    destruct (fetchData_frame (closure i) m q (world rt)) as (-> & _).
    rewrite Ht. discriminate.
  - (* Tap *)
    destruct (mounted rt); [|discriminate]. intros [= <-].
    match goal with |- context [commit ?r] =>
      destruct (commit_frame r) as (_ & _ & _ & _ & _ & _ & -> & ->) end.
    exact Hq.
  - (* LongPress *)
    destruct (mounted rt); [|discriminate]. intros [= <-].
    match goal with |- context [commit ?r] =>
      destruct (commit_frame r) as (_ & _ & _ & _ & _ & _ & -> & ->) end.
    exact Hq.
  - (* Pan *)
    destruct (mounted rt); [|discriminate]. intros [= <-]. exact Hq.
  - (* PanStateChange *)
    destruct (mounted rt); [|discriminate]. intros [= <-]. cbn.
    rewrite ?handleGestureStateChange_id. exact Hq.
  - (* Unmount *)
    destruct (mounted rt); [|discriminate]. intros [= <-].
    destruct (run_cleanup_frame
                (mkRuntime (world rt) false (initializing rt) (clock rt)
                           (intervals rt) (next_handle rt) (cleanup rt)
                           (screen rt) (rendered_at rt))) as (-> & _).
    exact Hq.
Qed.

Lemma reachable_quiet_inv (rt : Runtime) : reachable rt -> quiet_inv rt.
Proof.
  intros (now & d & f & evs & Hrun).
  assert (H0 : refresh_inv (mount now d f) /\ init_inv (mount now d f) /\
               quiet_inv (mount now d f)).
  { split; [apply refresh_inv_mount|]. split; intros _; reflexivity. }
  revert Hrun H0. generalize (mount now d f) as rt0. clear now d f.
  induction evs as [|ev evs IH]; intros rt0; cbn [FloatingWidget.run].
  - intros [= <-]. tauto.
  - destruct (step rt0 ev) as [rt1|] eqn:E; [|discriminate].
    intros Hrun (H1 & H2 & H3). apply (IH rt1 Hrun).
    split; [exact (refresh_inv_step rt0 rt1 ev H1 E)|].
    split; [exact (init_inv_step rt0 rt1 ev H2 E)|].
    exact (quiet_inv_step rt0 rt1 ev H1 H2 H3 E).
Qed.

(** C8, as amended: in every state a session can reach, the timer table
    holds at most one refresh timer: exactly one, with a period of sixty
    seconds, while the widget is mounted and its profile id is known and
    non-empty, and none while the id is unknown or empty (nothing has
    been requested then), or after unmount.  The task fetches a snapshot at once when the id is read from
    storage and again each time the timer fires, the next firing being
    sixty seconds later.  Unmount clears the timer: from then on the
    timer table stays empty and no timer can fire. *)
Theorem refresh_task_lifecycle (rt : Runtime) :
  reachable rt ->
  (mounted rt = true -> truthy (profile_of rt) = true ->
   exists i, intervals rt = [i] /\ delay i = 60000 /\
             clock rt <= due i <= clock rt + 60000) /\
  (truthy (profile_of rt) = false ->
   intervals rt = [] /\ fetches (log (world rt)) = []) /\
  (mounted rt = false -> intervals rt = []) /\
  (forall mortality daily rt',
     mounted rt = true ->
     step rt (ProfileRead mortality daily) = Some rt' ->
     truthy (profile_of rt') = true ->
     exists profileId,
       disk (world rt) !! "userProfileId" = Some profileId /\
       profile_of rt' = Some profileId /\
       fetches_next BACKEND_URL (log (world rt)) (log (world rt')) profileId /\
       one_timer_in_60s rt') /\
  (forall mortality daily rt',
     step rt (IntervalFires mortality daily) = Some rt' ->
     exists profileId,
       profile_of rt = Some profileId /\
       fetches_next BACKEND_URL (log (world rt)) (log (world rt')) profileId /\
       one_timer_in_60s rt') /\
  (mounted rt = true ->
   exists rt',
     step rt Unmount = Some rt' /\
     forall evs rt'',
       run rt' evs = Some rt'' ->
       intervals rt'' = [] /\
       forall mortality daily, step rt'' (IntervalFires mortality daily) = None).
Proof.
  intros Hreach.
  pose proof (reachable_refresh_inv rt Hreach) as Hinv.
  pose proof (reachable_init_inv rt Hreach) as Hinit.
  split; [|split; [|split; [|split; [|split]]]].
  - intros Hm Ht. unfold refresh_inv in Hinv.
    destruct (intervals rt) as [|i [|j l]]; [|eexists; intuition eauto|contradiction].
    destruct Hinv as [_ H]. rewrite (H Hm) in Ht. discriminate.
  - intros Ht. split; [|exact (reachable_quiet_inv rt Hreach Ht)].
    unfold refresh_inv in Hinv.
    destruct (intervals rt) as [|i [|j l]]; [reflexivity| |contradiction].
    destruct Hinv as (_ & _ & Ht' & _). congruence.
  - intros Hm. apply (refresh_inv_unmounted rt Hinv Hm).
  - intros mortality daily rt' Hm Hstep Ht.
    exact (profile_read_starts_task rt rt' mortality daily Hinv Hinit Hm Hstep Ht).
  - intros mortality daily rt' Hstep.
    exact (interval_fires_fetches rt rt' mortality daily Hinv Hstep).
  - intros Hm.
    destruct (step rt Unmount) as [rt'|] eqn:Hstep;
      [|cbn in Hstep; rewrite Hm in Hstep; discriminate].
    exists rt'. split; [reflexivity|].
    pose proof (refresh_inv_step rt rt' Unmount Hinv Hstep) as Hinv'.
    assert (Hm' : mounted rt' = false).
    { cbn in Hstep. rewrite Hm in Hstep. injection Hstep as <-.
      unfold run_cleanup. cbn. destruct (cleanup rt); cbn; auto. }
    intros evs rt'' Hrun.
    destruct (unmounted_run evs rt' rt'' Hinv' Hm' Hrun) as (_ & Hi & _).
    split; [exact Hi|].
    intros mortality daily. cbn. rewrite Hi. reflexivity.
Qed.

(** *** What is on screen *)
















End Lifecycle.


(** * The properties on concrete sessions *)

Section Examples.

Import FloatingWidget Demo.


(** C3, counterexample: the snapshot request is answered 500 and the
    quote request succeeds; the refresh replaces the stored quote. *)
Lemma fetchData_partial_failure_changes_quote :
  let w := mkWorld (setQuote quote_a (setMortalityStats snapshot (initial 400 800)))
                   profile_disk ∅ [] in
  let w' := snd (fetchData url (Some "p-1") server_error (quote_ok quote_b) w) in
  backend_error (@server_error MortalityStats) = true /\
  quote (ui w) = Some quote_a /\
  quote (ui w') = Some quote_b /\
  quote (ui w') <> quote (ui w).
Proof. cbn. repeat split; discriminate. Qed.

(** C6, counterexample: the home screen starts with both keys stored and
    the network down; afterwards both keys are gone, no alert was shown,
    and the user has been sent to onboarding. *)
Lemma initializeUser_failure_clears_keys :
  let w := mkWorld Home.initial profile_disk ∅ [] in
  let r := Home.initializeUser NetworkError NetworkError NetworkError w in
  disk w !! "userProfileId" = Some "p-1" /\
  disk w !! "onboardingCompleted" = Some "true" /\
  fst r = Normal tt /\
  disk (snd r) !! "userProfileId" = None /\
  disk (snd r) !! "onboardingCompleted" = None /\
  alerts (log (snd r)) = [] /\
  last (log (snd r)) = Some (RouterReplace "/onboarding").
Proof. vm_compute. repeat split. Qed.

(** C8, counterexample: a widget mounted with no stored profile id runs
    no refresh task and never fetches, however long it stays mounted. *)
Lemma widget_without_profile_has_no_task :
  exists rt,
    session ∅ [ProfileRead stats_ok (quote_ok quote_a); Elapse 60000; Elapse 60000]
      = Some rt /\
    mounted rt = true /\ clock rt = 120000 /\
    intervals rt = [] /\ log (world rt) = [].
Proof. eexists. split; [vm_compute; reflexivity|]. vm_compute. auto. Qed.

(** *** The theorems at concrete inputs *)

Lemma release_does_not_snap_witness :
  exists rt',
    session profile_disk
      (map Pan ([mkNativeEvent ACTIVE 300 400; mkNativeEvent ACTIVE 150 20]
                ++ [mkNativeEvent ACTIVE 10 50])
       ++ [PanStateChange release_low_left]) = Some rt' /\
    position (ui (world rt')) = (10, 50)%Q /\
    gestureState (ui (world rt')) = (0, 0)%Q.
Proof.
  exact (release_does_not_snap 400 800 url getTime 10 50 END
           (mounted_at_epoch profile_disk)
           [mkNativeEvent ACTIVE 300 400; mkNativeEvent ACTIVE 150 20] eq_refl).
Defined.


Lemma fetchData_failure_retains_witness :
  let w := mkWorld (setQuote quote_a (setMortalityStats snapshot (initial 400 800)))
                   profile_disk ∅ [] in
  ui (snd (fetchData url (Some "p-1") server_error NetworkError w)) = ui w.
Proof.
  intros w.
  destruct (fetchData_failure_retains url getTime (Some "p-1") server_error
              NetworkError w) as (_ & _ & _ & _ & Hboth & _).
  apply Hboth; reflexivity.
Defined.

Lemma validation_errors_rejected_witness :
  only_alerts
    (Onboarding.handleNext getTime (fun _ => None) 1000 NetworkError)
    (typed_birth_date "1990-2-30")
    (ui (typed_birth_date "1990-2-30")).
Proof.
  apply (proj1 (validation_errors_rejected getTime (fun _ => None) url)).
  - reflexivity.
  - intros (_ & t & H & _). discriminate H.
Defined.

Lemma backend_errors_caught_witness :
  let w := mkWorld Home.initial profile_disk ∅ [] in
  fst (Home.fetchUserData "p-1" server_error NetworkError server_error w)
  = Normal false.
Proof.
  intros w.
  apply (proj1 (proj2 (backend_errors_caught url)) "p-1" server_error
           NetworkError server_error w).
  reflexivity.
Defined.

Lemma tap_and_long_press_frame_witness :
  exists rt',
    step 400 800 url getTime (mounted_at_epoch profile_disk) Tap = Some rt' /\
    size (ui (world rt')) = (true, 0.7, 0.6)%Q /\
    mode (ui (world rt')) = countdown.
Proof.
  destruct (proj1 (tap_and_long_press_frame 400 800 url getTime
                     (mounted_at_epoch profile_disk) eq_refl))
    as (rt' & Hstep & Hsize & Hmode & _).
  exists rt'. split; [exact Hstep|]. split; [exact Hsize | exact Hmode].
Defined.

Lemma refresh_task_lifecycle_witness :
  match session profile_disk [ProfileRead stats_ok (quote_ok quote_a)] with
  | Some rt => exists i, intervals rt = [i] /\ delay i = 60000
  | None => False
  end.
Proof.
  destruct (session profile_disk [ProfileRead stats_ok (quote_ok quote_a)])
    as [rt|] eqn:E.
  - assert (Hreach : reachable 400 800 url getTime rt).
    { exists 0, profile_disk, ∅, [ProfileRead stats_ok (quote_ok quote_a)]. exact E. }
    destruct (proj1 (refresh_task_lifecycle 400 800 url getTime rt Hreach))
      as (i & Hi & Hd & _).
    + vm_compute in E. injection E as <-. reflexivity.
    + vm_compute in E. injection E as <-. reflexivity.
    + exists i. split; [exact Hi | exact Hd].
  - vm_compute in E. discriminate E.
Defined.

(** The hours are taken from the remaining time modulo one day and the
    days from the remaining time modulo one year of 365.25 days, so the
    two do not fit together: with 1 year and 18 hours left the card shows
    1 year, 0 days, 0 hours, 0 minutes, and one millisecond later it shows
    1 year, 0 days, 23 hours, 59 minutes. *)
Example countdown_hours_wrap_against_days :
  let w := setMortalityStats snapshot (initial 400 800) in
  let death (_ : string) := Some (year_ms + 18 * hour_ms) in
  render death 0 w = CountdownCard (Some 1) (Some 0) (Some 0) (Some 0) /\
  render death 1 w = CountdownCard (Some 1) (Some 0) (Some 23) (Some 59).
Proof. split; reflexivity. Qed.

End Examples.

(** * Further properties *)

Lemma filter_true_eq {A} (f : A -> bool) (l : list A) :
  filter (fun e => f e = true) l = List.filter f l.
Proof.
  induction l as [|a l IH]; [reflexivity|].
  rewrite filter_cons, IH. cbn. destruct (f a); case_decide; congruence.
Qed.

Ltac filter_logs :=
  unfold fetches, alerts, redirects in *; rewrite ?filter_true_eq in *;
  rewrite ?List.filter_app in *;
  cbn [List.filter is_fetch is_alert is_redirect app] in *.

(** ** Home screen: loading the user data *)

Section HomeLoading.

Lemma fetches_app (l1 l2 : list Effect) :
  fetches (l1 ++ l2) = (fetches l1 ++ fetches l2)%list.
Proof. apply filter_app. Qed.

Lemma redirects_app (l1 l2 : list Effect) :
  redirects (l1 ++ l2) = (redirects l1 ++ redirects l2)%list.
Proof. apply filter_app. Qed.

(** The whole run of [fetchUserData], by cases on the three replies. *)
Lemma fetchUserData_run (profileId : string)
    (profile : Reply Home.UserProfile) (mortality : Reply Home.MortalityStats)
    (daily : Reply Home.Quote.t) (w : World Home.State) :
  exists notes,
    Home.fetchUserData profileId profile mortality daily w =
      (Normal (bool_decide (is_Some (user_data profile mortality daily))),
       mkWorld (settled_home (user_data profile mortality daily) (ui w))
               (disk w) (faulty w)
               (log w ++ user_data_requests profileId ++ notes)) /\
    Forall (fun e => exists m, e = ConsoleError m) notes.
Proof.
  unfold Home.fetchUserData, user_data, payload, user_data_requests, settled_home.
  destruct w as [u d f l].
  destruct profile as [|[ok1 [j1|] t1]], mortality as [|[ok2 [j2|] t2]],
           daily as [|[ok3 [j3|] t3]];
    try destruct ok1; try destruct ok2; try destruct ok3;
    run_async; cbn; rewrite <- ?app_assoc; cbn;
    (eexists; split; [reflexivity|]); repeat constructor; eauto.
Qed.

(** X1: [fetchUserData] is all or nothing.  It always issues its three
    requests and never rejects; it returns true and stores profile,
    snapshot and quote together (clearing the error) exactly when all
    three requests succeed with a readable body, and otherwise returns
    false and keeps all three and the error as they were.  In both cases
    [loading] and [refreshing] end false, storage is untouched and no
    alert or redirect happens. *)
Theorem fetchUserData_all_or_nothing (profileId : string)
    (profile : Reply Home.UserProfile) (mortality : Reply Home.MortalityStats)
    (daily : Reply Home.Quote.t) (w : World Home.State) :
  let r := Home.fetchUserData profileId profile mortality daily w in
  let data := user_data profile mortality daily in
  fst r = Normal (bool_decide (is_Some data)) /\
  ui (snd r) = settled_home data (ui w) /\
  disk (snd r) = disk w /\
  fetches (log (snd r)) = (fetches (log w) ++ user_data_requests profileId)%list /\
  alerts (log (snd r)) = alerts (log w) /\
  redirects (log (snd r)) = redirects (log w).
Proof.
  destruct (fetchUserData_run profileId profile mortality daily w)
    as (notes & Hrun & Hnotes).
  cbv zeta. rewrite Hrun. cbn [fst snd ui disk log].
  assert (Hquiet : fetches notes = [] /\ alerts notes = [] /\ redirects notes = []).
  { clear Hrun. induction Hnotes as [|e notes (m & ->) _ IH]; [auto|].
    filter_logs. exact IH. }
  destruct Hquiet as (H1 & H2 & H3).
  rewrite !fetches_app, !alerts_app, !redirects_app, H1, H2, H3.
  unfold user_data_requests. filter_logs. rewrite ?app_nil_r.
  repeat split; reflexivity.
Qed.

Lemma fetchUserData_loaded (profileId : string)
    (profile : Reply Home.UserProfile) (mortality : Reply Home.MortalityStats)
    (daily : Reply Home.Quote.t) (w : World Home.State) data :
  user_data profile mortality daily = Some data ->
  Home.fetchUserData profileId profile mortality daily w =
    (Normal true,
     mkWorld (settled_home (Some data) (ui w)) (disk w) (faulty w)
             (log w ++ user_data_requests profileId)).
Proof.
  unfold Home.fetchUserData, user_data, payload, user_data_requests, settled_home.
  destruct w as [u d f l].
  destruct profile as [|[ok1 [j1|] t1]], mortality as [|[ok2 [j2|] t2]],
           daily as [|[ok3 [j3|] t3]];
    try destruct ok1; try destruct ok2; try destruct ok3;
    cbn; intros H; try discriminate H;
    injection H as <-; run_async; cbn; rewrite <- ?app_assoc; reflexivity.
Qed.

Lemma stored_session_Some (d : gmap string string) (profileId : string) :
  stored_session d = Some profileId <->
  d !! "userProfileId" = Some profileId /\ profileId <> "" /\
  d !! "onboardingCompleted" = Some "true".
Proof.
  unfold stored_session, Index.is_true_string.
  destruct (d !! "userProfileId") as [p|]; [|split; [discriminate|intros (H & _); discriminate]].
  destruct (d !! "onboardingCompleted") as [v|].
  - destruct (String.eqb_spec v "true") as [->|Hv];
      destruct p as [|c p]; cbn; split;
      try discriminate; try (intros (H & H2 & H3); congruence).
    intros H; injection H as <-. repeat split; congruence.
  - rewrite andb_false_r. split; [discriminate|intros (_ & _ & H); discriminate].
Qed.

(** X2: when AsyncStorage rejects on one of the two session keys,
    [initializeUser] catches the rejection: it shows the message
    "Failed to load user data. Please try again.", ends the loading state,
    and does nothing else - no request, no redirect, storage untouched. *)
Theorem initializeUser_unreadable_storage
    (profile : Reply Home.UserProfile) (mortality : Reply Home.MortalityStats)
    (daily : Reply Home.Quote.t) (w : World Home.State) :
  ~ readable (faulty w) ->
  Home.initializeUser profile mortality daily w =
    (Normal tt,
     mkWorld (Home.setLoading false
                (Home.setError (Some "Failed to load user data. Please try again.")
                   (ui w)))
             (disk w) (faulty w) (log w ++ [ConsoleError "Error initializing user:"])).
Proof.
  unfold readable, Home.initializeUser. intros Hbad. run_async.
  destruct (decide ("userProfileId" ∈ faulty w)) as [H1|H1]; [reflexivity|].
  destruct (decide ("onboardingCompleted" ∈ faulty w)) as [H2|H2]; [reflexivity|].
  tauto.
Qed.

(** X3: with readable storage that holds no session (no profile id, an
    empty one, or [onboardingCompleted] other than "true"),
    [initializeUser] only redirects to /onboarding: no request is made,
    the screen state (still loading) and the storage stay as they were. *)
Theorem initializeUser_without_session
    (profile : Reply Home.UserProfile) (mortality : Reply Home.MortalityStats)
    (daily : Reply Home.Quote.t) (w : World Home.State) :
  readable (faulty w) ->
  stored_session (disk w) = None ->
  Home.initializeUser profile mortality daily w =
    (Normal tt,
     mkWorld (ui w) (disk w) (faulty w) (log w ++ [RouterReplace "/onboarding"])).
Proof.
  unfold readable, stored_session, Home.initializeUser. intros [H1 H2] Hnone.
  unfold try_catch, mbind at 1 2, async_bind at 1 2, bind at 1 2, getItem at 1 2.
  rewrite !decide_False by assumption.
  destruct (disk w !! "userProfileId") as [p|]; [|reflexivity].
  destruct (negb (JS.is_empty p) && Index.is_true_string (disk w !! "onboardingCompleted"));
    [discriminate|reflexivity].
Qed.

(** X4: with a stored session and three successful replies,
    [initializeUser] requests the data of the stored profile id, shows
    it, and neither redirects nor touches the storage. *)
Theorem initializeUser_loads_session (profileId : string)
    (profile : Reply Home.UserProfile) (mortality : Reply Home.MortalityStats)
    (daily : Reply Home.Quote.t) (w : World Home.State) data :
  readable (faulty w) ->
  stored_session (disk w) = Some profileId ->
  user_data profile mortality daily = Some data ->
  Home.initializeUser profile mortality daily w =
    (Normal tt,
     mkWorld (settled_home (Some data) (ui w)) (disk w) (faulty w)
             (log w ++ user_data_requests profileId)).
Proof.
  unfold readable, Home.initializeUser. intros [H1 H2] Hsession Hdata.
  unfold stored_session in Hsession.
  unfold try_catch, mbind at 1 2, async_bind at 1 2, bind at 1 2, getItem at 1 2.
  rewrite !decide_False by assumption.
  destruct (disk w !! "userProfileId") as [p|]; [|discriminate].
  destruct (negb (JS.is_empty p) && Index.is_true_string (disk w !! "onboardingCompleted"));
    [|discriminate].
  injection Hsession as ->.
  unfold mbind, async_bind, bind.
  rewrite (fetchUserData_loaded _ _ _ _ _ _ Hdata). reflexivity.
Qed.

(** The whole run of [initializeUser] on a stored session. *)
Lemma initializeUser_session_run (profileId : string)
    (profile : Reply Home.UserProfile) (mortality : Reply Home.MortalityStats)
    (daily : Reply Home.Quote.t) (w : World Home.State) :
  readable (faulty w) ->
  stored_session (disk w) = Some profileId ->
  exists notes,
    Forall (fun e => exists m, e = ConsoleError m) notes /\
    Home.initializeUser profile mortality daily w =
      (Normal tt,
       let data := user_data profile mortality daily in
       mkWorld (settled_home data (ui w))
               (if data is Some _ then disk w
                else delete "onboardingCompleted" (delete "userProfileId" (disk w)))
               (faulty w)
               (log w ++ user_data_requests profileId ++ notes
                  ++ (if data is Some _ then [] else [RouterReplace "/onboarding"]))).
Proof.
  unfold readable, Home.initializeUser. intros [H1 H2] Hsession.
  destruct (fetchUserData_run profileId profile mortality daily w)
    as (notes & Hrun & Hnotes).
  exists notes. split; [exact Hnotes|].
  unfold stored_session in Hsession.
  unfold try_catch, mbind at 1 2, async_bind at 1 2, bind at 1 2, getItem at 1 2.
  rewrite !decide_False by assumption.
  destruct (disk w !! "userProfileId") as [p|]; [|discriminate].
  destruct (negb (JS.is_empty p) && Index.is_true_string (disk w !! "onboardingCompleted"));
    [|discriminate].
  injection Hsession as ->.
  unfold mbind at 1, async_bind at 1, bind at 1. rewrite Hrun.
  destruct (user_data profile mortality daily) as [data|]; cbn.
  - rewrite app_nil_r. reflexivity.
  - run_async.
    repeat (rewrite decide_False by assumption; cbn).
    rewrite <- !app_assoc. reflexivity.
Qed.

Lemma console_notes_quiet (notes : list Effect) :
  Forall (fun e => exists m, e = ConsoleError m) notes ->
  fetches notes = [] /\ alerts notes = [] /\ redirects notes = [].
Proof.
  induction 1 as [|e notes (m & ->) _ IH]; [auto|]. filter_logs. exact IH.
Qed.

(** X5: the entry gate and the home screen read the same two keys.  On
    readable storage, whenever [Index] routes to /onboarding the home
    screen would do the same without any request; and when [Index] routes
    to the main app, the home screen sends the user straight back to
    /onboarding without a request exactly when the stored profile id is
    the empty string. *)
Theorem home_agrees_with_gate (s : Index.State) (l : list Effect)
    (profile : Reply Home.UserProfile) (mortality : Reply Home.MortalityStats)
    (daily : Reply Home.Quote.t) (w : World Home.State) :
  readable (faulty w) ->
  let route := Index.route_after_check (mkWorld s (disk w) (faulty w) l) in
  let bounced :=
    Home.initializeUser profile mortality daily w =
      (Normal tt,
       mkWorld (ui w) (disk w) (faulty w) (log w ++ [RouterReplace "/onboarding"])) in
  (route = Index.Redirect "/onboarding" -> bounced) /\
  (route = Index.Redirect "/(tabs)" ->
     (bounced <-> disk w !! "userProfileId" = Some "")).
Proof.
  intros Hread route bounced. subst route bounced.
  assert (Hnone : stored_session (disk w) = None ->
            Home.initializeUser profile mortality daily w =
              (Normal tt,
               mkWorld (ui w) (disk w) (faulty w)
                       (log w ++ [RouterReplace "/onboarding"]))).
  { intros Hnone. pose proof Hread as [H1 H2].
    unfold Home.initializeUser, stored_session in *.
    unfold try_catch, mbind at 1 2, async_bind at 1 2, bind at 1 2, getItem at 1 2.
    rewrite !decide_False by assumption.
    destruct (disk w !! "userProfileId") as [p|]; [|reflexivity].
    destruct (negb (JS.is_empty p)
              && Index.is_true_string (disk w !! "onboardingCompleted"));
      [discriminate|reflexivity]. }
  destruct (route_after_check_cases s (disk w) (faulty w) l)
    as [[Hopen ->]|[Hclosed ->]].
  - split; [discriminate|]. intros _.
    destruct Hopen as (_ & _ & Hdone & [p Hp]).
    destruct (stored_session (disk w)) as [q|] eqn:Hs.
    + apply stored_session_Some in Hs as (Hq & Hne & _).
      split; [|intros Hempty; congruence].
      intros Hb. exfalso.
      assert (Hs : stored_session (disk w) = Some q)
        by (apply stored_session_Some; repeat split; assumption).
      destruct (initializeUser_session_run q profile mortality daily w Hread Hs)
        as (notes & Hnotes & Hrun).
      rewrite Hrun in Hb. injection Hb as _ _ Hlog.
      apply app_inv_head in Hlog. discriminate Hlog.
    + split; [|intros _; apply Hnone; reflexivity].
      intros _. unfold stored_session in Hs. rewrite Hp, Hdone in Hs.
      destruct p as [|c p]; [exact Hp|discriminate].
  - split; [|discriminate]. intros _. apply Hnone.
    destruct (stored_session (disk w)) as [q|] eqn:Hs; [|reflexivity].
    apply stored_session_Some in Hs as (Hq & Hne & Hdone).
    destruct Hread as [H1 H2].
    exfalso. apply Hclosed. repeat split; eauto.
Qed.

(** X6: what the home screen shows once [initializeUser] has run on a
    freshly mounted screen: the error view with its message when the
    storage cannot be read; still the loading view when there is no
    stored session (the redirect is under way); the full content when
    the three requests succeeded; and an empty content view - no quote,
    no statistics, no calendar - when they did not. *)
Theorem home_view_after_initializeUser
    (profile : Reply Home.UserProfile) (mortality : Reply Home.MortalityStats)
    (daily : Reply Home.Quote.t) (w : World Home.State) :
  ui w = Home.initial ->
  Home.render (ui (snd (Home.initializeUser profile mortality daily w))) =
    if decide (readable (faulty w)) then
      match stored_session (disk w), user_data profile mortality daily with
      | None, _ => Home.LoadingView
      | Some _, Some _ => Home.Content true true true
      | Some _, None => Home.Content false false false
      end
    else Home.ErrorView "Failed to load user data. Please try again.".
Proof.
  intros Hui.
  destruct (decide (readable (faulty w))) as [Hread|Hbad].
  - destruct (stored_session (disk w)) as [q|] eqn:Hs.
    + destruct (initializeUser_session_run q profile mortality daily w Hread Hs)
        as (notes & _ & ->).
      cbn [snd ui]. rewrite Hui.
      destruct (user_data profile mortality daily) as [[[a b] c]|]; reflexivity.
    + pose proof Hread as [H1 H2].
      unfold Home.initializeUser, stored_session in *.
      unfold try_catch, mbind at 1 2, async_bind at 1 2, bind at 1 2, getItem at 1 2.
      rewrite !decide_False by assumption.
      destruct (disk w !! "userProfileId") as [p|]; [|cbn; rewrite Hui; reflexivity].
      destruct (negb (JS.is_empty p)
                && Index.is_true_string (disk w !! "onboardingCompleted"));
        [discriminate|cbn; rewrite Hui; reflexivity].
  - unfold readable, Home.initializeUser in *. run_async.
    destruct (decide ("userProfileId" ∈ faulty w)) as [H1|H1]; [reflexivity|].
    destruct (decide ("onboardingCompleted" ∈ faulty w)) as [H2|H2]; [reflexivity|].
    tauto.
Qed.

Lemma onRefresh_run
    (profile : Reply Home.UserProfile) (mortality : Reply Home.MortalityStats)
    (daily : Reply Home.Quote.t) (w : World Home.State) :
  Home.onRefresh profile mortality daily w =
    let w1 := mkWorld (Home.setRefreshing true (ui w)) (disk w) (faulty w) (log w) in
    if decide ("userProfileId" ∈ faulty w) then (Abrupt, w1)
    else
      match disk w !! "userProfileId" with
      | Some profileId =>
          if negb (String.eqb profileId "")
          then (Normal tt, snd (Home.fetchUserData profileId profile mortality daily w1))
          else (Normal tt, w1)
      | None => (Normal tt, w1)
      end.
Proof.
  unfold Home.onRefresh.
  unfold mbind at 1 2, async_bind at 1 2, bind at 1 2, setState at 1, getItem at 1.
  cbn [fst snd ui disk faulty log].
  destruct (decide ("userProfileId" ∈ faulty w)) as [H1|H1]; [reflexivity|].
  destruct (disk w !! "userProfileId") as [[|c p]|]; try reflexivity.
  cbn [JS.is_empty String.eqb negb].
  set (w1 := mkWorld _ _ _ _).
  destruct (fetchUserData_run (String c p) profile mortality daily w1)
    as (notes & Hrun & _).
  unfold mbind, async_bind, bind. rewrite Hrun. reflexivity.
Qed.

(** X7: pull-to-refresh.  [onRefresh] never changes the storage, never
    redirects and never alerts.  It rejects exactly when the profile id
    cannot be read, and the refresh spinner it switches on is switched
    off again exactly when a non-empty profile id could be read (only
    then the three requests are made); otherwise the spinner stays on. *)
Theorem onRefresh_spinner
    (profile : Reply Home.UserProfile) (mortality : Reply Home.MortalityStats)
    (daily : Reply Home.Quote.t) (w : World Home.State) :
  let r := Home.onRefresh profile mortality daily w in
  let refreshed := ("userProfileId" ∉ faulty w)
                   /\ truthy (disk w !! "userProfileId") = true in
  disk (snd r) = disk w /\
  redirects (log (snd r)) = redirects (log w) /\
  alerts (log (snd r)) = alerts (log w) /\
  (fst r = Abrupt <-> "userProfileId" ∈ faulty w) /\
  (Home.refreshing (ui (snd r)) = false <-> refreshed) /\
  (fetches (log (snd r)) <> fetches (log w) <-> refreshed).
Proof.
  cbv zeta. rewrite onRefresh_run.
  destruct (decide ("userProfileId" ∈ faulty w)) as [H1|H1]; cbn [fst snd ui disk log].
  { repeat split; try tauto; try discriminate;
      try (intros H; exfalso; apply H; reflexivity). }
  unfold truthy.
  destruct (disk w !! "userProfileId") as [[|c p]|]; cbn [fst snd ui disk log negb String.eqb].
  1, 3: repeat split; try tauto; try discriminate; try (intros [_ H]; discriminate H);
        try (intros H; exfalso; apply H; reflexivity).
  set (w1 := mkWorld (Home.setRefreshing true (ui w)) (disk w) (faulty w) (log w)).
  destruct (fetchUserData_run (String c p) profile mortality daily w1)
    as (notes & Hrun & Hnotes).
  rewrite Hrun. cbn [fst snd ui disk log w1].
  destruct (console_notes_quiet notes Hnotes) as (Hf & Ha & Hr).
  rewrite !redirects_app, !alerts_app, !fetches_app, Hf, Ha, Hr.
  unfold user_data_requests. filter_logs. rewrite ?app_nil_r.
  assert (Hoff : Home.refreshing
                   (settled_home (user_data profile mortality daily)
                      (Home.setRefreshing true (ui w))) = false).
  { unfold settled_home.
    destruct (user_data profile mortality daily) as [[[? ?] ?]|]; reflexivity. }
  assert (Hmore : forall (l0 : list Effect) e1 e2 e3, (l0 ++ [e1; e2; e3])%list <> l0).
  { intros l0 e1 e2 e3 H. apply (f_equal length) in H.
    rewrite length_app in H. cbn in H. lia. }
  repeat split; try tauto; try discriminate; try (intros; apply Hmore).
Qed.

(** X8: [refreshQuote] issues one GET for the daily quote and never
    rejects, alerts or redirects.  It replaces the quote exactly when the
    request succeeded with a readable body, and changes nothing else on
    the screen or in the storage; a failure is silent. *)
Theorem refreshQuote_changes_only_quote (daily : Reply Home.Quote.t)
    (w : World Home.State) :
  let r := Home.refreshQuote daily w in
  fst r = Normal tt /\
  ui (snd r) = match payload daily with
               | Some q => Home.setQuote q (ui w)
               | None => ui w
               end /\
  disk (snd r) = disk w /\
  fetches (log (snd r)) =
    (fetches (log w) ++ [Fetch "GET" (Home.BACKEND_URL ++ "/api/quotes/daily")])%list /\
  alerts (log (snd r)) = alerts (log w) /\
  redirects (log (snd r)) = redirects (log w).
Proof.
  cbv zeta. unfold Home.refreshQuote, payload. destruct w as [u d f l].
  destruct daily as [|[[|] [j|] t]]; run_async; cbn;
    rewrite ?fetches_app, ?alerts_app, ?redirects_app; filter_logs;
    rewrite ?app_nil_r; repeat split; reflexivity.
Qed.

End HomeLoading.

Section HomeLoadingExamples.

Import Demo DemoHome.

Lemma initializeUser_unreadable_storage_witness :
  Home.initializeUser (ok_reply profile) (ok_reply stats) (ok_reply daily_quote)
    (fresh profile_disk {["onboardingCompleted"]}) =
  (Normal tt,
   mkWorld (Home.mkState None None None false false
              (Some "Failed to load user data. Please try again."))
           profile_disk {["onboardingCompleted"]}
           [ConsoleError "Error initializing user:"]).
Proof.
  refine (initializeUser_unreadable_storage (ok_reply profile) (ok_reply stats)
            (ok_reply daily_quote) (fresh profile_disk {["onboardingCompleted"]}) _).
  intros [_ H]. apply H. apply elem_of_singleton. reflexivity.
Defined.

Lemma readable_empty : readable ∅.
Proof. split; apply not_elem_of_empty. Defined.

Lemma initializeUser_without_session_witness :
  Home.initializeUser (ok_reply profile) (ok_reply stats) (ok_reply daily_quote)
    (fresh empty_id ∅) =
  (Normal tt, mkWorld Home.initial empty_id ∅ [RouterReplace "/onboarding"]).
Proof.
  apply (initializeUser_without_session (ok_reply profile) (ok_reply stats)
           (ok_reply daily_quote) (fresh empty_id ∅)).
  - exact readable_empty.
  - reflexivity.
Defined.

Lemma initializeUser_loads_session_witness :
  Home.initializeUser (ok_reply profile) (ok_reply stats) (ok_reply daily_quote)
    (fresh profile_disk ∅) =
  (Normal tt,
   mkWorld (Home.mkState (Some profile) (Some stats) (Some daily_quote) false false None)
           profile_disk ∅ (user_data_requests "p-1")).
Proof.
  apply (initializeUser_loads_session "p-1" (ok_reply profile) (ok_reply stats)
           (ok_reply daily_quote) (fresh profile_disk ∅) (profile, stats, daily_quote)).
  - exact readable_empty.
  - reflexivity.
  - reflexivity.
Defined.

Lemma home_agrees_with_gate_witness :
  Index.route_after_check (mkWorld Index.initial empty_id ∅ []) = Index.Redirect "/(tabs)" /\
  Home.initializeUser (ok_reply profile) (ok_reply stats) (ok_reply daily_quote)
    (fresh empty_id ∅) =
  (Normal tt, mkWorld Home.initial empty_id ∅ [RouterReplace "/onboarding"]).
Proof.
  split; [reflexivity|].
  apply (proj2 (home_agrees_with_gate Index.initial [] (ok_reply profile)
                  (ok_reply stats) (ok_reply daily_quote) (fresh empty_id ∅)
                  readable_empty)); reflexivity.
Defined.

Lemma home_view_after_initializeUser_witness :
  Home.render
    (ui (snd (Home.initializeUser (ok_reply profile) garbled (ok_reply daily_quote)
                (fresh profile_disk ∅)))) =
  Home.Content false false false.
Proof.
  rewrite (home_view_after_initializeUser (ok_reply profile) garbled
             (ok_reply daily_quote) (fresh profile_disk ∅) eq_refl).
  reflexivity.
Defined.

End HomeLoadingExamples.

(** ** The entry gate settles *)

Section GateSettles.

(** X9: [checkOnboardingStatus] never rejects and never touches the
    storage; when it is done the gate has stopped loading, so [Index]
    shows a redirect and not the spinner.  It logs its console error
    exactly when one of the two keys cannot be read, and nothing
    otherwise. *)
Theorem checkOnboardingStatus_settles (w : World Index.State) :
  let r := Index.checkOnboardingStatus w in
  fst r = Normal tt /\
  Index.isLoading (ui (snd r)) = false /\
  Index.render (ui (snd r)) <> Index.LoadingView /\
  disk (snd r) = disk w /\
  log (snd r) =
    (log w ++ if decide (readable (faulty w)) then []
              else [ConsoleError "Error checking onboarding status:"])%list.
Proof.
  cbv zeta. unfold Index.checkOnboardingStatus, Index.render, readable.
  destruct w as [u d f l]. run_async.
  destruct (decide ("onboardingCompleted" ∈ f)) as [H1|H1]; cbn.
  { rewrite decide_False by tauto. repeat split; try reflexivity. discriminate. }
  destruct (decide ("userProfileId" ∈ f)) as [H2|H2]; cbn.
  { rewrite decide_False by tauto. repeat split; try reflexivity. discriminate. }
  rewrite decide_True by tauto. rewrite app_nil_r.
  repeat split; try reflexivity.
  destruct (Index.is_true_string (d !! "onboardingCompleted") && Index.not_null (d !! "userProfileId"));
    discriminate.
Qed.

End GateSettles.

(** ** Onboarding *)

Section OnboardingFlow.

Variable Date_getTime : string -> JS.Num.
Variable parseInt : string -> JS.Num.

Notation finalLifeExpectancy := (Onboarding.finalLifeExpectancy parseInt).
Notation handleComplete := (Onboarding.handleComplete parseInt).
Notation handleNext := (Onboarding.handleNext Date_getTime parseInt).

Lemma expectancy_of_range (countryCode : string) :
  64 <= Onboarding.expectancy_of countryCode <= 85.
Proof.
  unfold Onboarding.expectancy_of, Onboarding.DEFAULT_EXPECTANCY.
  destruct (Onboarding.LIFE_EXPECTANCY_BY_COUNTRY !! countryCode) as [n|] eqn:E;
    [|vm_compute; split; discriminate].
  apply elem_of_list_to_map_2 in E.
  repeat (apply elem_of_cons in E as [E|E];
          [injection E as _ ->; vm_compute; split; discriminate|]).
  apply elem_of_nil in E. destruct E.
Qed.

(** The whole run of [detectCountry]: what it stores, by cases on the
    answers of the location service. *)
Lemma detectCountry_run (Location : Onboarding.LocationService)
    (w : World Onboarding.State) :
  exists (u : Onboarding.State) (notes : list Effect),
    Onboarding.detectCountry Location w = (Normal tt, mkWorld u (disk w) (faulty w) (log w ++ notes)) /\
    Forall (fun e => exists m, e = ConsoleError m) notes /\
    (u = ui w \/
     exists c n, 64 <= n <= 85 /\
       (u = Onboarding.setEstimatedLifeExpectancy n (ui w) \/
        u = Onboarding.setEstimatedLifeExpectancy n (Onboarding.setCountry c (ui w)))).
Proof.
  unfold Onboarding.detectCountry. destruct w as [u d f l].
  assert (Hdefault : forall notes,
            Forall (fun e => exists m, e = ConsoleError m) notes ->
            exists u' notes',
              (Normal tt,
               mkWorld (Onboarding.setEstimatedLifeExpectancy
                          Onboarding.DEFAULT_EXPECTANCY u) d f (l ++ notes)) =
              (Normal tt, mkWorld u' d f (l ++ notes')) /\
              Forall (fun e => exists m, e = ConsoleError m) notes' /\
              (u' = u \/
               exists c n, 64 <= n <= 85 /\
                 (u' = Onboarding.setEstimatedLifeExpectancy n u \/
                  u' = Onboarding.setEstimatedLifeExpectancy n (Onboarding.setCountry c u)))).
  { intros notes Hnotes. eexists; exists notes. split; [reflexivity|].
    split; [exact Hnotes|]. right. exists "", 78. split; [lia|left; reflexivity]. }
  destruct Location as [[status|] pos geo]; unfold Onboarding.await; run_async; cbn.
  2: { apply Hdefault. repeat constructor. eauto. }
  destruct status; cbn.
  2, 3: pose proof (Hdefault [] (List.Forall_nil _)) as H0; rewrite app_nil_r in H0; exact H0.
  destruct pos as [[]|]; cbn.
  2: { apply Hdefault. repeat constructor. eauto. }
  destruct geo as [[|first rest]|]; cbn.
  - exists u, []. rewrite app_nil_r. repeat split; auto.
  - eexists; exists []. rewrite app_nil_r. split; [reflexivity|]. split; [constructor|].
    right. eexists; eexists. split; [apply expectancy_of_range|]. right. reflexivity.
  - apply Hdefault. repeat constructor. eauto.
Qed.

(** X10: [detectCountry] never rejects, and it touches neither the
    storage nor the network, alerts or the router.  Of the screen state
    it changes at most [country] and [estimatedLifeExpectancy], and an
    estimate it sets lies between 64 and 85 years: an estimate within
    the accepted range of 20 to 120 stays within it.  (The country table
    is read for the two-letter codes the geocoder answers with.) *)
Theorem detectCountry_estimate_in_range (Location : Onboarding.LocationService)
    (w : World Onboarding.State) :
  two_letter_codes Location ->
  20 <= Onboarding.estimatedLifeExpectancy (ui w) <= 120 ->
  let r := Onboarding.detectCountry Location w in
  let u := ui (snd r) in
  fst r = Normal tt /\ disk (snd r) = disk w /\
  fetches (log (snd r)) = fetches (log w) /\
  alerts (log (snd r)) = alerts (log w) /\
  redirects (log (snd r)) = redirects (log w) /\
  20 <= Onboarding.estimatedLifeExpectancy u <= 120 /\
  (Onboarding.estimatedLifeExpectancy u = Onboarding.estimatedLifeExpectancy (ui w)
   \/ 64 <= Onboarding.estimatedLifeExpectancy u <= 85) /\
  Onboarding.currentStep u = Onboarding.currentStep (ui w) /\
  Onboarding.birthDate u = Onboarding.birthDate (ui w) /\
  Onboarding.lifeExpectancy u = Onboarding.lifeExpectancy (ui w) /\
  Onboarding.loading u = Onboarding.loading (ui w) /\
  Onboarding.useCustomExpectancy u = Onboarding.useCustomExpectancy (ui w).
Proof.
  intros _ Hrange.
  destruct (detectCountry_run Location w) as (u & notes & Hrun & Hnotes & Hu).
  cbv zeta. rewrite Hrun. cbn [fst snd ui disk log].
  destruct (console_notes_quiet notes Hnotes) as (Hf & Ha & Hr).
  rewrite fetches_app, alerts_app, redirects_app, Hf, Ha, Hr, !app_nil_r.
  destruct Hu as [->|(c & n & Hn & [->| ->])]; cbn;
    repeat split; try reflexivity; try lia; auto.
Qed.

(** X11: the estimate that [detectCountry] leaves is always accepted:
    when the user has not chosen a custom life expectancy and the
    estimate was in range before, [handleComplete] run after
    [detectCountry] passes its range check and sends the POST. *)
Theorem detected_estimate_is_accepted (Location : Onboarding.LocationService)
    (reply : Reply Onboarding.Profile) (w : World Onboarding.State) :
  two_letter_codes Location ->
  Onboarding.useCustomExpectancy (ui w) = false ->
  20 <= Onboarding.estimatedLifeExpectancy (ui w) <= 120 ->
  let w1 := snd (Onboarding.detectCountry Location w) in
  passes_range_check (finalLifeExpectancy (ui w1)) = true /\
  exists rest,
    log (snd (handleComplete reply w1)) =
    (log w1 ++ Fetch "POST" (Onboarding.BACKEND_URL ++ "/api/profile") :: rest)%list.
Proof.
  intros _ Hcustom Hrange.
  destruct (detectCountry_run Location w) as (u & notes & Hrun & _ & Hu).
  cbv zeta. rewrite Hrun. cbn [snd ui log].
  assert (Hfle : exists n, finalLifeExpectancy u = Some n /\ 20 <= n <= 120).
  { unfold Onboarding.finalLifeExpectancy.
    destruct Hu as [->|(c & n & Hn & [->| ->])]; cbn; rewrite Hcustom; cbn;
      eexists; (split; [reflexivity|lia]). }
  destruct Hfle as (n & Hfle & Hn).
  assert (Hpass : JS.lt (Some n) (Some 20) || JS.gt (Some n) (Some 120) = false).
  { unfold JS.gt, JS.lt. apply orb_false_iff. rewrite !Z.ltb_ge. lia. }
  split.
  { unfold passes_range_check. rewrite Hfle, Hpass. reflexivity. }
  unfold Onboarding.handleComplete. run_async.
  rewrite Hfle, Hpass.
  destruct reply as [|[ok1 [[pid]|] [t|]]]; [| destruct ok1 .. ];
    run_async; cbn;
    repeat (destruct (decide _); cbn);
    rewrite <- ?app_assoc; cbn; rewrite ?(app_assoc (log w)); eauto.
Qed.

(** X12: every run of [handleComplete] completes normally with
    [loading] false, and ends in exactly one of two ways: it redirects
    to the main app without an alert, and then the stored pair opens the
    entry gate; or it shows exactly one alert and does not redirect. *)
Theorem handleComplete_redirects_or_alerts (reply : Reply Onboarding.Profile)
    (w : World Onboarding.State) :
  let r := handleComplete reply w in
  fst r = Normal tt /\
  Onboarding.loading (ui (snd r)) = false /\
  ((redirects (log (snd r)) = (redirects (log w) ++ [RouterReplace "/(tabs)"])%list /\
    alerts (log (snd r)) = alerts (log w) /\
    gate_open (disk (snd r)) (faulty (snd r)))
   \/
   (redirects (log (snd r)) = redirects (log w) /\
    exists title message,
      alerts (log (snd r)) = (alerts (log w) ++ [AlertShown title message])%list)).
Proof.
  cbv zeta. unfold Onboarding.handleComplete. run_async.
  destruct w as [u d f l]. cbn [ui disk faulty log].
  destruct (JS.lt (finalLifeExpectancy u) (Some 20)
            || JS.gt (finalLifeExpectancy u) (Some 120)).
  { cbn. rewrite redirects_app, alerts_app. filter_logs. rewrite app_nil_r.
    repeat split; try reflexivity. right. eauto. }
  destruct reply as [|[ok1 [[pid]|] [t|]]]; [| destruct ok1 .. ];
    run_async; cbn;
    repeat (destruct (decide _); cbn);
    rewrite ?redirects_app, ?alerts_app; filter_logs; rewrite ?app_nil_r;
    (split; [reflexivity|]); (split; [reflexivity|]);
    try (right; split; [reflexivity|]; eauto; fail).
  all: left; repeat split; try reflexivity; try assumption.
  all: try (rewrite lookup_insert_eq; reflexivity).
  all: rewrite lookup_insert_ne by discriminate; rewrite lookup_insert_eq; eauto.
Qed.

(** X13: the successful path in full.  When the life expectancy passes
    the range check, the backend answers 2xx with the new profile and
    both keys can be written, [handleComplete] sends one POST, stores
    the pair [userProfileId = profile.id] and
    [onboardingCompleted = "true"] and redirects to /(tabs); the entry
    gate, run on that storage, then routes to the main app. *)
Theorem handleComplete_success_opens_gate (reply : Reply Onboarding.Profile)
    (profile : Onboarding.Profile) (w : World Onboarding.State)
    (s : Index.State) (l : list Effect) :
  passes_range_check (finalLifeExpectancy (ui w)) = true ->
  payload reply = Some profile ->
  readable (faulty w) ->
  let r := handleComplete reply w in
  r = (Normal tt,
       mkWorld (Onboarding.setLoading false (ui w))
               (onboarded (Onboarding.id profile) (disk w)) (faulty w)
               (log w ++ [Fetch "POST" (Onboarding.BACKEND_URL ++ "/api/profile");
                          RouterReplace "/(tabs)"])) /\
  Index.route_after_check (mkWorld s (disk (snd r)) (faulty (snd r)) l)
  = Index.Redirect "/(tabs)".
Proof.
  unfold passes_range_check, payload, readable, onboarded.
  intros Hpass Hreply [H1 H2]. apply negb_true_iff in Hpass.
  assert (Hrun : handleComplete reply w =
    (Normal tt,
     mkWorld (Onboarding.setLoading false (ui w))
             (<["onboardingCompleted" := "true"]>
                (<["userProfileId" := Onboarding.id profile]> (disk w))) (faulty w)
             (log w ++ [Fetch "POST" (Onboarding.BACKEND_URL ++ "/api/profile");
                        RouterReplace "/(tabs)"]))).
  { unfold Onboarding.handleComplete. run_async. rewrite Hpass.
    destruct w as [u d f l0]. cbn [ui disk faulty log] in *.
    destruct reply as [|[[|] [p|] t]]; try discriminate Hreply.
    injection Hreply as ->.
    run_async; cbn.
    repeat (rewrite decide_False by assumption; cbn).
    rewrite <- ?app_assoc. reflexivity. }
  cbv zeta. rewrite Hrun. split; [reflexivity|]. cbn [snd disk faulty].
  destruct (route_after_check_cases s
              (<["onboardingCompleted" := "true"]>
                 (<["userProfileId" := Onboarding.id profile]> (disk w)))
              (faulty w) l) as [[_ H]|[Hclosed _]]; [exact H|].
  exfalso. apply Hclosed. unfold gate_open. repeat split; try assumption.
  - apply lookup_insert_eq.
  - rewrite lookup_insert_ne by discriminate. rewrite lookup_insert_eq. eauto.
Qed.

(** X14: when the POST fails - the call throws, the status is not 2xx,
    or the body cannot be read - and the range check passed,
    [handleComplete] leaves the storage as it was, does not redirect,
    ends with [loading] false, and shows one alert titled "Error"; the
    alert carries the server's text exactly when a non-2xx response's
    text could be read. *)
Theorem handleComplete_backend_failure (reply : Reply Onboarding.Profile)
    (w : World Onboarding.State) :
  passes_range_check (finalLifeExpectancy (ui w)) = true ->
  payload reply = None ->
  let r := handleComplete reply w in
  fst r = Normal tt /\
  ui (snd r) = Onboarding.setLoading false (ui w) /\
  disk (snd r) = disk w /\
  redirects (log (snd r)) = redirects (log w) /\
  fetches (log (snd r)) =
    (fetches (log w) ++ [Fetch "POST" (Onboarding.BACKEND_URL ++ "/api/profile")])%list /\
  alerts (log (snd r)) =
    (alerts (log w) ++
     [AlertShown "Error"
        match reply with
        | Settled {| ok := false; text := Some errorText |} =>
            "Failed to create profile: " ++ errorText
        | _ => "Failed to complete setup. Please try again."
        end])%list.
Proof.
  unfold passes_range_check, payload.
  intros Hpass Hreply. apply negb_true_iff in Hpass.
  cbv zeta. unfold Onboarding.handleComplete. run_async. rewrite Hpass.
  destruct w as [u d f l0]. cbn [ui disk faulty log] in *.
  destruct reply as [|[[|] [p|] [t|]]]; try discriminate Hreply;
    run_async; cbn;
    rewrite ?redirects_app, ?alerts_app, ?fetches_app; filter_logs;
    rewrite ?app_nil_r; repeat split; reflexivity.
Qed.

(** X15: the first step of the form.  With an acceptable birth date
    [handleNext] moves from step 1 to step 2 and does nothing else - no
    alert, no request, no storage access - and the Back button then
    restores the state from before. *)
Theorem handleNext_then_back (now : Z) (reply : Reply Onboarding.Profile)
    (w : World Onboarding.State) :
  Onboarding.currentStep (ui w) = 1 ->
  acceptable_birth_date Date_getTime now (Onboarding.birthDate (ui w)) ->
  handleNext now reply w =
    (Normal tt,
     mkWorld (Onboarding.setCurrentStep 2 (ui w)) (disk w) (faulty w) (log w)) /\
  Onboarding.handleBack (snd (handleNext now reply w)) = (Normal tt, w).
Proof.
  intros Hstep Hok. rewrite <- validateBirthDate_iff in Hok.
  assert (Hrun : handleNext now reply w =
            (Normal tt,
             mkWorld (Onboarding.setCurrentStep 2 (ui w)) (disk w) (faulty w) (log w))).
  { unfold Onboarding.handleNext. run_async. rewrite Hstep, Hok. reflexivity. }
  rewrite Hrun. split; [reflexivity|].
  unfold Onboarding.handleBack. run_async. cbn.
  destruct w as [[] d f l]. cbn in *. subst. reflexivity.
Qed.

End OnboardingFlow.

Section OnboardingExamples.

Import Demo DemoOnboarding.

Lemma two_letter_codes_in_tokyo : two_letter_codes in_tokyo.
Proof.
  intros places [= <-]. constructor; [|constructor].
  intros c [= <-]. reflexivity.
Defined.

Lemma detectCountry_estimate_in_range_witness :
  Onboarding.estimatedLifeExpectancy
    (ui (snd (Onboarding.detectCountry in_tokyo (at_step 1 ∅)))) = 85 /\
  20 <= Onboarding.estimatedLifeExpectancy
          (ui (snd (Onboarding.detectCountry in_tokyo (at_step 1 ∅)))) <= 120.
Proof.
  split; [reflexivity|].
  refine (proj1 (proj2 (proj2 (proj2 (proj2 (proj2
    (detectCountry_estimate_in_range in_tokyo (at_step 1 ∅)
       two_letter_codes_in_tokyo _))))))).
  cbn. lia.
Defined.

Lemma detected_estimate_is_accepted_witness :
  passes_range_check
    (Onboarding.finalLifeExpectancy parseInt
       (ui (snd (Onboarding.detectCountry in_tokyo (at_step 2 ∅))))) = true.
Proof.
  refine (proj1 (detected_estimate_is_accepted parseInt in_tokyo created
                   (at_step 2 ∅) two_letter_codes_in_tokyo eq_refl _)).
  cbn. lia.
Defined.

Lemma handleComplete_success_opens_gate_witness :
  Index.route_after_check
    (mkWorld Index.initial
       (disk (snd (Onboarding.handleComplete parseInt created (at_step 2 ∅)))) ∅ [])
  = Index.Redirect "/(tabs)".
Proof.
  refine (proj2 (handleComplete_success_opens_gate parseInt created
                   (Onboarding.mkProfile "p-9") (at_step 2 ∅) Index.initial []
                   eq_refl eq_refl readable_empty)).
Defined.

Lemma handleComplete_backend_failure_witness :
  disk (snd (Onboarding.handleComplete parseInt server_error (at_step 2 profile_disk)))
  = profile_disk.
Proof.
  refine (proj1 (proj2 (proj2
    (handleComplete_backend_failure parseInt server_error (at_step 2 profile_disk)
       eq_refl eq_refl)))).
Defined.

Lemma birth_date_1990_acceptable :
  acceptable_birth_date getTime 662083200001 "1990-12-25".
Proof.
  split.
  - exists "1"%char, "9"%char, "9"%char, "0"%char, "1"%char, "2"%char, "2"%char, "5"%char.
    split; [reflexivity|]. repeat constructor.
  - exists 662083200000. split; [reflexivity|lia].
Defined.

Lemma handleNext_then_back_witness :
  Onboarding.handleBack
    (snd (Onboarding.handleNext getTime parseInt 662083200001 created (at_step 1 ∅)))
  = (Normal tt, at_step 1 ∅).
Proof.
  refine (proj2 (handleNext_then_back getTime parseInt 662083200001 created
                   (at_step 1 ∅) eq_refl birth_date_1990_acceptable)).
Defined.

End OnboardingExamples.

(** ** Goals *)

Section GoalsScreen.

Variable BACKEND_URL : string.

Notation fetchGoals := (Goals.fetchGoals BACKEND_URL).
Notation createGoal := (Goals.createGoal BACKEND_URL).
Notation updateGoalStatus := (Goals.updateGoalStatus BACKEND_URL).
Notation goalsEffect := (Goals.goalsEffect BACKEND_URL).
Notation goals_url := (goals_url BACKEND_URL).

Lemma truthy_Some (o : option string) :
  truthy o = true <-> exists s, o = Some s /\ JS.is_empty s = false.
Proof.
  destruct o as [[|c s]|]; cbn; split; try discriminate; eauto;
    try (intros (s' & [= <-] & H); discriminate H);
    intros (s' & H & _); discriminate H.
Qed.

(** The whole run of [fetchGoals] for a known profile id. *)
Lemma fetchGoals_run (profileId : string) (reply : Reply (list Goals.Goal.t))
    (w : World Goals.State) :
  Goals.userProfileId (ui w) = Some profileId ->
  JS.is_empty profileId = false ->
  exists notes,
    Forall (fun e => exists m, e = ConsoleError m) notes /\
    fetchGoals reply w =
      (Normal tt,
       mkWorld (Goals.setLoading false (with_goals (payload reply) (ui w)))
               (disk w) (faulty w)
               (log w ++ Fetch "GET" (goals_url profileId (Goals.statusFilter (ui w)))
                  :: notes)).
Proof.
  intros Hid Hne. unfold Goals.fetchGoals, goals_url, with_goals, payload.
  unfold mbind at 1, async_bind at 1, bind at 1, getState at 1.
  rewrite Hid, Hne. destruct w as [u d f l]. cbn [ui disk faulty log] in *.
  destruct reply as [|[[|] [g|] t]]; run_async; cbn; rewrite <- ?app_assoc; cbn;
    eexists; (split; [|reflexivity]); repeat constructor; eauto.
Qed.

Lemma fetchGoals_skips (reply : Reply (list Goals.Goal.t)) (w : World Goals.State) :
  truthy (Goals.userProfileId (ui w)) = false ->
  fetchGoals reply w = (Normal tt, w).
Proof.
  intros Hid. unfold Goals.fetchGoals. run_async.
  destruct (Goals.userProfileId (ui w)) as [[|c s]|]; try reflexivity.
  discriminate Hid.
Qed.

(** X16: [fetchGoals] never rejects, alerts, redirects or touches the
    storage.  Without a profile id it does nothing at all.  With one it
    issues exactly one GET, for /api/goals/<id> with [?status=<filter>]
    appended only when a status filter is set; it replaces the list
    exactly when the request succeeded with a readable body and keeps it
    otherwise, and ends with [loading] false. *)
Theorem fetchGoals_outcome (reply : Reply (list Goals.Goal.t)) (w : World Goals.State) :
  let r := fetchGoals reply w in
  fst r = Normal tt /\ disk (snd r) = disk w /\
  alerts (log (snd r)) = alerts (log w) /\
  redirects (log (snd r)) = redirects (log w) /\
  match Goals.userProfileId (ui w) with
  | Some (String c id) =>
      ui (snd r) = Goals.setLoading false (with_goals (payload reply) (ui w)) /\
      fetches (log (snd r)) =
        (fetches (log w) ++
         [Fetch "GET" (goals_url (String c id) (Goals.statusFilter (ui w)))])%list
  | _ => snd r = w
  end.
Proof.
  cbv zeta.
  destruct (Goals.userProfileId (ui w)) as [[|c id]|] eqn:Hid.
  1, 3: rewrite fetchGoals_skips by (rewrite Hid; reflexivity); repeat split; reflexivity.
  destruct (fetchGoals_run (String c id) reply w Hid eq_refl) as (notes & Hnotes & ->).
  destruct (console_notes_quiet notes Hnotes) as (Hf & Ha & Hr).
  cbn [fst snd ui disk log].
  rewrite fetches_app, alerts_app, redirects_app.
  change (?e :: notes) with ([e] ++ notes)%list.
  rewrite fetches_app, alerts_app, redirects_app, Hf, Ha, Hr.
  filter_logs. rewrite ?app_nil_r. repeat split; reflexivity.
Qed.

(** X17: [createGoal] with a profile id and a title that is not blank.
    It never rejects, redirects or touches the storage and ends with
    [loading] false.  When the POST is accepted it shows the success
    alert, clears the five form fields, closes the form and reloads the
    list with one GET (the new list is shown if that reload succeeds);
    when the POST fails it shows one "Failed to create goal" alert,
    keeps the form as typed and the list as it was, and does not
    reload. *)
Theorem createGoal_outcome (post : Reply unit) (refetch : Reply (list Goals.Goal.t))
    (profileId : string) (w : World Goals.State) :
  Goals.userProfileId (ui w) = Some profileId ->
  JS.is_empty profileId = false ->
  JS.all_space (Goals.title (ui w)) = false ->
  let r := createGoal post refetch w in
  fst r = Normal tt /\ disk (snd r) = disk w /\
  redirects (log (snd r)) = redirects (log w) /\
  if accepted post then
    ui (snd r) =
      Goals.setLoading false
        (with_goals (payload refetch)
           (Goals.setShowAddForm false (Goals.resetForm (ui w)))) /\
    alerts (log (snd r)) =
      (alerts (log w) ++ [AlertShown "Success" "Goal created successfully!"])%list /\
    fetches (log (snd r)) =
      (fetches (log w) ++
       [Fetch "POST" (BACKEND_URL ++ "/api/goals");
        Fetch "GET" (goals_url profileId (Goals.statusFilter (ui w)))])%list
  else
    ui (snd r) = Goals.setLoading false (ui w) /\
    alerts (log (snd r)) =
      (alerts (log w) ++ [AlertShown "Error" "Failed to create goal"])%list /\
    fetches (log (snd r)) =
      (fetches (log w) ++ [Fetch "POST" (BACKEND_URL ++ "/api/goals")])%list.
Proof.
  intros Hid Hne Htitle. cbv zeta.
  assert (Htrim : JS.is_empty (JS.trim (Goals.title (ui w))) = false).
  { destruct (JS.is_empty (JS.trim (Goals.title (ui w)))) eqn:E; [|reflexivity].
    apply trim_empty_iff in E. congruence. }
  assert (Htruthy : truthy (Goals.userProfileId (ui w)) = true).
  { apply truthy_Some. eauto. }
  unfold Goals.createGoal. run_async.
  rewrite Htruthy, Htrim. cbn [negb].
  destruct w as [u d f l]. cbn [ui disk faulty log] in *.
  unfold accepted, backend_error.
  destruct post as [|[[|] j t]]; cbn [negb ok].
  1, 3: cbn; rewrite ?redirects_app, ?alerts_app, ?fetches_app; filter_logs;
        rewrite ?app_nil_r; repeat split; reflexivity.
  run_async. cbn [fst snd ui disk faulty log ok].
  match goal with |- context [Goals.fetchGoals BACKEND_URL refetch ?w2] =>
    destruct (fetchGoals_run profileId refetch w2 Hid Hne) as (notes & Hnotes & ->)
  end.
  destruct (console_notes_quiet notes Hnotes) as (Hf & Ha & Hr).
  cbn [fst snd ui disk faulty log].
  rewrite !fetches_app, !alerts_app, !redirects_app.
  change (?e :: notes) with ([e] ++ notes)%list.
  rewrite !fetches_app, !alerts_app, !redirects_app, Hf, Ha, Hr.
  filter_logs. rewrite ?app_nil_r, <- ?app_assoc.
  unfold with_goals. destruct (payload refetch); repeat split; reflexivity.
Qed.

(** X18: when the PUT of [updateGoalStatus] is accepted, no alert is
    shown and the list is reloaded: the PUT for /api/goals/<goalId> is
    followed by the GET of [fetchGoals] for the current profile and
    status filter, the list is replaced if that reload succeeds, and
    [loading] ends false.  Nothing is redirected or stored. *)
Theorem updateGoalStatus_success (goalId : string) (newStatus : Goals.Status)
    (put : Reply unit) (refetch : Reply (list Goals.Goal.t))
    (profileId : string) (w : World Goals.State) :
  Goals.userProfileId (ui w) = Some profileId ->
  JS.is_empty profileId = false ->
  accepted put = true ->
  let r := updateGoalStatus goalId newStatus put refetch w in
  fst r = Normal tt /\ disk (snd r) = disk w /\
  ui (snd r) = Goals.setLoading false (with_goals (payload refetch) (ui w)) /\
  alerts (log (snd r)) = alerts (log w) /\
  redirects (log (snd r)) = redirects (log w) /\
  fetches (log (snd r)) =
    (fetches (log w) ++
     [Fetch "PUT" (BACKEND_URL ++ "/api/goals/" ++ goalId);
      Fetch "GET" (goals_url profileId (Goals.statusFilter (ui w)))])%list.
Proof.
  intros Hid Hne Hput. cbv zeta.
  unfold Goals.updateGoalStatus. run_async.
  destruct w as [u d f l]. cbn [ui disk faulty log] in *.
  unfold accepted, backend_error in Hput.
  destruct put as [|[[|] j t]]; try discriminate Hput.
  run_async. cbn [fst snd ui disk faulty log ok].
  match goal with |- context [Goals.fetchGoals BACKEND_URL refetch ?w2] =>
    destruct (fetchGoals_run profileId refetch w2 Hid Hne) as (notes & Hnotes & ->)
  end.
  destruct (console_notes_quiet notes Hnotes) as (Hf & Ha & Hr).
  cbn [fst snd ui disk faulty log].
  rewrite !fetches_app, !alerts_app, !redirects_app.
  change (?e :: notes) with ([e] ++ notes)%list.
  rewrite !fetches_app, !alerts_app, !redirects_app, Hf, Ha, Hr.
  filter_logs. rewrite ?app_nil_r, <- ?app_assoc.
  unfold with_goals. destruct (payload refetch); repeat split; reflexivity.
Qed.

(** X19: mounting the goals screen.  [getUserProfile] followed by the
    list effect never rejects, alerts or writes the storage, and on a
    fresh screen it requests the goals - once, unfiltered - exactly when
    a non-empty profile id could be read from the storage; with an
    unreadable, missing or empty id nothing is requested. *)
Theorem goals_mount_requests (reply : Reply (list Goals.Goal.t))
    (w : World Goals.State) :
  ui w = Goals.initial ->
  let w1 := snd (Goals.getUserProfile w) in
  let r := goalsEffect reply w1 in
  fst (Goals.getUserProfile w) = Normal tt /\
  fst r = Normal tt /\ disk (snd r) = disk w /\
  alerts (log (snd r)) = alerts (log w) /\
  fetches (log (snd r)) =
    (fetches (log w) ++
     if decide ("userProfileId" ∈ faulty w) then []
     else match disk w !! "userProfileId" with
          | Some (String c id) => [Fetch "GET" (goals_url (String c id) Goals.all)]
          | _ => []
          end)%list.
Proof.
  intros Hui. cbv zeta.
  assert (Hprofile : Goals.getUserProfile w =
    if decide ("userProfileId" ∈ faulty w)
    then (Normal tt, mkWorld (ui w) (disk w) (faulty w)
                       (log w ++ [ConsoleError "Error getting user profile:"]))
    else (Normal tt, mkWorld (Goals.setUserProfileId (disk w !! "userProfileId") (ui w))
                       (disk w) (faulty w) (log w))).
  { unfold Goals.getUserProfile. run_async.
    destruct (decide ("userProfileId" ∈ faulty w)); reflexivity. }
  rewrite Hprofile. unfold Goals.goalsEffect. run_async.
  destruct (decide ("userProfileId" ∈ faulty w)) as [Hbad|Hgood];
    cbn [fst snd ui disk faulty log]; rewrite Hui; cbn [truthy Goals.userProfileId Goals.initial Goals.setUserProfileId].
  { unfold mret, async_ret, ret. cbn [fst snd ui disk faulty log].
    rewrite fetches_app, alerts_app. filter_logs. rewrite !app_nil_r.
    repeat split; reflexivity. }
  destruct (disk w !! "userProfileId") as [[|c id]|] eqn:Hid; cbn [truthy String.eqb negb].
  1, 3: unfold mret, async_ret, ret; cbn [fst snd ui disk faulty log];
        rewrite !app_nil_r; repeat split; reflexivity.
  match goal with |- context [Goals.fetchGoals BACKEND_URL reply ?w2] =>
    destruct (fetchGoals_run (String c id) reply w2 eq_refl eq_refl)
      as (notes & Hnotes & ->)
  end.
  destruct (console_notes_quiet notes Hnotes) as (Hf & Ha & Hr).
  cbn [fst snd ui disk faulty log].
  rewrite !fetches_app, !alerts_app.
  change (?e :: notes) with ([e] ++ notes)%list.
  rewrite !fetches_app, !alerts_app, Hf, Ha.
  filter_logs. rewrite ?app_nil_r. repeat split; reflexivity.
Qed.

End GoalsScreen.

Section GoalsDisplay.

(** X20: the category filter only hides goals: the filtered list is a
    sublist of the loaded one (same order, nothing added or repeated),
    it holds exactly the loaded goals that pass the filter, it is the
    whole list when no category is selected, and filtering the shown
    list again changes nothing. *)
Theorem getFilteredGoals_hides_only (s : Goals.State) :
  sublist (Goals.getFilteredGoals s) (Goals.goals s) /\
  (forall goal, goal ∈ Goals.getFilteredGoals s <->
                goal ∈ Goals.goals s /\ shown (Goals.categoryFilter s) goal) /\
  (Goals.categoryFilter s = Goals.all_categories ->
   Goals.getFilteredGoals s = Goals.goals s) /\
  Goals.getFilteredGoals (Goals.setGoals (Goals.getFilteredGoals s) s)
  = Goals.getFilteredGoals s.
Proof.
  unfold Goals.getFilteredGoals, shown. cbn [Goals.categoryFilter Goals.setGoals Goals.goals].
  destruct (Goals.categoryFilter s) as [|c].
  - repeat split; try reflexivity; tauto.
  - split; [apply sublist_filter|].
    split; [intros goal; rewrite list_elem_of_filter; tauto|].
    split; [discriminate|].
    rewrite list_filter_filter. apply list_filter_iff. tauto.
Qed.

(** X21: the badge colours.  Every category and every priority has an
    entry in its palette, so the grey fallback '#888' is never used;
    within each palette different values get different colours; across
    the two palettes one colour is shared, by the category 'financial'
    and the priority 'medium'. *)
Theorem badge_colours :
  (forall cat, Goals.getCategoryColor cat <> "#888") /\
  (forall pri, Goals.getPriorityColor pri <> "#888") /\
  (forall c1 c2, Goals.getCategoryColor c1 = Goals.getCategoryColor c2 -> c1 = c2) /\
  (forall p1 p2, Goals.getPriorityColor p1 = Goals.getPriorityColor p2 -> p1 = p2) /\
  (forall cat pri, Goals.getCategoryColor cat = Goals.getPriorityColor pri <->
                   cat = Goals.financial /\ pri = Goals.medium).
Proof.
  split; [intros []; discriminate|].
  split; [intros []; discriminate|].
  split; [intros [] []; intros H; try reflexivity; discriminate H|].
  split; [intros [] []; intros H; try reflexivity; discriminate H|].
  intros cat pri. split.
  - destruct cat, pri; intros H; try discriminate H; split; reflexivity.
  - intros [-> ->]. reflexivity.
Qed.

(** X22: the two buttons of a goal card.  Each button always asks for a
    status different from the goal's current one.  On a goal updated as
    asked, the same button asks for the status the goal had before - so
    two presses undo each other - except that the Complete button brings
    a paused goal, and the Pause button a completed goal, to 'active'.
    The Complete button never asks for 'paused', nor the Pause button
    for 'completed'. *)
Theorem status_buttons_toggle (goal : Goals.Goal.t) :
  Goals.completeButtonTarget goal <> Goals.Goal.status goal /\
  Goals.pauseButtonTarget goal <> Goals.Goal.status goal /\
  Goals.completeButtonTarget (with_status (Goals.completeButtonTarget goal) goal)
    = match Goals.Goal.status goal with
      | Goals.completed => Goals.completed
      | _ => Goals.active
      end /\
  Goals.pauseButtonTarget (with_status (Goals.pauseButtonTarget goal) goal)
    = match Goals.Goal.status goal with
      | Goals.paused => Goals.paused
      | _ => Goals.active
      end /\
  Goals.completeButtonTarget goal <> Goals.paused /\
  Goals.pauseButtonTarget goal <> Goals.completed.
Proof.
  destruct goal as [i t d c p st td ca ua].
  unfold Goals.completeButtonTarget, Goals.pauseButtonTarget, with_status.
  cbn. destruct st; repeat split; try discriminate; reflexivity.
Qed.

End GoalsDisplay.

Section GoalsExamples.

Import Demo DemoGoals.

Lemma createGoal_outcome_witness :
  ui (snd (Goals.createGoal url done (listed [run_5k; read_more]) filled_form)) =
  Goals.mkState [run_5k; read_more] false (Some "p-1") false "" "" Goals.personal
    Goals.medium "" Goals.all Goals.all_categories.
Proof.
  refine (proj1 (proj2 (proj2 (proj2
    (createGoal_outcome url done (listed [run_5k; read_more]) "p-1" filled_form
       eq_refl eq_refl eq_refl))))).
Defined.

Lemma updateGoalStatus_success_witness :
  fetches (log (snd (Goals.updateGoalStatus url "g-2" Goals.active done
                       (listed [read_more]) filled_form))) =
  [Fetch "PUT" (url ++ "/api/goals/g-2");
   Fetch "GET" (url ++ "/api/goals/p-1")].
Proof.
  refine (proj2 (proj2 (proj2 (proj2 (proj2
    (updateGoalStatus_success url "g-2" Goals.active done (listed [read_more])
       "p-1" filled_form eq_refl eq_refl eq_refl)))))).
Defined.

Lemma goals_mount_requests_witness :
  fetches (log (snd (Goals.goalsEffect url (listed [read_more])
                       (snd (Goals.getUserProfile
                               (mkWorld Goals.initial profile_disk ∅ [])))))) =
  [Fetch "GET" (url ++ "/api/goals/p-1")].
Proof.
  refine (proj2 (proj2 (proj2 (proj2
    (goals_mount_requests url (listed [read_more])
       (mkWorld Goals.initial profile_disk ∅ []) eq_refl))))).
Defined.

End GoalsExamples.

(** ** Reflections *)

Section ReflectScreen.

Variable BACKEND_URL : string.

Notation fetchReflections := (Reflect.fetchReflections BACKEND_URL).
Notation submitReflection := (Reflect.submitReflection BACKEND_URL).
Notation reflections_url := (reflections_url BACKEND_URL).
Notation handle := (Reflect.handle BACKEND_URL).
Notation session := (Reflect.session BACKEND_URL).

Lemma filter_length_Forall {A} (P : A -> Prop) `{!forall x, Decision (P x)} (l : list A) :
  length (filter P l) = length l <-> Forall P l.
Proof.
  induction l as [|a l IH]; [split; [constructor|reflexivity]|].
  rewrite filter_cons. pose proof (length_filter P l) as Hle.
  destruct (decide (P a)) as [Ha|Ha]; cbn [length].
  - split.
    + intros [= Hlen]. constructor; [exact Ha|]. apply IH, Hlen.
    + intros Hall. apply Forall_cons in Hall as [_ Hall]. f_equal. apply IH, Hall.
  - split; [lia|]. intros Hall. apply Forall_cons in Hall as [Hall _]. contradiction.
Qed.

Lemma not_blank_iff (r : string) :
  JS.is_empty (JS.trim r) = false <-> JS.all_space r = false.
Proof.
  pose proof (trim_empty_iff r) as H.
  destruct (JS.is_empty (JS.trim r)), (JS.all_space r); intuition congruence.
Qed.

(** The validation of [submitReflection] passes exactly on an answered
    form. *)
Lemma validation_passes_iff (s : Reflect.State) :
  (length (Reflect.filledResponses s) <? length (Reflect.getQuestionsForType s))%nat
  = false <-> answered s.
Proof.
  unfold answered, Reflect.filledResponses. cbv zeta.
  set (n := length (Reflect.getQuestionsForType s)).
  set (l := take n (Reflect.responses s)).
  assert (Hl : length l = Nat.min n (length (Reflect.responses s)))
    by apply length_take.
  pose proof (length_filter (fun r => JS.is_empty (JS.trim r) = false) l) as Hle.
  rewrite Nat.ltb_ge. split.
  - intros H. split; [lia|].
    assert (Hall : Forall (fun r => JS.is_empty (JS.trim r) = false) l)
      by (apply (proj1 (filter_length_Forall _ l)); lia).
    eapply Forall_impl; [exact Hall|]. intros r. apply not_blank_iff.
  - intros [Hn Hall].
    assert (Hall' : Forall (fun r => JS.is_empty (JS.trim r) = false) l).
    { eapply Forall_impl; [exact Hall|]. intros r. apply not_blank_iff. }
    apply (proj2 (filter_length_Forall _ l)) in Hall'. lia.
Qed.

Lemma fetchReflections_run (profileId : string)
    (reply : Reply (list Reflect.Reflection.t)) (w : World Reflect.State) :
  Reflect.userProfileId (ui w) = Some profileId ->
  JS.is_empty profileId = false ->
  exists notes,
    Forall (fun e => exists m, e = ConsoleError m) notes /\
    fetchReflections reply w =
      (Normal tt,
       mkWorld (Reflect.setLoading false (with_reflections (payload reply) (ui w)))
               (disk w) (faulty w)
               (log w ++ Fetch "GET" (reflections_url profileId (Reflect.activeTab (ui w)))
                  :: notes)).
Proof.
  intros Hid Hne. unfold Reflect.fetchReflections, reflections_url, with_reflections, payload.
  unfold mbind at 1, async_bind at 1, bind at 1, getState at 1.
  rewrite Hid, Hne. destruct w as [u d f l]. cbn [ui disk faulty log] in *.
  destruct reply as [|[[|] [g|] t]]; run_async; cbn; rewrite <- ?app_assoc; cbn;
    eexists; (split; [|reflexivity]); repeat constructor; eauto.
Qed.

(** X23: with a profile id, [submitReflection] sends its POST exactly
    when every question of the active tab - three on the daily tab,
    four on the weekly and monthly tabs - has an answer that is not
    blank; otherwise it shows the "Incomplete" alert and does nothing
    else: no request, no state change, no storage access. *)
Theorem submitReflection_requires_all_answers (post : Reply unit)
    (refetch : Reply (list Reflect.Reflection.t)) (profileId : string)
    (w : World Reflect.State) :
  Reflect.userProfileId (ui w) = Some profileId ->
  JS.is_empty profileId = false ->
  let r := submitReflection post refetch w in
  (answered (ui w) ->
   exists rest,
     log (snd r) =
     (log w ++ Fetch "POST" (BACKEND_URL ++ "/api/reflections") :: rest)%list) /\
  (~ answered (ui w) ->
   r = (Normal tt,
        mkWorld (ui w) (disk w) (faulty w)
                (log w ++ [AlertShown "Incomplete"
                             "Please answer all questions before submitting"]))).
Proof.
  intros Hid Hne. cbv zeta.
  assert (Htruthy : truthy (Reflect.userProfileId (ui w)) = true).
  { rewrite Hid. destruct profileId; [discriminate Hne|reflexivity]. }
  split.
  - intros Hans. apply validation_passes_iff in Hans.
    unfold Reflect.submitReflection. run_async. rewrite Htruthy, Hans. cbn [negb].
    destruct w as [u d f l]. cbn [ui disk faulty log] in *.
    destruct post as [|[[|] j t]]; run_async; cbn [fst snd ui disk faulty log ok];
      rewrite <- ?app_assoc; cbn [app]; eauto.
    match goal with |- context [Reflect.fetchReflections BACKEND_URL refetch ?w2] =>
      destruct (fetchReflections_run profileId refetch w2 Hid Hne)
        as (notes & Hnotes & ->)
    end.
    cbn [fst snd ui disk faulty log]. rewrite <- ?app_assoc. cbn [app]. eauto.
  - intros Hno.
    assert (Hlt : (length (Reflect.filledResponses (ui w))
                   <? length (Reflect.getQuestionsForType (ui w)))%nat = true).
    { destruct (_ <? _)%nat eqn:E; [reflexivity|].
      apply validation_passes_iff in E. contradiction. }
    unfold Reflect.submitReflection. run_async. rewrite Htruthy, Hlt. reflexivity.
Qed.

(** X24: what a reflection that passed the validation sends.  The
    answers to the questions of the active tab go out in order and
    unchanged, all of them present and none blank: on the daily tab one
    each as gratitude item, lesson learned and goal progress; on the
    weekly and monthly tabs all four as lessons learned, with no
    gratitude items and no goal progress.  [challenges_faced] is always
    empty. *)
Theorem reflectionData_sends_the_answers (profileId : string) (s : Reflect.State) :
  answered s ->
  let p := Reflect.reflectionData profileId s in
  answer_items p =
    Some <$> take (length (Reflect.getQuestionsForType s)) (Reflect.responses s) /\
  Forall (fun item => exists r, item = Some r /\ JS.all_space r = false)
         (answer_items p) /\
  Reflect.Payload.challenges_faced p = [] /\
  match Reflect.activeTab s with
  | Reflect.daily =>
      length (Reflect.Payload.gratitude_items p) = 1%nat /\
      length (Reflect.Payload.lessons_learned p) = 1%nat /\
      length (Reflect.Payload.goals_progress p) = 1%nat
  | _ =>
      Reflect.Payload.gratitude_items p = [] /\
      length (Reflect.Payload.lessons_learned p) = 4%nat /\
      Reflect.Payload.goals_progress p = []
  end.
Proof.
  unfold answered. intros [Hlen Hall]. cbv zeta.
  assert (Hitems : answer_items (Reflect.reflectionData profileId s) =
            Some <$> take (length (Reflect.getQuestionsForType s)) (Reflect.responses s)).
  { unfold answer_items, Reflect.reflectionData, Reflect.getQuestionsForType in *.
    destruct (Reflect.activeTab s); cbn in *.
    - destruct (Reflect.responses s) as [|r0 [|r1 [|r2 rest]]]; cbn in *; try lia.
      reflexivity.
    - rewrite app_nil_r. reflexivity.
    - rewrite app_nil_r. reflexivity. }
  split; [exact Hitems|].
  split.
  { rewrite Hitems. apply Forall_fmap.
    eapply Forall_impl; [exact Hall|]. cbn. eauto. }
  split; [reflexivity|].
  unfold Reflect.reflectionData, Reflect.getQuestionsForType in *.
  destruct (Reflect.activeTab s); cbn in *; repeat split; try reflexivity;
    rewrite length_fmap, length_take; lia.
Qed.

(** X25: the outcome of a save that passed the validation.  It never
    rejects, redirects or touches the storage and ends with [loading]
    false.  When the POST is accepted the success alert is shown, the
    four answers are emptied and both scores are put back to 3, and the
    history is reloaded with one GET for the active tab; the emptied
    form no longer passes the validation.  When the POST fails one
    "Failed to save reflection" alert is shown and the answers and
    scores stay as typed. *)
Theorem submitReflection_outcome (post : Reply unit)
    (refetch : Reply (list Reflect.Reflection.t)) (profileId : string)
    (w : World Reflect.State) :
  Reflect.userProfileId (ui w) = Some profileId ->
  JS.is_empty profileId = false ->
  answered (ui w) ->
  let r := submitReflection post refetch w in
  fst r = Normal tt /\ disk (snd r) = disk w /\
  redirects (log (snd r)) = redirects (log w) /\
  if accepted post then
    ui (snd r) =
      Reflect.setLoading false (with_reflections (payload refetch) (cleared (ui w))) /\
    ~ answered (ui (snd r)) /\
    alerts (log (snd r)) =
      (alerts (log w) ++ [AlertShown "Success" "Reflection saved successfully!"])%list /\
    fetches (log (snd r)) =
      (fetches (log w) ++
       [Fetch "POST" (BACKEND_URL ++ "/api/reflections");
        Fetch "GET" (reflections_url profileId (Reflect.activeTab (ui w)))])%list
  else
    ui (snd r) = Reflect.setLoading false (ui w) /\
    alerts (log (snd r)) =
      (alerts (log w) ++ [AlertShown "Error" "Failed to save reflection"])%list /\
    fetches (log (snd r)) =
      (fetches (log w) ++ [Fetch "POST" (BACKEND_URL ++ "/api/reflections")])%list.
Proof.
  intros Hid Hne Hans. cbv zeta.
  assert (Htruthy : truthy (Reflect.userProfileId (ui w)) = true).
  { rewrite Hid. destruct profileId; [discriminate Hne|reflexivity]. }
  apply validation_passes_iff in Hans.
  unfold Reflect.submitReflection. run_async. rewrite Htruthy, Hans. cbn [negb].
  destruct w as [u d f l]. cbn [ui disk faulty log] in *.
  unfold accepted, backend_error.
  destruct post as [|[[|] j t]]; cbn [negb ok].
  1, 3: cbn; rewrite ?redirects_app, ?alerts_app, ?fetches_app; filter_logs;
        rewrite ?app_nil_r; repeat split; reflexivity.
  run_async. cbn [fst snd ui disk faulty log ok].
  match goal with |- context [Reflect.fetchReflections BACKEND_URL refetch ?w2] =>
    destruct (fetchReflections_run profileId refetch w2 Hid Hne)
      as (notes & Hnotes & ->)
  end.
  destruct (console_notes_quiet notes Hnotes) as (Hf & Ha & Hr).
  cbn [fst snd ui disk faulty log].
  rewrite !fetches_app, !alerts_app, !redirects_app.
  change (?e :: notes) with ([e] ++ notes)%list.
  rewrite !fetches_app, !alerts_app, !redirects_app, Hf, Ha, Hr.
  filter_logs. rewrite ?app_nil_r, <- ?app_assoc.
  assert (Hblank : forall u', Reflect.responses u' = [""; ""; ""; ""] -> ~ answered u').
  { intros u' Hresp [_ Hall]. rewrite Hresp in Hall.
    unfold Reflect.getQuestionsForType in Hall.
    destruct (Reflect.activeTab u'); cbn in Hall;
      apply Forall_cons in Hall as [Hall _]; discriminate Hall. }
  unfold with_reflections, cleared.
  destruct (payload refetch); repeat split; try reflexivity; apply Hblank; reflexivity.
Qed.

(** One handler keeps the form at rest. *)
Lemma handle_form_inv (ev : Reflect.Event) (w : World Reflect.State) :
  form_inv (ui w) ->
  exists u' l',
    handle ev w = (Normal tt, mkWorld u' (disk w) (faulty w) l') /\ form_inv u'.
Proof.
  intros Hinv. pose proof Hinv as (Hlen & Hmood & Hprod & Hload).
  assert (Hfetch : forall reply (w0 : World Reflect.State),
            truthy (Reflect.userProfileId (ui w0)) = true ->
            exists u' l',
              fetchReflections reply w0 = (Normal tt, mkWorld u' (disk w0) (faulty w0) l') /\
              Reflect.responses u' = Reflect.responses (ui w0) /\
              Reflect.moodScore u' = Reflect.moodScore (ui w0) /\
              Reflect.productivityScore u' = Reflect.productivityScore (ui w0) /\
              Reflect.loading u' = false).
  { intros reply w0 Ht.
    destruct (Reflect.userProfileId (ui w0)) as [[|c p]|] eqn:Hid; try discriminate Ht.
    destruct (fetchReflections_run (String c p) reply w0 Hid eq_refl)
      as (notes & _ & ->).
    eexists; eexists; split; [reflexivity|].
    unfold with_reflections. destruct (payload reply); repeat split; reflexivity. }
  destruct w as [u d f l]. cbn [ui disk faulty log] in *.
  unfold Reflect.handle.
  unfold mbind at 1, async_bind at 1, bind at 1, getState at 1. cbn [ui].
  destruct ev as [index text|tab reply|score|score|post refetch].
  - destruct (index <? _)%nat; [|exists u, l; split; [reflexivity|exact Hinv]].
    unfold Reflect.onChangeText. run_async. cbn.
    eexists; eexists; split; [reflexivity|].
    repeat split; cbn; try assumption; try lia.
    rewrite length_insert. exact Hlen.
  - assert (Hstay : exists u' l',
              (Normal tt, mkWorld (Reflect.setActiveTab tab u) d f l)
              = (Normal tt, mkWorld u' d f l') /\ form_inv u').
    { eexists; eexists; split; [reflexivity|]. repeat split; cbn; try assumption; lia. }
    assert (Hmove : exists u' l',
              Reflect.reflectionsEffect BACKEND_URL reply
                (mkWorld (Reflect.setActiveTab tab u) d f l)
              = (Normal tt, mkWorld u' d f l') /\ form_inv u').
    { unfold Reflect.reflectionsEffect. run_async. cbn [ui].
      destruct (truthy (Reflect.userProfileId (Reflect.setActiveTab tab u))) eqn:Ht.
      - destruct (Hfetch reply (mkWorld (Reflect.setActiveTab tab u) d f l) Ht)
          as (u' & l' & -> & H1 & H2 & H3 & H4).
        exists u', l'. split; [reflexivity|]. unfold form_inv.
        rewrite H1, H2, H3, H4. cbn. repeat split; try assumption; lia.
      - exact Hstay. }
    run_async. cbn [fst snd ui disk faulty log].
    destruct (Reflect.activeTab u), tab; assumption.
  - destruct (Reflect.on_scale u score) eqn:Hs; [|exists u, l; split; [reflexivity|exact Hinv]].
    unfold Reflect.on_scale in Hs.
    destruct (Reflect.activeTab u); try discriminate Hs.
    apply andb_true_iff in Hs as [H1 H2]. apply Z.leb_le in H1, H2.
    run_async. eexists; eexists; split; [reflexivity|].
    repeat split; cbn; try assumption; lia.
  - destruct (Reflect.on_scale u score) eqn:Hs; [|exists u, l; split; [reflexivity|exact Hinv]].
    unfold Reflect.on_scale in Hs.
    destruct (Reflect.activeTab u); try discriminate Hs.
    apply andb_true_iff in Hs as [H1 H2]. apply Z.leb_le in H1, H2.
    run_async. eexists; eexists; split; [reflexivity|].
    repeat split; cbn; try assumption; lia.
  - rewrite Hload. unfold Reflect.submitReflection. run_async. cbn [ui].
    destruct (truthy (Reflect.userProfileId u)) eqn:Ht; cbn [negb];
      [|eexists; eexists; split; [reflexivity|exact Hinv]].
    destruct (_ <? _)%nat;
      [eexists; eexists; split; [reflexivity|exact Hinv]|].
    destruct post as [|[[|] j t]]; run_async; cbn [fst snd ui disk faulty log ok].
    1, 3: eexists; eexists; split; [reflexivity|]; repeat split; cbn; try assumption; lia.
    match goal with |- context [Reflect.fetchReflections BACKEND_URL refetch ?w2] =>
      destruct (Hfetch refetch w2 Ht) as (u' & l' & -> & H1 & H2 & H3 & H4)
    end.
    cbn [fst snd ui disk faulty log] in *.
    eexists; eexists; split; [reflexivity|]. unfold form_inv.
    cbn. rewrite H1, H2, H3. cbn. repeat split; try reflexivity; lia.
Qed.

(** X26: the form stays well formed.  Whatever the user does on the
    reflect screen - typing answers, switching tabs, choosing scores,
    saving, with any replies of the backend - every handler completes
    normally, the storage is not written, and afterwards the form still
    has its four answer slots (so every write of an answer is inside the
    array), both scores are on the scale 1 to 5 and [loading] is
    false. *)
Theorem reflect_form_stays_well_formed (evs : list Reflect.Event)
    (w : World Reflect.State) :
  form_inv (ui w) ->
  let r := session evs w in
  fst r = Normal tt /\ disk (snd r) = disk w /\ faulty (snd r) = faulty w /\
  form_inv (ui (snd r)).
Proof.
  revert w. induction evs as [|ev evs IH]; intros w Hinv; cbv zeta.
  - repeat split; try reflexivity; apply Hinv.
  - destruct (handle_form_inv ev w Hinv) as (u' & l' & Hrun & Hinv').
    cbn [Reflect.session]. unfold mbind, async_bind, bind. rewrite Hrun.
    apply (IH (mkWorld u' (disk w) (faulty w) l') Hinv').
Qed.

End ReflectScreen.

Section ReflectExamples.

Import Demo DemoReflect.

Lemma daily_form_answered : answered (ui daily_form).
Proof. split; [cbn; lia|]. repeat constructor. Defined.

Lemma submitReflection_requires_all_answers_witness :
  exists rest,
    log (snd (Reflect.submitReflection url saved history daily_form)) =
    Fetch "POST" (url ++ "/api/reflections") :: rest.
Proof.
  refine (proj1 (submitReflection_requires_all_answers url saved history "p-1"
                   daily_form eq_refl eq_refl) daily_form_answered).
Defined.

Lemma reflectionData_sends_the_answers_witness :
  answer_items (Reflect.reflectionData "p-1" (ui daily_form)) =
  [Some "family"; Some "shipped"; Some "rest"].
Proof.
  refine (proj1 (reflectionData_sends_the_answers "p-1" (ui daily_form)
                   daily_form_answered)).
Defined.

Lemma submitReflection_outcome_witness :
  ui (snd (Reflect.submitReflection url saved history daily_form)) =
  Reflect.mkState Reflect.daily [] false (Some "p-1") 3 3 [""; ""; ""; ""].
Proof.
  refine (proj1 (proj2 (proj2 (proj2
    (submitReflection_outcome url saved history "p-1" daily_form
       eq_refl eq_refl daily_form_answered))))).
Defined.

Lemma initial_form_inv : form_inv Reflect.initial.
Proof. repeat split; cbn; lia. Defined.

Lemma reflect_form_stays_well_formed_witness :
  form_inv (ui (snd (Reflect.session url visit
                       (mkWorld Reflect.initial profile_disk ∅ [])))).
Proof.
  refine (proj2 (proj2 (proj2
    (reflect_form_stays_well_formed url visit
       (mkWorld Reflect.initial profile_disk ∅ []) initial_form_inv)))).
Defined.

End ReflectExamples.

(** ** The floating widget *)

Section WidgetCountdown.

Import FloatingWidget.

Variable Date_getTime : string -> JS.Num.

Notation formatTimeRemaining := (formatTimeRemaining Date_getTime).

(** Hours, minutes and seconds are the time of day of [t]. *)
Lemma clock_units (t : Z) :
  0 <= t ->
  (t mod day_ms) / hour_ms * hour_ms + (t mod hour_ms) / minute_ms * minute_ms
  + (t mod minute_ms) / 1000 * 1000 + t mod 1000
  = t mod day_ms.
Proof.
  intros Ht.
  change day_ms with 86400000. change hour_ms with 3600000.
  change minute_ms with 60000.
  assert (H1 : t mod 3600000 = (t mod 86400000) mod 3600000).
  { symmetry. apply Z.mod_mod_divide. exists 24. reflexivity. }
  assert (H2 : t mod 60000 = (t mod 3600000) mod 60000).
  { symmetry. apply Z.mod_mod_divide. exists 60. reflexivity. }
  assert (H3 : t mod 1000 = (t mod 60000) mod 1000).
  { symmetry. apply Z.mod_mod_divide. exists 60. reflexivity. }
  pose proof (Z.div_mod (t mod 86400000) 3600000 ltac:(lia)) as E1.
  pose proof (Z.div_mod (t mod 3600000) 60000 ltac:(lia)) as E2.
  pose proof (Z.div_mod (t mod 60000) 1000 ltac:(lia)) as E3.
  lia.
Qed.

(** X27: how the units of the countdown fit together.  While time is
    left, years and days split the remaining time [t] exactly, leaving a
    rest [r] of less than a day.  Hours, minutes and seconds, however,
    are not the split of [r]: they are the split of [r] moved forward by
    6 hours for every whole year beyond a multiple of four (a year
    counts 365.25 days), wrapping at 24 hours.  They are the split of
    [r] itself exactly when the number of whole years is a multiple of
    four. *)
Theorem countdown_hours_offset (now : Z) (w : Widget) (stats : MortalityStats)
    (death : Z) :
  mortalityStats w = Some stats ->
  Date_getTime (expected_death_date stats) = Some death ->
  now < death ->
  exists y d h m s,
    formatTimeRemaining now w
    = {| years := Some y; days := Some d; hours := Some h;
         minutes := Some m; seconds := Some s |} /\
    let t := death - now in
    let r := t - y * year_ms - d * day_ms in
    let shown := h * hour_ms + m * minute_ms + s * 1000 + t mod 1000 in
    0 <= r < day_ms /\
    shown = (r + 6 * (y mod 4) * hour_ms) mod day_ms /\
    (shown = r <-> y mod 4 = 0).
Proof.
  intros Hstats Hdeath Hlt.
  rewrite (formatTimeRemaining_valid Date_getTime now w stats death Hstats Hdeath).
  assert (Hpos : (death - now <=? 0) = false) by (apply Z.leb_gt; lia).
  rewrite Hpos. cbv zeta.
  set (t := death - now). assert (Ht : 0 < t) by (unfold t; lia).
  rewrite !Z.rem_mod_nonneg by (try lia; reflexivity).
  do 5 eexists. split; [reflexivity|].
  pose proof (clock_units t ltac:(lia)) as Hclock.
  rewrite Hclock. clear Hclock.
  rewrite year_ms_value.
  change day_ms with 86400000. change hour_ms with 3600000.
  pose proof (Z.div_mod t 31557600000 ltac:(lia)) as Ey.
  pose proof (Z.mod_pos_bound t 31557600000 ltac:(lia)) as By.
  pose proof (Z.div_mod (t mod 31557600000) 86400000 ltac:(lia)) as Ed.
  pose proof (Z.mod_pos_bound (t mod 31557600000) 86400000 ltac:(lia)) as Bd.
  set (y := t / 31557600000) in *.
  set (d := (t mod 31557600000) / 86400000) in *.
  set (r := (t mod 31557600000) mod 86400000) in *.
  replace (t - y * 31557600000 - d * 86400000) with r by lia.
  pose proof (Z.div_mod y 4 ltac:(lia)) as E4.
  pose proof (Z.mod_pos_bound y 4 ltac:(lia)) as B4.
  assert (Hmod : t mod 86400000 = (r + 6 * (y mod 4) * 3600000) mod 86400000).
  { replace t with (r + 6 * (y mod 4) * 3600000 + (365 * y + d + y / 4) * 86400000)
      at 1 by lia.
    apply Z_mod_plus_full. }
  split; [lia|]. split; [exact Hmod|].
  rewrite Hmod.
  pose proof (Z.div_mod (r + 6 * (y mod 4) * 3600000) 86400000 ltac:(lia)) as Ex.
  pose proof (Z.mod_pos_bound (r + 6 * (y mod 4) * 3600000) 86400000 ltac:(lia)) as Bx.
  split.
  - intros Heq.
    assert (Hq : 0 <= (r + 6 * (y mod 4) * 3600000) / 86400000)
      by (apply Z.div_pos; lia).
    assert (Hq1 : (r + 6 * (y mod 4) * 3600000) / 86400000 < 2)
      by (apply Z.div_lt_upper_bound; lia).
    lia.
  - intros H0. rewrite H0, Z.mul_0_r, Z.mul_0_l, Z.add_0_r.
    apply Z.mod_small. lia.
Qed.

End WidgetCountdown.

Section WidgetSessions.

Import FloatingWidget.

Variables screenWidth screenHeight : Q.
Variable BACKEND_URL : string.
Variable Date_getTime : string -> JS.Num.

Notation fetchData := (fetchData BACKEND_URL).
Notation commit := (commit Date_getTime).
Notation refresh_effect := (refresh_effect BACKEND_URL).
Notation mount := (mount screenWidth screenHeight Date_getTime).
Notation step := (step screenWidth screenHeight BACKEND_URL Date_getTime).
Notation run := (run screenWidth screenHeight BACKEND_URL Date_getTime).
Notation reachable := (reachable screenWidth screenHeight BACKEND_URL Date_getTime).

Lemma widget_inv_fetchData d f (id : option string) (mortality : Reply MortalityStats)
    (daily : Reply Quote.t) (w : World Widget) :
  widget_inv d f w -> widget_inv d f (snd (fetchData id mortality daily w)).
Proof.
  unfold widget_inv, canonical_size, FloatingWidget.fetchData.
  destruct w as [u d0 f0 l]. cbn [ui disk faulty log].
  intros (-> & -> & Hlog & Hsize).
  destruct id as [profileId|]; [destruct profileId as [|c p]|];
    [| destruct mortality as [|[ok1 [m|] t1]]; [| destruct ok1 .. ];
       (destruct daily as [|[ok2 [q|] t2]]; [| destruct ok2 .. ]) |];
    run_async; cbn; repeat split; auto;
    repeat (apply Forall_app; split); auto; repeat constructor.
Qed.

Lemma widget_inv_initializeWidget d f (w : World Widget) :
  widget_inv d f w -> widget_inv d f (snd (initializeWidget w)).
Proof.
  unfold widget_inv, canonical_size, FloatingWidget.initializeWidget.
  destruct w as [u d0 f0 l]. cbn [ui disk faulty log].
  intros (-> & -> & Hlog & Hsize). run_async.
  destruct (decide _); cbn; repeat split; auto.
  apply Forall_app; split; auto. repeat constructor.
Qed.

Lemma widget_inv_commit d f (rt : Runtime) :
  widget_inv d f (world rt) -> widget_inv d f (world (commit rt)).
Proof.
  unfold FloatingWidget.commit.
  destruct (mounted rt && stale (ui (world rt))); [|auto].
  unfold widget_inv, canonical_size. cbn. auto.
Qed.

Lemma widget_inv_update d f (g : Widget -> Widget) (w : World Widget) :
  (forall u, canonical_size u -> canonical_size (g u)) ->
  widget_inv d f w -> widget_inv d f (map_ui g w).
Proof.
  unfold widget_inv. cbn. intros Hg (H1 & H2 & H3 & H4). auto.
Qed.

Lemma widget_inv_keep_ui d f (old w : World Widget) :
  widget_inv d f old -> widget_inv d f w -> widget_inv d f (keep_ui old w).
Proof. unfold widget_inv. cbn. tauto. Qed.

Lemma canonical_toggleMinimized (u : Widget) :
  canonical_size u -> canonical_size (toggleMinimized u).
Proof.
  unfold canonical_size, toggleMinimized. cbn.
  destruct (isMinimized u); reflexivity.
Qed.

Lemma widget_inv_refresh_effect d f (mortality : Reply MortalityStats)
    (daily : Reply Quote.t) (rt : Runtime) :
  widget_inv d f (world rt) ->
  widget_inv d f (world (refresh_effect mortality daily rt)).
Proof.
  unfold FloatingWidget.refresh_effect. intros H.
  destruct (truthy _); [|exact H]. cbn [world]. apply widget_inv_fetchData, H.
Qed.

Lemma widget_inv_step d f (rt rt' : Runtime) (ev : Event) :
  widget_inv d f (world rt) -> step rt ev = Some rt' -> widget_inv d f (world rt').
Proof.
  intros Hinv.
  destruct ev as [m q|dt|m q| | |e|e| ]; cbn [FloatingWidget.step].
  - destruct (initializing rt); [|discriminate].
    pose proof (widget_inv_initializeWidget d f (world rt) Hinv) as Hw.
    destruct (mounted rt).
    + set (rt0 := mkRuntime _ true false _ _ _ _ _ _).
      assert (H0 : widget_inv d f (world (commit rt0)))
        by (apply widget_inv_commit; exact Hw).
      destruct (decide _); intros [= <-]; [exact H0|].
      apply widget_inv_commit, widget_inv_refresh_effect.
      destruct (run_cleanup_frame (commit rt0)) as (-> & _). exact H0.
    + intros [= <-]. cbn [world]. apply widget_inv_keep_ui; assumption.
  - destruct (_ && _); [|discriminate]. intros [= <-]. exact Hinv.
  - destruct (find _ _) as [i|]; [|discriminate]. intros [= <-].
    apply widget_inv_commit. cbn [world].
    pose proof (widget_inv_fetchData d f (closure i) m q (world rt) Hinv) as Hw.
    destruct (mounted rt); [exact Hw|]. apply widget_inv_keep_ui; assumption.
  - destruct (mounted rt); [|discriminate]. intros [= <-].
    apply widget_inv_commit. cbn [world set_world].
    apply widget_inv_update; [apply canonical_toggleMinimized|exact Hinv].
  - destruct (mounted rt); [|discriminate]. intros [= <-].
    apply widget_inv_commit. cbn [world set_world].
    apply widget_inv_update; [|exact Hinv]. intros u Hu. exact Hu.
  - destruct (mounted rt); [|discriminate]. intros [= <-].
    cbn [world set_world].
    apply widget_inv_update; [|exact Hinv]. intros u Hu. exact Hu.
  - destruct (mounted rt); [|discriminate]. intros [= <-].
    cbn [world set_world].
    apply widget_inv_update; [|exact Hinv]. intros u Hu.
    rewrite ?handleGestureStateChange_id. exact Hu.
  - destruct (mounted rt); [|discriminate]. intros [= <-].
    match goal with |- context [run_cleanup ?r] =>
      destruct (run_cleanup_frame r) as (-> & _) end.
    exact Hinv.
Qed.

Lemma widget_inv_run d f (evs : list Event) (rt rt' : Runtime) :
  widget_inv d f (world rt) -> run rt evs = Some rt' -> widget_inv d f (world rt').
Proof.
  revert rt. induction evs as [|ev evs IH]; intros rt Hinv; cbn [FloatingWidget.run].
  - intros [= <-]. exact Hinv.
  - destruct (step rt ev) as [rt1|] eqn:E; [|discriminate].
    apply IH. exact (widget_inv_step d f rt rt1 ev Hinv E).
Qed.

Lemma widget_inv_mount (now : Z) d f : widget_inv d f (world (mount now d f)).
Proof. repeat split. constructor. Qed.

(** X28: the widget only reads.  Over a whole session - whatever the
    storage holds, the backend answers and the user does - the widget
    never writes to AsyncStorage, never shows an alert and never
    navigates: everything it does to the outside is a GET request or a
    console message. *)
Theorem widget_session_read_only (now : Z) (d : gmap string string)
    (f : gset string) (evs : list Event) (rt : Runtime) :
  run (mount now d f) evs = Some rt ->
  disk (world rt) = d /\
  Forall read_only_effect (log (world rt)) /\
  alerts (log (world rt)) = [] /\
  redirects (log (world rt)) = [].
Proof.
  intros Hrun.
  pose proof (widget_inv_run d f evs _ rt (widget_inv_mount now d f) Hrun)
    as (Hd & _ & Hlog & _).
  split; [exact Hd|]. split; [exact Hlog|].
  induction Hlog as [|e l He _ IH]; [split; reflexivity|].
  destruct e; cbn in He; try contradiction; filter_logs; exact IH.
Qed.

(** X29: on every state a session can reach, scale and opacity are the
    pair that belongs to [isMinimized] (0.7 and 0.6 when minimized, 1
    and 0.9 otherwise).  Therefore two taps in a row bring a mounted
    widget back to the size it had, and two long-presses to the mode it
    had, each leaving mode, size and position otherwise alone. *)
Theorem tap_twice_restores (rt : Runtime) :
  reachable rt ->
  mounted rt = true ->
  canonical_size (ui (world rt)) /\
  (exists rt2, run rt [Tap; Tap] = Some rt2 /\
     size (ui (world rt2)) = size (ui (world rt)) /\
     mode (ui (world rt2)) = mode (ui (world rt)) /\
     position (ui (world rt2)) = position (ui (world rt))) /\
  (exists rt2, run rt [LongPress; LongPress] = Some rt2 /\
     size (ui (world rt2)) = size (ui (world rt)) /\
     mode (ui (world rt2)) = mode (ui (world rt)) /\
     position (ui (world rt2)) = position (ui (world rt))).
Proof.
  intros (now & d & f & evs & Hrun) Hm.
  pose proof (widget_inv_run d f evs _ rt (widget_inv_mount now d f) Hrun)
    as (_ & _ & _ & Hsize).
  split; [exact Hsize|].
  assert (Hpress : forall (g : Widget -> Widget) (r : Runtime),
            mounted r = true ->
            let r' := commit (set_world (map_ui g (world r)) r) in
            mounted r' = true /\
            size (ui (world r')) = size (g (ui (world r))) /\
            mode (ui (world r')) = mode (g (ui (world r))) /\
            position (ui (world r')) = position (g (ui (world r)))).
  { intros g r Hr. cbv zeta.
    destruct (commit_frame Date_getTime (set_world (map_ui g (world r)) r))
      as (-> & _).
    destruct (commit_fields Date_getTime (set_world (map_ui g (world r)) r))
      as (_ & H2 & _ & _ & _ & H6 & H7 & _).
    cbv zeta in H2, H6, H7. rewrite H2, H6, H7. cbn. auto. }
  unfold canonical_size in Hsize.
  split.
  - cbn [FloatingWidget.run FloatingWidget.step]. rewrite Hm.
    set (rt1 := commit (set_world (map_ui toggleMinimized (world rt)) rt)).
    destruct (Hpress toggleMinimized rt Hm) as (Hm1 & Hs1 & Hmo1 & Hp1).
    fold rt1 in Hm1, Hs1, Hmo1, Hp1. rewrite Hm1.
    destruct (Hpress toggleMinimized rt1 Hm1) as (_ & Hs2 & Hmo2 & Hp2).
    eexists. split; [reflexivity|].
    rewrite Hs2, Hmo2, Hp2.
    unfold size, position, toggleMinimized in *. cbn in *.
    injection Hs1 as Hmin Hsc Hop. injection Hp1 as Hx Hy.
    rewrite Hmin, Hmo1, Hx, Hy.
    destruct (isMinimized (ui (world rt))); cbn;
      injection Hsize as <- <-; auto.
  - cbn [FloatingWidget.run FloatingWidget.step]. rewrite Hm.
    set (rt1 := commit (set_world (map_ui switchMode (world rt)) rt)).
    destruct (Hpress switchMode rt Hm) as (Hm1 & Hs1 & Hmo1 & Hp1).
    fold rt1 in Hm1, Hs1, Hmo1, Hp1. rewrite Hm1.
    destruct (Hpress switchMode rt1 Hm1) as (_ & Hs2 & Hmo2 & Hp2).
    eexists. split; [reflexivity|].
    rewrite Hs2, Hmo2, Hp2.
    unfold size, position, switchMode in *. cbn in *.
    injection Hs1 as Hmin Hsc Hop. injection Hp1 as Hx Hy.
    rewrite Hmin, Hsc, Hop, Hmo1, Hx, Hy.
    destruct (mode (ui (world rt))); auto.
Qed.

Lemma drag_step (rt : Runtime) (ev : Event) :
  mounted rt = true -> is_drag ev = true ->
  exists x y,
    step rt ev = Some (set_world (map_ui (setTranslate x y) (world rt)) rt) /\
    (x, y) = default (position (ui (world rt))) (last_pan [ev]).
Proof.
  intros Hm Hdrag. destruct ev as [m q|dt|m q| | |e|e| ]; try discriminate Hdrag;
    cbn [FloatingWidget.step]; rewrite Hm.
  - exists (translationX e), (translationY e). split; reflexivity.
  - exists (translateX (ui (world rt))), (translateY (ui (world rt))).
    split; [|reflexivity].
    destruct rt as [[[] ? ? ?] ? ? ? ? ? ? ? ?].
    unfold map_ui. cbn [world ui]. rewrite handleGestureStateChange_id. reflexivity.
Qed.

Lemma last_pan_cons (ev : Event) (evs : list Event) (p : Q * Q) :
  default p (last_pan (ev :: evs)) = default (default p (last_pan [ev])) (last_pan evs).
Proof.
  unfold last_pan. cbn [foldl].
  generalize (match ev with Pan e => Some (translationX e, translationY e)
                          | _ => None end) as acc0.
  assert (H : forall acc,
            foldl (fun acc ev => match ev with
                                 | Pan e => Some (translationX e, translationY e)
                                 | _ => acc
                                 end) acc evs
            = match foldl (fun acc ev => match ev with
                                         | Pan e => Some (translationX e, translationY e)
                                         | _ => acc
                                         end) None evs with
              | Some q => Some q
              | None => acc
              end).
  { induction evs as [|e evs IH]; intros acc; cbn [foldl]; [reflexivity|].
    rewrite IH. rewrite (IH (match e with Pan _ => _ | _ => None end)).
    destruct (foldl _ None evs); [reflexivity|]. destruct e; reflexivity. }
  intros acc0. rewrite H.
  destruct (foldl _ None evs); [reflexivity|]. destruct acc0; reflexivity.
Qed.

(** X30: dragging is silent.  While the finger moves - pan events and
    gesture state changes other than [State.ENDED], in any order - a mounted
    widget follows the latest pan translation and nothing else happens:
    no render is scheduled and the screen is not redrawn, no request is
    made, the timers, the clock bookkeeping and the stored gesture state
    are untouched. *)
Theorem drag_is_silent (rt : Runtime) (evs : list Event) :
  mounted rt = true ->
  forallb is_drag evs = true ->
  exists x y,
    run rt evs = Some (set_world (map_ui (setTranslate x y) (world rt)) rt) /\
    (x, y) = default (position (ui (world rt))) (last_pan evs).
Proof.
  revert rt. induction evs as [|ev evs IH]; intros rt Hm Hdrag.
  - exists (translateX (ui (world rt))), (translateY (ui (world rt))).
    split; [|reflexivity]. cbn. destruct rt as [[[] ? ? ?] ? ? ? ? ? ? ? ?]. reflexivity.
  - cbn [forallb] in Hdrag. apply andb_true_iff in Hdrag as [Hev Hrest].
    destruct (drag_step rt ev Hm Hev) as (x1 & y1 & Hstep & Hxy1).
    cbn [FloatingWidget.run]. rewrite Hstep.
    destruct (IH (set_world (map_ui (setTranslate x1 y1) (world rt)) rt) Hm Hrest)
      as (x & y & Hrun & Hxy).
    exists x, y. rewrite Hrun. split; [reflexivity|].
    rewrite last_pan_cons, <- Hxy1. exact Hxy.
Qed.

End WidgetSessions.

Section WidgetExamples.

Import FloatingWidget Demo.

Lemma countdown_hours_offset_witness :
  exists y d h m s,
    formatTimeRemaining getTime 0 (setMortalityStats snapshot (initial 400 800))
    = {| years := Some y; days := Some d; hours := Some h;
         minutes := Some m; seconds := Some s |} /\
    0 <= 90061001 - 0 - y * year_ms - d * day_ms < day_ms.
Proof.
  destruct (countdown_hours_offset getTime 0
              (setMortalityStats snapshot (initial 400 800)) snapshot 90061001
              eq_refl eq_refl eq_refl)
    as (y & d & h & m & s & Heq & Hr & _).
  exists y, d, h, m, s. split; [exact Heq | exact Hr].
Defined.

Lemma widget_session_read_only_witness :
  match session profile_disk [ProfileRead stats_ok server_error; Tap] with
  | Some rt => disk (world rt) = profile_disk /\ alerts (log (world rt)) = []
  | None => False
  end.
Proof.
  destruct (session profile_disk [ProfileRead stats_ok server_error; Tap])
    as [rt|] eqn:E.
  - destruct (widget_session_read_only 400 800 url getTime 0 profile_disk ∅
                [ProfileRead stats_ok server_error; Tap] rt E)
      as (Hd & _ & Ha & _).
    split; [exact Hd | exact Ha].
  - vm_compute in E. discriminate E.
Defined.

Lemma mounted_at_epoch_reachable (d : gmap string string) :
  reachable 400 800 url getTime (mounted_at_epoch d).
Proof. exists 0, d, ∅, []. reflexivity. Defined.

Lemma tap_twice_restores_witness :
  exists rt2,
    run 400 800 url getTime (mounted_at_epoch profile_disk) [Tap; Tap] = Some rt2 /\
    size (ui (world rt2)) = (false, 1, 0.9)%Q.
Proof.
  destruct (proj1 (proj2 (tap_twice_restores 400 800 url getTime
                            (mounted_at_epoch profile_disk)
                            (mounted_at_epoch_reachable profile_disk) eq_refl)))
    as (rt2 & Hrun & Hsize & _).
  exists rt2. split; [exact Hrun | exact Hsize].
Defined.

Lemma drag_is_silent_witness :
  exists x y,
    session profile_disk
      [Pan (mkNativeEvent ACTIVE 10 50); PanStateChange (mkNativeEvent CANCELLED 12 55)]
    = Some (set_world (map_ui (setTranslate x y) (world (mounted_at_epoch profile_disk)))
              (mounted_at_epoch profile_disk)) /\
    (x, y) = (10, 50)%Q.
Proof.
  exact (drag_is_silent 400 800 url getTime (mounted_at_epoch profile_disk)
           [Pan (mkNativeEvent ACTIVE 10 50);
            PanStateChange (mkNativeEvent CANCELLED 12 55)] eq_refl eq_refl).
Defined.

End WidgetExamples.

(** ** What the onboarding validation lets through *)

Section ValidationGaps.

Import Demo DemoOnboarding.

(** [parseInt] on a few entries of the life-expectancy field. *)
Lemma parseInt_entries :
  JS.parseInt "85" = Some 85 /\ JS.parseInt " 19" = Some 19 /\
  JS.parseInt "-5" = Some (-5) /\ JS.parseInt "12a" = Some 12 /\
  JS.parseInt "0x1" = Some 1 /\
  JS.parseInt "-" = JS.NaN /\ JS.parseInt "." = JS.NaN /\ JS.parseInt "abc" = JS.NaN.
Proof. repeat split; reflexivity. Qed.

Lemma calendar_date_examples :
  calendar_date "1990-12-25" = true /\ calendar_date "2000-02-29" = true /\
  calendar_date "1900-02-29" = false /\ calendar_date "1990-02-30" = false /\
  calendar_date "1990-13-01" = false /\ calendar_date "1990-04-31" = false /\
  calendar_date "1990-2-03" = false.
Proof. repeat split; reflexivity. Qed.

(** A custom entry that [parseInt] reads as [NaN] passes the range
    check, whatever else the form holds: neither [NaN < 20] nor
    [NaN > 120] is true. *)
Lemma nan_passes_range_check (s : Onboarding.State) :
  Onboarding.useCustomExpectancy s = true ->
  Onboarding.lifeExpectancy s <> "" ->
  JS.parseInt (Onboarding.lifeExpectancy s) = JS.NaN ->
  passes_range_check (Onboarding.finalLifeExpectancy JS.parseInt s) = true.
Proof.
  intros Hcustom Hentry Hnan.
  unfold passes_range_check, Onboarding.finalLifeExpectancy.
  rewrite Hcustom.
  destruct (Onboarding.lifeExpectancy s) as [|c l]; [contradiction|].
  cbn [JS.is_empty negb andb]. rewrite Hnan. reflexivity.
Qed.

(** C5, the code at two validation errors.  (1) At step two, with
    "custom life expectancy" chosen and the entry "-": [parseInt] gives
    [NaN], no alert is shown, the profile is POSTed, both keys are
    stored and the app moves on to /(tabs).  (2) At step one, the birth
    date 1990-02-30, which is no day of the calendar: where [new Date]
    carries the two days over into March, the date is accepted without
    an alert and the form moves to step two. *)
Theorem validation_lets_invalid_input_through :
  (JS.parseInt "-" = JS.NaN /\
   Onboarding.handleComplete JS.parseInt created (custom_entry "-") =
     (Normal tt,
      mkWorld (ui (custom_entry "-")) (onboarded "p-9" ∅) ∅
              [Fetch "POST" (Onboarding.BACKEND_URL ++ "/api/profile");
               RouterReplace "/(tabs)"])) /\
  (calendar_date "1990-02-30" = false /\
   Onboarding.handleNext getTime_rolling_over JS.parseInt 1700000000000 created
     (typed "1990-02-30") =
     (Normal tt,
      mkWorld (Onboarding.setCurrentStep 2 (ui (typed "1990-02-30"))) ∅ ∅ [])).
Proof.
  split; [split|split].
  - reflexivity.
  - unfold Onboarding.handleComplete, custom_entry. run_async. reflexivity.
  - reflexivity.
  - unfold Onboarding.handleNext, typed. run_async. reflexivity.
Qed.

End ValidationGaps.
